(** * Carga masiva de productos: validation and reconciliation engine

    A shallow embedding of [app/services/base_carga_masiva_service.py] and
    [app/services/carga_masiva_producto_service.py], with the column
    renaming and the format test of [app/routers/carga_masiva.py], and the
    properties of the row validators, the reference cache, the column
    normaliser and the commit pass.

    Scope of the model.  A Python [str] is carried as the [string] of the
    bytes of its UTF-8 encoding.  Joining, comparing, [endswith],
    [strip('_')] and the substitutions of the ASCII classes [[ .-]], [_] and
    [[\r\n\t]] act on that encoding exactly as they act on the code points.
    The methods that depend on the Unicode tables ([str.lower], [str.upper],
    [str.strip], NFKD decomposition with the removal of combining marks, the
    class [\s]) are methods of the interpreter, class [Python] below, given
    together with the numeric conversions ([float] of a text, [float] of an
    integer, [str] of a float); what is known of them is how they act on
    ASCII text, which is what module [PyStr] defines.  The pandas readers
    and the failures of the database session are parameters of a pass. *)

From Stdlib Require Import ZArith QArith Ascii String List Bool Lia DecimalString.
From Stdlib Require Import Sorted.
From stdpp Require Import base decidable option list gmap sets strings.
Import ListNotations.

Open Scope string_scope.

(** ** Text primitives *)

(** The functions of this module that bear the name of a method of [str]
    ([lower], [upper], [strip], [isspace]) are that method on ASCII text.
    The others act on any text. *)
Module PyStr.

(** [str.isspace] on ASCII: TAB, LF, VT, FF, CR, FS, GS, RS, US and SPACE. *)
Definition isspace (c : ascii) : bool :=
  let n := N_of_ascii c in
  (((9 <=? n) && (n <=? 13)) || ((28 <=? n) && (n <=? 32)))%N.

Definition lower_char (c : ascii) : ascii :=
  let n := N_of_ascii c in
  if ((65 <=? n) && (n <=? 90))%N then ascii_of_N (n + 32) else c.

Definition upper_char (c : ascii) : ascii :=
  let n := N_of_ascii c in
  if ((97 <=? n) && (n <=? 122))%N then ascii_of_N (n - 32) else c.

Fixpoint map_str (f : ascii -> ascii) (s : string) : string :=
  match s with
  | EmptyString => EmptyString
  | String c r => String (f c) (map_str f r)
  end.

(** [s.lower()] and [s.upper()] on ASCII text. *)
Definition lower : string -> string := map_str lower_char.
Definition upper : string -> string := map_str upper_char.

Fixpoint lstrip_by (p : ascii -> bool) (s : string) : string :=
  match s with
  | EmptyString => EmptyString
  | String c r => if p c then lstrip_by p r else s
  end.

Fixpoint rstrip_by (p : ascii -> bool) (s : string) : string :=
  match s with
  | EmptyString => EmptyString
  | String c r =>
      match rstrip_by p r with
      | EmptyString => if p c then EmptyString else String c EmptyString
      | t => String c t
      end
  end.

Definition strip_by (p : ascii -> bool) (s : string) : string :=
  rstrip_by p (lstrip_by p s).

(** [s.strip()] on ASCII text. *)
Definition strip : string -> string := strip_by isspace.

(** [s.strip(chars)] for a one-character [chars]. *)
Definition strip_char (d : ascii) : string -> string :=
  strip_by (Ascii.eqb d).

(** [re.sub(r'[cls]+', '_', s)]: every maximal run of characters of the
    class becomes one underscore.  [dentro] records that the previous
    character belonged to the run being replaced. *)
Fixpoint sub_runs_aux (p : ascii -> bool) (dentro : bool) (s : string)
  : string :=
  match s with
  | EmptyString => EmptyString
  | String c r =>
      if p c then
        if dentro then sub_runs_aux p true r
        else String "_" (sub_runs_aux p true r)
      else String c (sub_runs_aux p false r)
  end.

Definition sub_runs (p : ascii -> bool) : string -> string :=
  sub_runs_aux p false.

(** [re.sub(r'[cls]', '', s)] *)
Fixpoint quitar (p : ascii -> bool) (s : string) : string :=
  match s with
  | EmptyString => EmptyString
  | String c r => if p c then quitar p r else String c (quitar p r)
  end.

(** [re.sub(r'[cls]+', rep, s)] for a replacement of one character. *)
Fixpoint sub_runs_por (rep : ascii) (p : ascii -> bool) (dentro : bool)
    (s : string) : string :=
  match s with
  | EmptyString => EmptyString
  | String c r =>
      if p c then
        if dentro then sub_runs_por rep p true r
        else String rep (sub_runs_por rep p true r)
      else String c (sub_runs_por rep p false r)
  end.

Fixpoint todos (p : ascii -> bool) (s : string) : bool :=
  match s with
  | EmptyString => true
  | String c r => p c && todos p r
  end.

Definition es_ascii (c : ascii) : bool := (N_of_ascii c <? 128)%N.

(** Predicates on the shape of a text, used to state what the
    normaliser produces. *)
Definition empieza (p : ascii -> bool) (s : string) : bool :=
  match s with
  | String c _ => p c
  | EmptyString => false
  end.

Fixpoint termina (p : ascii -> bool) (s : string) : bool :=
  match s with
  | EmptyString => false
  | String c EmptyString => p c
  | String _ r => termina p r
  end.

(** No two adjacent underscores. *)
Fixpoint sin_dobles (s : string) : bool :=
  match s with
  | EmptyString => true
  | String c r =>
      negb (Ascii.eqb "_" c && empieza (Ascii.eqb "_") r) && sin_dobles r
  end.

(** [sep.join(l)] *)
Fixpoint join (sep : string) (l : list string) : string :=
  match l with
  | [] => EmptyString
  | [x] => x
  | x :: r => x ++ sep ++ join sep r
  end.

(** [s.endswith(suf)] *)
Definition endswith (s suf : string) : bool :=
  let n := String.length s in
  let m := String.length suf in
  (m <=? n)%nat && String.eqb (substring (n - m) m s) suf.

End PyStr.

(** ** Python values held by a cell *)

(** A float is its exact rational value, an infinity or NaN. *)
Inductive pyfloat : Type :=
| FFinite (q : Q)
| FInf (negativo : bool)
| FNaN.

Inductive celda : Type :=
| CStr (s : string)
| CInt (z : Z)
| CFloat (f : pyfloat)
| CBool (b : bool)
| CNone.

Inductive clase_excepcion : Type :=
| ValueError
| TypeError
| OverflowError
| ErrorExterno.

Record excepcion : Type := Excepcion {
  clase : clase_excepcion;
  texto : string
}.

Inductive resultado (A : Type) : Type :=
| Ok (a : A)
| Lanza (e : excepcion).

Arguments Ok {A} a.
Arguments Lanza {A} e.

Definition ligar {A B : Type} (r : resultado A) (k : A -> resultado B)
  : resultado B :=
  match r with
  | Ok a => k a
  | Lanza e => Lanza e
  end.

(** [except (ValueError, TypeError)] *)
Definition es_valor_o_tipo (e : excepcion) : bool :=
  match clase e with
  | ValueError | TypeError => true
  | _ => false
  end.

(** ** The interpreter *)

(** The built-ins the model takes from the interpreter.  Numbers: [float(s)]
    of a text ([None] stands for [ValueError]), [float(n)] of an integer
    and [str(x)] of a float.  Text: [s.lower()], [s.upper()], [s.strip()],
    [unicodedata.normalize('NFKD', s)] followed by the removal of the
    characters for which [unicodedata.combining] is non-zero, and
    [re.sub(r'\s+', ' ', s)].  The laws say how the text methods act on
    ASCII text: there the case mappings and the whitespace are those of
    [PyStr], no character decomposes and none is a combining mark. *)
Class Python : Type := {
  float_of_str : string -> option pyfloat;
  float_of_int : Z -> pyfloat;
  str_of_float : pyfloat -> string;
  py_lower : string -> string;
  py_upper : string -> string;
  py_strip : string -> string;
  py_sin_tildes : string -> string;
  py_sub_blancos : string -> string;
  py_lower_ascii :
    forall s, PyStr.todos PyStr.es_ascii s = true -> py_lower s = PyStr.lower s;
  py_upper_ascii :
    forall s, PyStr.todos PyStr.es_ascii s = true -> py_upper s = PyStr.upper s;
  py_strip_ascii :
    forall s, PyStr.todos PyStr.es_ascii s = true -> py_strip s = PyStr.strip s;
  py_sin_tildes_ascii :
    forall s, PyStr.todos PyStr.es_ascii s = true -> py_sin_tildes s = s;
  py_sub_blancos_ascii :
    forall s, PyStr.todos PyStr.es_ascii s = true ->
              py_sub_blancos s = PyStr.sub_runs_por " " PyStr.isspace false s
}.

(** ** Column names: [ICargaMasivaService.aplanar_nombre_columna] *)

Definition clase_separador (c : ascii) : bool :=
  Ascii.eqb c " " || Ascii.eqb c "." || Ascii.eqb c "-".

Definition aplanar_nombre_columna {py : Python} (nombre : string) : string :=
  let nombre := py_lower (py_strip nombre) in
  let nombre := py_sin_tildes nombre in
  let nombre := PyStr.sub_runs clase_separador nombre in
  let nombre := PyStr.sub_runs (Ascii.eqb "_") nombre in
  PyStr.strip_char "_" nombre.

Section Valores.

Context {py : Python}.

(** [str(v)] *)
Definition str_de (v : celda) : string :=
  match v with
  | CStr s => s
  | CInt z => NilZero.string_of_int (Z.to_int z)
  | CFloat f => str_of_float f
  | CBool true => "True"
  | CBool false => "False"
  | CNone => "None"
  end.

(** [bool(v)]: NaN and the infinities are true. *)
Definition truthy (v : celda) : bool :=
  match v with
  | CStr s => negb (String.eqb s EmptyString)
  | CInt z => negb (Z.eqb z 0)
  | CFloat (FFinite q) => negb (Qeq_bool q 0)
  | CFloat _ => true
  | CBool b => b
  | CNone => false
  end.

(** [float(v)] *)
Definition float_de (v : celda) : resultado pyfloat :=
  match v with
  | CStr s =>
      match float_of_str s with
      | Some f => Ok f
      | None =>
          Lanza (Excepcion ValueError
                   ("could not convert string to float: '" ++ s ++ "'"))
      end
  | CInt z => Ok (float_of_int z)
  | CFloat f => Ok f
  | CBool b => Ok (FFinite (if b then 1 else 0))
  | CNone =>
      Lanza (Excepcion TypeError
               "float() argument must be a string or a real number, not 'NoneType'")
  end.

(** [int(f)]: truncation toward zero. *)
Definition int_de_float (f : pyfloat) : resultado Z :=
  match f with
  | FFinite q => Ok (Z.quot (Qnum q) (Zpos (Qden q)))
  | FInf _ =>
      Lanza (Excepcion OverflowError "cannot convert float infinity to integer")
  | FNaN =>
      Lanza (Excepcion ValueError "cannot convert float NaN to integer")
  end.

(** [f < 0] *)
Definition es_negativo (f : pyfloat) : bool :=
  match f with
  | FFinite q => negb (Qle_bool 0 q)
  | FInf negativo => negativo
  | FNaN => false
  end.

(** [pd.isna(v)] on a scalar *)
Definition isna (v : celda) : bool :=
  match v with
  | CFloat FNaN | CNone => true
  | _ => false
  end.

(** [ICargaMasivaService.safe_upper] *)
Definition safe_upper (value : celda) : string :=
  match value with
  | CNone => EmptyString
  | CFloat FNaN => EmptyString
  | _ => py_upper (py_strip (str_de value))
  end.

(** [ICargaMasivaService.limpiar_nan] on a row dictionary. *)
Definition limpiar_nan (row : list (string * celda)) : list (string * celda) :=
  map (fun kv => (fst kv, if isna (snd kv) then CNone else snd kv)) row.

End Valores.

(** ** Persistence: [app/models/models.py] and the SQLAlchemy session *)

Record Categoria : Type := {
  cat_id : Z;
  cat_nombre : string;
  cat_estado : Z
}.

(** The primary key of a product is assigned by the database and is not
    part of the mappings the service inserts. *)
Record Producto : Type := {
  codigo : string;
  nombre : string;
  descripcion : option string;
  categoria_id : Z;
  precio : pyfloat;
  stock : Z;
  estado : Z
}.

(** Committed tables and the rows written by the open transaction. *)
Record BaseDatos : Type := {
  categorias : list Categoria;
  productos : list Producto;
  pendientes : list Producto
}.

Definition db_rollback (d : BaseDatos) : BaseDatos :=
  {| categorias := categorias d; productos := productos d; pendientes := [] |}.

Definition db_escribir (d : BaseDatos) (ps : list Producto) : BaseDatos :=
  {| categorias := categorias d; productos := productos d;
     pendientes := (pendientes d ++ ps)%list |}.

Definition db_confirmar (d : BaseDatos) : BaseDatos :=
  {| categorias := categorias d; productos := (productos d ++ pendientes d)%list;
     pendientes := [] |}.

(** The label of a row in the index of a frame.  The commit loop evaluates
    [index + 2] on it and nothing else: [EtEntero i] is an integer label,
    [EtFlotante x] a float label whose sum with 2 is the float [x], and
    [EtOtra e] any other label, on which [+] raises [e] (the [TypeError] of
    a text or of a tuple). *)
Inductive etiqueta : Type :=
| EtEntero (i : Z)
| EtFlotante (suma : pyfloat)
| EtOtra (e : excepcion).

(** A pandas frame: column labels, rectangular data and the index, which
    gives the label of the row at each position. *)
Record DataFrame : Type := {
  columnas : list string;
  filas : list (list celda);
  indice : nat -> etiqueta
}.

(** The default index of the readers, [RangeIndex]: the positions. *)
Definition indice_rango (i : nat) : etiqueta := EtEntero (Z.of_nat i).

(** What lies outside the service: the pandas readers and the failures
    the database session may raise during one pass.  An insertion that
    fails has written the first [n] mappings before raising. *)
Record Entorno : Type := {
  read_csv : list Byte.byte -> resultado DataFrame;
  read_excel : list Byte.byte -> resultado DataFrame;
  falla_consulta : option excepcion;
  falla_insercion : option (nat * excepcion);
  falla_commit : option excepcion
}.

(** ** Results *)

(** The value under ["fila"]: a natural number, the text N/A, the dash
    or, for an index label that is not a position, [FilaOtra] with the
    negative integer or the float that [index + 2] gave. *)
Inductive marca_fila : Type :=
| FilaNumero (n : nat)
| FilaNA
| FilaGuion
| FilaOtra (v : celda).

(** [index + 2] *)
Definition mas_dos (index : etiqueta) : resultado marca_fila :=
  match index with
  | EtEntero i =>
      Ok (if (0 <=? i + 2)%Z then FilaNumero (Z.to_nat (i + 2))
          else FilaOtra (CInt (i + 2)))
  | EtFlotante x => Ok (FilaOtra (CFloat x))
  | EtOtra e => Lanza e
  end.

Record ErrorItem : Type := {
  ei_fila : marca_fila;
  ei_error : string;
  ei_data : option (list (string * celda))
}.

Record RenderItem : Type := {
  ri_success : bool;
  ri_data : list (string * celda);
  ri_fila : marca_fila;
  ri_error : string
}.

Record Summary : Type := {
  total_filas : nat;
  creados : nat;
  actualizados : nat;
  omitidos_duplicados : nat;
  con_errores : nat
}.

Record Respuesta : Type := {
  r_summary : Summary;
  r_errors : list ErrorItem;
  r_message : string
}.

(** Reasons appended by the preview validator, in the words of its
    messages. *)
Inductive motivo_preview : Type :=
| PCodigoRequerido
| PCodigoYaExiste (c : string)
| PCodigoDuplicado (c : string)
| PNombreRequerido
| PCategoriaRequerida
| PCategoriaNoExiste (c : string)
| PPrecioNegativo
| PPrecioInvalido
| PStockNegativo
| PStockInvalido.

Definition mensaje_preview (m : motivo_preview) : string :=
  match m with
  | PCodigoRequerido => "CÓDIGO es requerido."
  | PCodigoYaExiste c => "CÓDIGO '" ++ c ++ "' ya existe en la base de datos."
  | PCodigoDuplicado c => "CÓDIGO '" ++ c ++ "' está duplicado en el archivo."
  | PNombreRequerido => "NOMBRE es requerido."
  | PCategoriaRequerida => "CATEGORÍA es requerida."
  | PCategoriaNoExiste c => "CATEGORÍA '" ++ c ++ "' no existe en la base de datos."
  | PPrecioNegativo => "PRECIO no puede ser negativo."
  | PPrecioInvalido => "PRECIO debe ser un número válido."
  | PStockNegativo => "STOCK no puede ser negativo."
  | PStockInvalido => "STOCK debe ser un número entero válido."
  end.

(** Reasons recorded by the commit validator. *)
Inductive motivo_commit : Type :=
| CCodigoRequerido
| CCodigoYaExiste (c : string)
| CCodigoDuplicado (c : string)
| CNombreRequerido
| CCategoriaNoExiste (c : string)
| CPrecioNegativo
| CPrecioInvalido
| CStockNegativo
| CStockInvalido.

Definition mensaje_commit (m : motivo_commit) : string :=
  match m with
  | CCodigoRequerido => "CÓDIGO es requerido."
  | CCodigoYaExiste c => "CÓDIGO '" ++ c ++ "' ya existe en BD."
  | CCodigoDuplicado c => "CÓDIGO '" ++ c ++ "' duplicado en archivo."
  | CNombreRequerido => "NOMBRE es requerido."
  | CCategoriaNoExiste c => "CATEGORÍA '" ++ c ++ "' no existe."
  | CPrecioNegativo => "PRECIO no puede ser negativo."
  | CPrecioInvalido => "PRECIO inválido."
  | CStockNegativo => "STOCK no puede ser negativo."
  | CStockInvalido => "STOCK inválido."
  end.

(** The categories of rejection the specification speaks of. *)
Inductive campo : Type := Codigo | Nombre | CategoriaRef | Precio | Stock.

Inductive categoria_error : Type :=
| Requerido (f : campo)
| YaExiste
| DuplicadoEnArchivo
| NoExiste
| Negativo (f : campo)
| NoNumerico (f : campo).

Definition categoria_preview (m : motivo_preview) : categoria_error :=
  match m with
  | PCodigoRequerido => Requerido Codigo
  | PCodigoYaExiste _ => YaExiste
  | PCodigoDuplicado _ => DuplicadoEnArchivo
  | PNombreRequerido => Requerido Nombre
  | PCategoriaRequerida => Requerido CategoriaRef
  | PCategoriaNoExiste _ => NoExiste
  | PPrecioNegativo => Negativo Precio
  | PPrecioInvalido => NoNumerico Precio
  | PStockNegativo => Negativo Stock
  | PStockInvalido => NoNumerico Stock
  end.

Definition categoria_commit (m : motivo_commit) : categoria_error :=
  match m with
  | CCodigoRequerido => Requerido Codigo
  | CCodigoYaExiste _ => YaExiste
  | CCodigoDuplicado _ => DuplicadoEnArchivo
  | CNombreRequerido => Requerido Nombre
  | CCategoriaNoExiste _ => NoExiste
  | CPrecioNegativo => Negativo Precio
  | CPrecioInvalido => NoNumerico Precio
  | CStockNegativo => Negativo Stock
  | CStockInvalido => NoNumerico Stock
  end.

(** ** The product service *)

Record Servicio : Type := {
  db : BaseDatos;
  errores : list ErrorItem;
  summary : Summary;
  categorias_map : gmap string Z;
  codigos_existentes : gset string
}.

(** [CargaMasivaProductoService.__init__] *)
Definition nuevo_servicio (d : BaseDatos) : Servicio :=
  {| db := d;
     errores := [];
     summary := {| total_filas := 0; creados := 0; actualizados := 0;
                   omitidos_duplicados := 0; con_errores := 0 |};
     categorias_map := ∅;
     codigos_existentes := ∅ |}.

(** [{c.nombre.upper(): c.id for c in categorias}]: a later record
    replaces an earlier one under the same key. *)
Definition indexar_categorias {py : Python} (cs : list Categoria)
  : gmap string Z :=
  fold_left (fun m c => <[py_upper (cat_nombre c) := cat_id c]> m) cs ∅.

(** [{p.codigo for p in productos if p.codigo}] *)
Definition indexar_codigos (ps : list Producto) : gset string :=
  fold_left
    (fun s p => if String.eqb (codigo p) EmptyString then s
                else {[codigo p]} ∪ s)
    ps ∅.

(** [_get_column_map] *)
Definition _get_column_map : gmap string string :=
  list_to_map
    [ ("CÓDIGO", "codigo");
      ("CODIGO", "codigo");
      ("NOMBRE", "nombre");
      ("NOMBRE PRODUCTO", "nombre");
      ("DESCRIPCIÓN", "descripcion");
      ("DESCRIPCION", "descripcion");
      ("CATEGORÍA", "categoria");
      ("CATEGORIA", "categoria");
      ("PRECIO", "precio");
      ("PRECIO UNITARIO", "precio");
      ("STOCK", "stock");
      ("STOCK INICIAL", "stock") ].

(** The renaming function handed to [df.rename] by [_normalizar_columnas]. *)
Definition renombrar_columna {py : Python} (c : string) : string :=
  match _get_column_map !! py_upper (py_strip c) with
  | Some interno => interno
  | None => py_lower (py_strip c)
  end.

Definition _normalizar_columnas {py : Python} (df : DataFrame) : DataFrame :=
  {| columnas := map renombrar_columna (columnas df); filas := filas df;
     indice := indice df |}.

(** [df.fillna("")] *)
Definition fillna (df : DataFrame) : DataFrame :=
  {| columnas := columnas df;
     filas := map (map (fun v => if isna v then CStr EmptyString else v))
                  (filas df);
     indice := indice df |}.

(** [row.get(k)] on a row of a frame whose label [k] is carried by one
    column at most (with a repeated label pandas answers with a Series of
    the cells, which is not a cell of this model). *)
Fixpoint row_get (cols : list string) (row : list celda) (k : string)
  : option celda :=
  match cols, row with
  | c :: cs, v :: vs => if String.eqb c k then Some v else row_get cs vs k
  | _, _ => None
  end.

(** [row.to_dict()] *)
Fixpoint row_to_dict (cols : list string) (row : list celda)
  : list (string * celda) :=
  match cols, row with
  | c :: cs, v :: vs => (c, v) :: row_to_dict cs vs
  | _, _ => []
  end.

(** [_generar_mensaje] *)
Definition decimal (n : nat) : string := NilZero.string_of_uint (Nat.to_uint n).

Definition _generar_mensaje (s : Summary) : string :=
  let creados := creados s in
  let errores := con_errores s in
  if (0 <? creados)%nat && (0 <? errores)%nat then
    "Se crearon " ++ decimal creados ++ " productos. Se encontraron "
      ++ decimal errores ++ " errores."
  else if (0 <? creados)%nat then
    "Se crearon " ++ decimal creados ++ " productos correctamente."
  else if (0 <? errores)%nat then
    "No se pudo cargar ningún producto. " ++ decimal errores
      ++ " errores encontrados."
  else "No se encontraron datos válidos para procesar.".

Section Validadores.

Context {py : Python}.

(** [self._precache_data()]: both queries keep the records whose
    [estado] is 1. *)
Definition _precache_data (env : Entorno) (s : Servicio)
  : option excepcion * Servicio :=
  match falla_consulta env with
  | Some e => (Some e, s)
  | None =>
      let cats := filter (fun c => Z.eqb (cat_estado c) 1) (categorias (db s)) in
      let prods := filter (fun p => Z.eqb (estado p) 1) (productos (db s)) in
      (None,
       {| db := db s; errores := errores s; summary := summary s;
          categorias_map := indexar_categorias cats;
          codigos_existentes := indexar_codigos prods |})
  end.

(** *** Preview: [validar_filas_preview] *)

(** [{self.aplanar_nombre_columna(k): v for k, v in row.items()}] *)
Definition aplanar_fila (row : list (string * celda)) : gmap string celda :=
  fold_left (fun m kv => <[aplanar_nombre_columna (fst kv) := snd kv]> m) row ∅.

Definition obtener (fila : gmap string celda) (k : string) : celda :=
  default (CStr EmptyString) (fila !! k).

(** Rule 1 of the preview, with the set of keys seen so far. *)
Definition preview_codigo (existentes en_archivo : gset string)
    (fila : gmap string celda) : list motivo_preview * gset string :=
  let codigo := safe_upper (obtener fila "codigo") in
  if String.eqb codigo EmptyString then ([PCodigoRequerido], en_archivo)
  else
    (((if bool_decide (codigo ∈ existentes) then [PCodigoYaExiste codigo] else [])
        ++ (if bool_decide (codigo ∈ en_archivo) then [PCodigoDuplicado codigo] else []))%list,
     {[codigo]} ∪ en_archivo).

Definition preview_nombre (fila : gmap string celda) : list motivo_preview :=
  let nombre := py_strip (str_de (obtener fila "nombre")) in
  if String.eqb nombre EmptyString then [PNombreRequerido] else [].

Definition preview_categoria (cmap : gmap string Z)
    (fila : gmap string celda) : list motivo_preview :=
  let categoria_nombre := safe_upper (obtener fila "categoria") in
  if String.eqb categoria_nombre EmptyString then [PCategoriaRequerida]
  else if bool_decide (categoria_nombre ∈ dom cmap) then []
  else [PCategoriaNoExiste categoria_nombre].

(** A [try] whose handler catches [ValueError] and [TypeError] only:
    those become the reason [m], anything else keeps propagating. *)
Definition atrapar {A M : Type} (r : resultado A) (m : M)
    (k : A -> list M) : resultado (list M) :=
  match r with
  | Ok a => Ok (k a)
  | Lanza e => if es_valor_o_tipo e then Ok [m] else Lanza e
  end.

Definition preview_precio (fila : gmap string celda)
  : resultado (list motivo_preview) :=
  let precio_raw := obtener fila "precio" in
  if truthy precio_raw then
    atrapar (float_de precio_raw) PPrecioInvalido
      (fun precio => if es_negativo precio then [PPrecioNegativo] else [])
  else Ok [].

Definition preview_stock (fila : gmap string celda)
  : resultado (list motivo_preview) :=
  let stock_raw := obtener fila "stock" in
  if truthy stock_raw then
    atrapar (ligar (float_de (CStr (str_de stock_raw))) int_de_float)
      PStockInvalido
      (fun stock => if (stock <? 0)%Z then [PStockNegativo] else [])
  else Ok [].

(** The reasons of one row, in the order of the rules, and the keys seen
    after it. *)
Definition errores_de_fila (cmap : gmap string Z)
    (existentes en_archivo : gset string) (row : list (string * celda))
  : resultado (list motivo_preview * gset string) :=
  let fila := aplanar_fila row in
  let '(e1, en_archivo') := preview_codigo existentes en_archivo fila in
  let e2 := preview_nombre fila in
  let e3 := preview_categoria cmap fila in
  ligar (preview_precio fila) (fun e4 =>
  ligar (preview_stock fila) (fun e5 =>
  Ok ((e1 ++ e2 ++ e3 ++ e4 ++ e5)%list, en_archivo'))).

Definition item_preview (idx : nat) (row : list (string * celda))
    (errores_fila : list motivo_preview) : RenderItem :=
  match errores_fila with
  | [] =>
      {| ri_success := true; ri_data := limpiar_nan row;
         ri_fila := FilaGuion; ri_error := EmptyString |}
  | _ =>
      {| ri_success := false; ri_data := limpiar_nan row;
         ri_fila := FilaNumero idx;
         ri_error := PyStr.join "; " (map mensaje_preview errores_fila) |}
  end.

(** The loop over [enumerate(filas, start=2)]. *)
Fixpoint bucle_preview (cmap : gmap string Z) (existentes : gset string)
    (idx : nat) (filas : list (list (string * celda)))
    (en_archivo : gset string) (resultados : list RenderItem)
    (tiene_errores : bool) : resultado (list RenderItem * bool) :=
  match filas with
  | [] => Ok (resultados, tiene_errores)
  | row :: resto =>
      match errores_de_fila cmap existentes en_archivo row with
      | Lanza e => Lanza e
      | Ok (errores_fila, en_archivo') =>
          bucle_preview cmap existentes (S idx) resto en_archivo'
            (resultados ++ [item_preview idx row errores_fila])%list
            (tiene_errores || negb (Nat.eqb (length errores_fila) 0))
      end
  end.

Definition validar_filas_preview (env : Entorno) (s : Servicio)
    (filas : list (list (string * celda)))
  : resultado (list RenderItem * bool) * Servicio :=
  match _precache_data env s with
  | (Some e, s1) => (Lanza e, s1)
  | (None, s1) =>
      (bucle_preview (categorias_map s1) (codigos_existentes s1) 2 filas
         ∅ [] false, s1)
  end.

(** *** Commit: [procesar_archivo] *)

(** [ICargaMasivaService.leer_archivo] *)
Definition leer_archivo (env : Entorno) (content : list Byte.byte)
    (filename : string) : resultado DataFrame :=
  let filename_lower := py_lower filename in
  if PyStr.endswith filename_lower ".csv" then read_csv env content
  else if PyStr.endswith filename_lower ".xls"
          || PyStr.endswith filename_lower ".xlsx"
  then read_excel env content
  else Lanza (Excepcion ValueError "Formato no soportado. Use CSV, XLS o XLSX.").

Inductive veredicto : Type :=
| Rechazada (m : motivo_commit)
| Aceptada (p : Producto).

(** [float(row.get("precio", 0)) if row.get("precio") else 0] *)
Definition leer_precio (v : option celda) : resultado pyfloat :=
  match v with
  | Some c => if truthy c then float_de c else Ok (FFinite 0)
  | None => Ok (FFinite 0)
  end.

(** [int(float(row.get("stock", 0))) if row.get("stock") else 0] *)
Definition leer_stock (v : option celda) : resultado Z :=
  match v with
  | Some c => if truthy c then ligar (float_de c) int_de_float else Ok 0%Z
  | None => Ok 0%Z
  end.

Definition texto_de (v : option celda) : string :=
  str_de (default (CStr EmptyString) v).

(** The body of the commit loop for one row: the verdict and the keys
    seen after it, or the exception that leaves the loop. *)
Definition validar_fila_commit (cmap : gmap string Z)
    (existentes en_archivo : gset string) (get : string -> option celda)
  : resultado (veredicto * gset string) :=
  let codigo := py_upper (py_strip (texto_de (get "codigo"))) in
  let nombre := py_strip (texto_de (get "nombre")) in
  let descripcion :=
    let d := py_strip (texto_de (get "descripcion")) in
    if String.eqb d EmptyString then None else Some d in
  let categoria_nombre := py_upper (py_strip (texto_de (get "categoria"))) in
  if String.eqb codigo EmptyString then
    Ok (Rechazada CCodigoRequerido, en_archivo)
  else if bool_decide (codigo ∈ existentes) then
    Ok (Rechazada (CCodigoYaExiste codigo), en_archivo)
  else if bool_decide (codigo ∈ en_archivo) then
    Ok (Rechazada (CCodigoDuplicado codigo), en_archivo)
  else
    let en_archivo := {[codigo]} ∪ en_archivo in
    if String.eqb nombre EmptyString then
      Ok (Rechazada CNombreRequerido, en_archivo)
    else
      match cmap !! categoria_nombre with
      | None => Ok (Rechazada (CCategoriaNoExiste categoria_nombre), en_archivo)
      | Some categoria_id =>
          if Z.eqb categoria_id 0 then
            Ok (Rechazada (CCategoriaNoExiste categoria_nombre), en_archivo)
          else
            match leer_precio (get "precio") with
            | Lanza e =>
                if es_valor_o_tipo e then Ok (Rechazada CPrecioInvalido, en_archivo)
                else Lanza e
            | Ok precio =>
                if es_negativo precio then
                  Ok (Rechazada CPrecioNegativo, en_archivo)
                else
                  match leer_stock (get "stock") with
                  | Lanza e =>
                      if es_valor_o_tipo e then
                        Ok (Rechazada CStockInvalido, en_archivo)
                      else Lanza e
                  | Ok stock =>
                      if (stock <? 0)%Z then
                        Ok (Rechazada CStockNegativo, en_archivo)
                      else
                        Ok (Aceptada
                              {| codigo := codigo; nombre := nombre;
                                 descripcion := descripcion;
                                 categoria_id := categoria_id;
                                 precio := precio; stock := stock;
                                 estado := 1 |},
                            en_archivo)
                  end
            end
      end.

(** The variables the loop of [procesar_archivo] updates. *)
Record EstadoBucle : Type := {
  eb_errores : list ErrorItem;
  productos_a_crear : list Producto;
  codigos_en_archivo : gset string
}.

(** [for index, row in df.iterrows()], from the row at position [pos]
    on, [ind] being the index of the frame; the result carries what the
    loop had written when it ended or was left by an exception. *)
Fixpoint bucle_commit (cmap : gmap string Z) (existentes : gset string)
    (cols : list string) (ind : nat -> etiqueta) (pos : nat)
    (rows : list (list celda)) (st : EstadoBucle)
  : option excepcion * EstadoBucle :=
  match rows with
  | [] => (None, st)
  | row :: resto =>
      match mas_dos (ind pos) with
      | Lanza e => (Some e, st)
      | Ok fila_numero =>
          match validar_fila_commit cmap existentes (codigos_en_archivo st)
                  (row_get cols row) with
          | Lanza e => (Some e, st)
          | Ok (Rechazada m, vistos) =>
              bucle_commit cmap existentes cols ind (S pos) resto
                {| eb_errores :=
                     (eb_errores st ++
                        [{| ei_fila := fila_numero;
                            ei_error := mensaje_commit m;
                            ei_data := Some (row_to_dict cols row) |}])%list;
                   productos_a_crear := productos_a_crear st;
                   codigos_en_archivo := vistos |}
          | Ok (Aceptada p, vistos) =>
              bucle_commit cmap existentes cols ind (S pos) resto
                {| eb_errores := eb_errores st;
                   productos_a_crear := (productos_a_crear st ++ [p])%list;
                   codigos_en_archivo := vistos |}
          end
      end
  end.

Definition con_db (s : Servicio) (d : BaseDatos) : Servicio :=
  {| db := d; errores := errores s; summary := summary s;
     categorias_map := categorias_map s;
     codigos_existentes := codigos_existentes s |}.

Definition con_errores_lista (s : Servicio) (l : list ErrorItem) : Servicio :=
  {| db := db s; errores := l; summary := summary s;
     categorias_map := categorias_map s;
     codigos_existentes := codigos_existentes s |}.

Definition con_summary (s : Servicio) (y : Summary) : Servicio :=
  {| db := db s; errores := errores s; summary := y;
     categorias_map := categorias_map s;
     codigos_existentes := codigos_existentes s |}.

Definition poner_total (y : Summary) (n : nat) : Summary :=
  {| total_filas := n; creados := creados y; actualizados := actualizados y;
     omitidos_duplicados := omitidos_duplicados y;
     con_errores := con_errores y |}.

Definition poner_creados (y : Summary) (n : nat) : Summary :=
  {| total_filas := total_filas y; creados := n;
     actualizados := actualizados y;
     omitidos_duplicados := omitidos_duplicados y;
     con_errores := con_errores y |}.

Definition poner_con_errores (y : Summary) (n : nat) : Summary :=
  {| total_filas := total_filas y; creados := creados y;
     actualizados := actualizados y;
     omitidos_duplicados := omitidos_duplicados y;
     con_errores := n |}.

(** [self.db.bulk_insert_mappings(Producto, productos_a_crear)] followed
    by [self.summary["creados"] = len(productos_a_crear)], both under
    [if productos_a_crear:]. *)
Definition insertar (env : Entorno) (s : Servicio) (ps : list Producto)
  : option excepcion * Servicio :=
  match ps with
  | [] => (None, s)
  | _ =>
      match falla_insercion env with
      | Some (n, e) => (Some e, con_db s (db_escribir (db s) (take n ps)))
      | None =>
          (None,
           con_summary (con_db s (db_escribir (db s) ps))
             (poner_creados (summary s) (length ps)))
      end
  end.

(** [self.db.commit()] *)
Definition confirmar (env : Entorno) (s : Servicio)
  : option excepcion * Servicio :=
  match falla_commit env with
  | Some e => (Some e, s)
  | None => (None, con_db s (db_confirmar (db s)))
  end.

(** The [try] block of [procesar_archivo]. *)
Definition intento (env : Entorno) (content : list Byte.byte)
    (filename : string) (s : Servicio) : option excepcion * Servicio :=
  match _precache_data env s with
  | (Some e, s1) => (Some e, s1)
  | (None, s1) =>
      match leer_archivo env content filename with
      | Lanza e => (Some e, s1)
      | Ok df =>
          let df := fillna (_normalizar_columnas df) in
          let s2 := con_summary s1 (poner_total (summary s1) (length (filas df))) in
          let '(r, st) :=
            bucle_commit (categorias_map s2) (codigos_existentes s2)
              (columnas df) (indice df) 0 (filas df)
              {| eb_errores := errores s2; productos_a_crear := [];
                 codigos_en_archivo := ∅ |} in
          let s3 := con_errores_lista s2 (eb_errores st) in
          match r with
          | Some e => (Some e, s3)
          | None =>
              match insertar env s3 (productos_a_crear st) with
              | (Some e, s4) => (Some e, s4)
              | (None, s4) => confirmar env s4
              end
          end
      end
  end.

(** The [except Exception as e:] handler. *)
Definition manejar (e : excepcion) (s : Servicio) : Servicio :=
  con_errores_lista (con_db s (db_rollback (db s)))
    (errores s ++
       [{| ei_fila := FilaNA;
           ei_error := "Error inesperado: " ++ texto e;
           ei_data := None |}])%list.

Definition procesar_archivo (env : Entorno) (content : list Byte.byte)
    (filename : string) (s : Servicio) : Respuesta * Servicio :=
  let '(r, s1) := intento env content filename s in
  let s2 := match r with Some e => manejar e s1 | None => s1 end in
  let s3 := con_summary s2 (poner_con_errores (summary s2) (length (errores s2))) in
  ({| r_summary := summary s3; r_errors := errores s3;
      r_message := _generar_mensaje (summary s3) |}, s3).

End Validadores.

(** ** A concrete interpreter and environment for the examples *)

Module Ejemplos.

Definition digito (c : ascii) : option Z :=
  let n := N_of_ascii c in
  if ((48 <=? n) && (n <=? 57))%N then Some (Z.of_N (n - 48)) else None.

Fixpoint leer_cifras (s : string) (en_fraccion : bool) (n : Z)
    (d : positive) (vistas : bool) : option Q :=
  match s with
  | EmptyString => if vistas then Some (n # d) else None
  | String c r =>
      match digito c with
      | Some k =>
          leer_cifras r en_fraccion (10 * n + k)
            (if en_fraccion then (10 * d)%positive else d) true
      | None =>
          if Ascii.eqb c "." && negb en_fraccion
          then leer_cifras r true n d vistas
          else None
      end
  end.

(** [float(s)] on plain decimal literals, [inf] and [nan]. *)
Definition leer_decimal (s : string) : option pyfloat :=
  match PyStr.strip s with
  | "nan" => Some FNaN
  | "inf" => Some (FInf false)
  | "-inf" => Some (FInf true)
  | String "-" r =>
      option_map (fun q => FFinite (- q)) (leer_cifras r false 0 1 false)
  | r => option_map FFinite (leer_cifras r false 0 1 false)
  end.

Fixpoint cifras_fraccion (n : nat) (r d : Z) : string :=
  match n with
  | O => EmptyString
  | S n' =>
      if Z.eqb r 0 then EmptyString
      else NilZero.string_of_int (Z.to_int (Z.quot (10 * r) d))
             ++ cifras_fraccion n' (Z.rem (10 * r) d) d
  end.

(** [str(x)] for the floats that have a short decimal expansion, [inf]
    and [nan]. *)
Definition escribir_float (f : pyfloat) : string :=
  match f with
  | FNaN => "nan"
  | FInf false => "inf"
  | FInf true => "-inf"
  | FFinite q =>
      let n := Z.abs (Qnum q) in
      let d := Zpos (Qden q) in
      (if (Qnum q <? 0)%Z then "-" else EmptyString)
        ++ NilZero.string_of_int (Z.to_int (Z.quot n d)) ++ "."
        ++ (if Z.eqb (Z.rem n d) 0 then "0" else cifras_fraccion 17 (Z.rem n d) d)
  end.

(** Text methods that know, beyond ASCII, the accented letters of the
    Latin-1 block: À to Þ and à to þ, whose UTF-8 encoding is the byte 195
    followed by a byte from 128 to 158 (capitals) or from 160 to 190 (small
    letters), 151 and 183 being the signs × and ÷. *)
Definition latina_mayuscula (n : N) : bool :=
  ((128 <=? n) && (n <=? 158) && negb (n =? 151))%N.

Definition latina_minuscula (n : N) : bool :=
  ((160 <=? n) && (n <=? 190) && negb (n =? 183))%N.

Fixpoint lower_latino_aux (tras_195 : bool) (s : string) : string :=
  match s with
  | EmptyString => EmptyString
  | String c r =>
      let n := N_of_ascii c in
      String (if tras_195 && latina_mayuscula n then ascii_of_N (n + 32)
              else PyStr.lower_char c)
             (lower_latino_aux (N.eqb n 195) r)
  end.

Fixpoint upper_latino_aux (tras_195 : bool) (s : string) : string :=
  match s with
  | EmptyString => EmptyString
  | String c r =>
      let n := N_of_ascii c in
      String (if tras_195 && latina_minuscula n then ascii_of_N (n - 32)
              else PyStr.upper_char c)
             (upper_latino_aux (N.eqb n 195) r)
  end.

(** The letter left of an accented Latin-1 letter by NFKD once the
    combining mark is dropped; Æ, Ð, Ø, Þ and their small forms do not
    decompose. *)
Definition base_latina (n : N) : option ascii :=
  (if (128 <=? n) && (n <=? 133) then Some "A"%char
   else if n =? 135 then Some "C"%char
   else if (136 <=? n) && (n <=? 139) then Some "E"%char
   else if (140 <=? n) && (n <=? 143) then Some "I"%char
   else if n =? 145 then Some "N"%char
   else if (146 <=? n) && (n <=? 150) then Some "O"%char
   else if (153 <=? n) && (n <=? 156) then Some "U"%char
   else if n =? 157 then Some "Y"%char
   else if (160 <=? n) && (n <=? 165) then Some "a"%char
   else if n =? 167 then Some "c"%char
   else if (168 <=? n) && (n <=? 171) then Some "e"%char
   else if (172 <=? n) && (n <=? 175) then Some "i"%char
   else if n =? 177 then Some "n"%char
   else if (178 <=? n) && (n <=? 182) then Some "o"%char
   else if (185 <=? n) && (n <=? 188) then Some "u"%char
   else if (n =? 189) || (n =? 191) then Some "y"%char
   else None)%N.

Fixpoint sin_tildes_latino (s : string) : string :=
  match s with
  | EmptyString => EmptyString
  | String c r =>
      if N.eqb (N_of_ascii c) 195 then
        match r with
        | String d r' =>
            match base_latina (N_of_ascii d) with
            | Some b => String b (sin_tildes_latino r')
            | None => String c (String d (sin_tildes_latino r'))
            end
        | EmptyString => String c EmptyString
        end
      else String c (sin_tildes_latino r)
  end.

(** An interpreter for the examples: decimal literals for the floats, and
    text methods that are exact on ASCII text and on the accented Latin-1
    letters. *)
#[export] Program Instance python_ejemplo : Python := {|
  float_of_str := leer_decimal;
  float_of_int := fun z => FFinite (inject_Z z);
  str_of_float := escribir_float;
  py_lower := lower_latino_aux false;
  py_upper := upper_latino_aux false;
  py_strip := PyStr.strip;
  py_sin_tildes := sin_tildes_latino;
  py_sub_blancos := PyStr.sub_runs_por " " PyStr.isspace false
|}.
Next Obligation.
  intros s. induction s as [|c r IH]; [reflexivity|].
  cbn [PyStr.todos lower_latino_aux PyStr.lower PyStr.map_str andb].
  intros H. apply andb_prop in H as [Hc Hr].
  unfold PyStr.es_ascii in Hc. apply N.ltb_lt in Hc.
  replace (N_of_ascii c =? 195)%N with false
    by (symmetry; apply N.eqb_neq; lia).
  cbn [andb]. f_equal. now apply IH.
Qed.
Next Obligation.
  intros s. induction s as [|c r IH]; [reflexivity|].
  cbn [PyStr.todos upper_latino_aux PyStr.upper PyStr.map_str andb].
  intros H. apply andb_prop in H as [Hc Hr].
  unfold PyStr.es_ascii in Hc. apply N.ltb_lt in Hc.
  replace (N_of_ascii c =? 195)%N with false
    by (symmetry; apply N.eqb_neq; lia).
  cbn [andb]. f_equal. now apply IH.
Qed.
Next Obligation. reflexivity. Qed.
Next Obligation.
  intros s. induction s as [|c r IH]; [reflexivity|].
  cbn [PyStr.todos sin_tildes_latino].
  intros H. apply andb_prop in H as [Hc Hr].
  unfold PyStr.es_ascii in Hc. apply N.ltb_lt in Hc.
  destruct (N.eqb_spec (N_of_ascii c) 195) as [E|_]; [lia|].
  now rewrite IH.
Qed.
Next Obligation. reflexivity. Qed.

(** An environment whose CSV reader yields [df] and whose session never
    fails. *)
Definition env_de (df : DataFrame) : Entorno :=
  {| read_csv := fun _ => Ok df;
     read_excel := fun _ => Ok df;
     falla_consulta := None;
     falla_insercion := None;
     falla_commit := None |}.

Definition env_commit_falla (df : DataFrame) : Entorno :=
  {| read_csv := fun _ => Ok df;
     read_excel := fun _ => Ok df;
     falla_consulta := None;
     falla_insercion := None;
     falla_commit := Some (Excepcion ErrorExterno "connection lost") |}.

Definition env_insercion_falla (df : DataFrame) : Entorno :=
  {| read_csv := fun _ => Ok df;
     read_excel := fun _ => Ok df;
     falla_consulta := None;
     falla_insercion := Some (1%nat, Excepcion ErrorExterno "UNIQUE constraint failed");
     falla_commit := None |}.

Definition db_ejemplo : BaseDatos :=
  {| categorias :=
       [ {| cat_id := 1; cat_nombre := "ROPA"; cat_estado := 1 |};
         {| cat_id := 2; cat_nombre := "Hogar"; cat_estado := 1 |};
         {| cat_id := 3; cat_nombre := "JUGUETES"; cat_estado := 0 |} ];
     productos :=
       [ {| codigo := "PROD001"; nombre := "Laptop HP 15"; descripcion := None;
            categoria_id := 1; precio := FFinite 2500; stock := 10;
            estado := 1 |};
         {| codigo := "abc"; nombre := "Cable"; descripcion := None;
            categoria_id := 2; precio := FFinite 5; stock := 3;
            estado := 1 |};
         {| codigo := "VIEJO"; nombre := "Retirado"; descripcion := None;
            categoria_id := 1; precio := FFinite 1; stock := 0;
            estado := 0 |} ];
     pendientes := [] |}.

Definition cabecera : list string :=
  ["Codigo"; "Nombre"; "Categoria"; "Precio"; "Stock"].

Definition fila_txt (c n k p s : string) : list celda :=
  [CStr c; CStr n; CStr k; CStr p; CStr s].

(** The dictionary handed to the preview for a row of text cells, with
    the labels the router has already lower-cased. *)
Definition dict_txt (c n k p s : string) : list (string * celda) :=
  [("codigo", CStr c); ("nombre", CStr n); ("categoria", CStr k);
   ("precio", CStr p); ("stock", CStr s)].

(** A header made of an underscore, a TAB and a letter. *)
Definition cabecera_tab : string :=
  String "_" (String (ascii_of_nat 9) "a").

End Ejemplos.

(** ** Vocabulary of the statements *)

(** The only whitespace character is the plain space. *)
Definition sin_blancos_raros (c : ascii) : bool :=
  negb (PyStr.isspace c) || Ascii.eqb c " ".

(** What every character of a normalised header satisfies. *)
Definition caracter_plano (c : ascii) : bool :=
  negb (PyStr.isspace c) && negb (clase_separador c)
  && Ascii.eqb (PyStr.lower_char c) c.

(** An ASCII character that is not a capital and is no whitespace other
    than the plain space. *)
Definition caracter_base (c : ascii) : bool :=
  PyStr.es_ascii c && sin_blancos_raros c && Ascii.eqb (PyStr.lower_char c) c.

(** The three substitutions that end [aplanar_nombre_columna]. *)
Definition subrayar (t : string) : string :=
  PyStr.strip_char "_"
    (PyStr.sub_runs (Ascii.eqb "_") (PyStr.sub_runs clase_separador t)).

(** A text the three substitutions leave as it is: no space, period or
    hyphen, no two adjacent underscores, no underscore at either end. *)
Definition sin_separadores (t : string) : bool :=
  PyStr.todos (fun c => negb (clase_separador c)) t
  && PyStr.sin_dobles t
  && negb (PyStr.empieza (Ascii.eqb "_") t)
  && negb (PyStr.termina (Ascii.eqb "_") t).

(** The business key the commit loop reads from a row. *)
Definition clave_commit {py : Python} (get : string -> option celda) : string :=
  py_upper (py_strip (texto_de (get "codigo"))).

(** The business key the preview reads from a row dictionary. *)
Definition clave_preview {py : Python} (row : list (string * celda)) : string :=
  safe_upper (obtener (aplanar_fila row) "codigo").

Definition es_na (m : marca_fila) : bool :=
  match m with
  | FilaNA => true
  | _ => false
  end.

(** The entry the handler of [procesar_archivo] appends. *)
Definition error_sintetico (e : excepcion) : ErrorItem :=
  {| ei_fila := FilaNA;
     ei_error := "Error inesperado: " ++ texto e;
     ei_data := None |}.

Definition activo (p : Producto) : bool := Z.eqb (estado p) 1.

Definition estado_inicial (errs : list ErrorItem) : EstadoBucle :=
  {| eb_errores := errs; productos_a_crear := [];
     codigos_en_archivo := ∅ |}.

(** The four sentences of [_generar_mensaje]. *)
Definition plantilla (creados errores : nat) : string :=
  match (0 <? creados)%nat, (0 <? errores)%nat with
  | true, true =>
      "Se crearon " ++ decimal creados ++ " productos. Se encontraron "
        ++ decimal errores ++ " errores."
  | true, false => "Se crearon " ++ decimal creados ++ " productos correctamente."
  | false, true =>
      "No se pudo cargar ningún producto. " ++ decimal errores
        ++ " errores encontrados."
  | false, false => "No se encontraron datos válidos para procesar."
  end.

Definition df_vacio : DataFrame :=
  {| columnas := Ejemplos.cabecera; filas := [];
     indice := indice_rango |}.

Definition df_dos_filas : DataFrame :=
  {| columnas := Ejemplos.cabecera;
     filas := [ Ejemplos.fila_txt "a1" "Camisa" "ropa" "100" "10";
                Ejemplos.fila_txt "b2" "Mesa" "hogar" "250.5" "4" ];
     indice := indice_rango |}.

(** Two rows with the key of a product that is already stored. *)
Definition df_repetida_existente : DataFrame :=
  {| columnas := Ejemplos.cabecera;
     filas := [ Ejemplos.fila_txt "prod001" "Camisa" "ropa" "100" "10";
                Ejemplos.fila_txt "PROD001" "Mesa" "hogar" "250" "4" ];
     indice := indice_rango |}.


Definition dicts_repetidos : list (list (string * celda)) :=
  [ Ejemplos.dict_txt "n1" "Camisa" "ropa" "100" "10";
    Ejemplos.dict_txt "N1" "Mesa" "hogar" "250" "4" ].

(** The error entry of the commit pass for a row whose label gave the
    number [n]. *)
Definition entrada_commit (cols : list string) (n : marca_fila)
    (row : list celda) (m : motivo_commit) : ErrorItem :=
  {| ei_fila := n;
     ei_error := mensaje_commit m;
     ei_data := Some (row_to_dict cols row) |}.

(** The field a reason of the preview speaks of. *)
Definition campo_preview (m : motivo_preview) : campo :=
  match m with
  | PCodigoRequerido | PCodigoYaExiste _ | PCodigoDuplicado _ => Codigo
  | PNombreRequerido => Nombre
  | PCategoriaRequerida | PCategoriaNoExiste _ => CategoriaRef
  | PPrecioNegativo | PPrecioInvalido => Precio
  | PStockNegativo | PStockInvalido => Stock
  end.

Definition campo_commit (m : motivo_commit) : campo :=
  match m with
  | CCodigoRequerido | CCodigoYaExiste _ | CCodigoDuplicado _ => Codigo
  | CNombreRequerido => Nombre
  | CCategoriaNoExiste _ => CategoriaRef
  | CPrecioNegativo | CPrecioInvalido => Precio
  | CStockNegativo | CStockInvalido => Stock
  end.

(** A row whose key is stored, in lower case, for an active product. *)
Definition dict_clave_minuscula : list (string * celda) :=
  Ejemplos.dict_txt "abc" "Cable" "ropa" "5" "3".

Definition df_clave_minuscula : DataFrame :=
  {| columnas := Ejemplos.cabecera;
     filas := [ Ejemplos.fila_txt "abc" "Cable" "ropa" "5" "3" ];
     indice := indice_rango |}.

(** The verdict of the commit validator agrees with the reasons of the
    preview: acceptance with no reason, a rejection with the category of
    the first reason. *)
Definition concuerdan (es : list motivo_preview) (v : veredicto) : Prop :=
  match es, v with
  | [], Aceptada _ => True
  | m :: _, Rechazada m' => categoria_commit m' = categoria_preview m
  | _, _ => False
  end.

(** The keys seen by the two passes agree outside the existing keys. *)
Definition mismos_vistos (ex vp vc : gset string) : Prop :=
  forall k, k ∉ ex -> (k ∈ vp <-> k ∈ vc).

(** A row with a blank category. *)
Definition dict_sin_categoria : list (string * celda) :=
  Ejemplos.dict_txt "k1" "Camisa" "  " "10" "1".

(** A row whose category cell is empty in the file: pandas reads it as
    NaN. *)
Definition dict_categoria_vacia : list (string * celda) :=
  [("codigo", CStr "k1"); ("nombre", CStr "Camisa");
   ("categoria", CFloat FNaN); ("precio", CStr "10"); ("stock", CStr "1")].

Definition df_categoria_vacia : DataFrame :=
  {| columnas := Ejemplos.cabecera;
     filas := [ [CStr "k1"; CStr "Camisa"; CFloat FNaN; CStr "10"; CStr "1"] ];
     indice := indice_rango |}.

Definition df_sin_categoria : DataFrame :=
  {| columnas := Ejemplos.cabecera;
     filas := [ Ejemplos.fila_txt "k1" "Camisa" "  " "10" "1" ];
     indice := indice_rango |}.

(** ** Further functions of the base service and of the router *)

(** The class [[\r\n\t]]. *)
Definition es_salto (c : ascii) : bool :=
  Ascii.eqb c (ascii_of_nat 13) || Ascii.eqb c (ascii_of_nat 10)
  || Ascii.eqb c (ascii_of_nat 9).

(** [ICargaMasivaService.normalizar_texto] *)
Definition normalizar_texto {py : Python} (texto : celda) : string :=
  if truthy texto then
    let t := py_lower (py_strip (str_de texto)) in
    let t := py_sin_tildes t in
    let t := PyStr.quitar es_salto t in
    let t := py_sub_blancos t in
    py_strip t
  else EmptyString.

(** Every character of the class is [rep] and no two of them are
    adjacent. *)
Fixpoint suelto (p : ascii -> bool) (rep : ascii) (s : string) : bool :=
  match s with
  | EmptyString => true
  | String c r =>
      (negb (p c) || (Ascii.eqb c rep && negb (PyStr.empieza p r)))
      && suelto p rep r
  end.

(** The renaming of the labels in [render_preview]:
    [re.sub(r'[ .-]+', '_', col.strip().lower())]. *)
Definition normalizar_columna_router {py : Python} (col : string) : string :=
  PyStr.sub_runs clase_separador (py_lower (py_strip col)).

(** The format test of [upload_archivo] on [file.filename]. *)
Definition formato_valido {py : Python} (file_filename : option string)
  : bool :=
  let filename :=
    match file_filename with
    | Some f => if String.eqb f EmptyString then EmptyString else py_lower f
    | None => EmptyString
    end in
  PyStr.endswith filename ".csv" || PyStr.endswith filename ".xls"
  || PyStr.endswith filename ".xlsx".

Definition error_formato : excepcion :=
  Excepcion ValueError "Formato no soportado. Use CSV, XLS o XLSX.".

(** A price the commit loop lets through: one that does not compare below
    zero, that is a number at least 0, the infinity above or NaN. *)
Definition precio_admitido (f : pyfloat) : Prop :=
  match f with
  | FFinite q => (0 <= q)%Q
  | FInf negativo => negativo = false
  | FNaN => True
  end.

(** What the commit loop guarantees of a mapping it queues. *)
Definition bien_formado {py : Python} (cmap : gmap string Z) (p : Producto)
  : Prop :=
  codigo p <> EmptyString /\
  (exists t, codigo p = py_upper (py_strip t)) /\
  nombre p <> EmptyString /\
  (exists t, nombre p = py_strip t) /\
  descripcion p <> Some EmptyString /\
  (exists k, cmap !! k = Some (categoria_id p)) /\
  categoria_id p <> 0%Z /\
  precio_admitido (precio p) /\
  (0 <= stock p)%Z /\
  estado p = 1%Z.

(** The place of a field in the order of the rules. *)
Definition rango (f : campo) : nat :=
  match f with
  | Codigo => 0
  | Nombre => 1
  | CategoriaRef => 2
  | Precio => 3
  | Stock => 4
  end.

(** The row number carried by an entry of the commit pass. *)
Definition numero_de (it : ErrorItem) : option nat :=
  match ei_fila it with
  | FilaNumero n => Some n
  | _ => None
  end.

(** The replacement [df.fillna("")] makes in one cell. *)
Definition llenar (v : celda) : celda :=
  if isna v then CStr EmptyString else v.

(** The stock cell of a row dictionary is read as an infinity. *)
Definition stock_infinito {py : Python} (row : list (string * celda)) : Prop :=
  let stock_raw := obtener (aplanar_fila row) "stock" in
  truthy stock_raw = true /\
  exists negativo, float_de (CStr (str_de stock_raw)) = Ok (FInf negativo).

Definition desbordamiento : excepcion :=
  Excepcion OverflowError "cannot convert float infinity to integer".

Fixpoint ordenado (l : list nat) : bool :=
  match l with
  | a :: ((b :: _) as r) => (a <=? b)%nat && ordenado r
  | _ => true
  end.

(** * Properties *)

Set Warnings "-clear-no-such-hyp".

(** ** Text primitives *)

Module PyStrFacts.
Import PyStr.

Ltac por_casos c :=
  destruct c as [[] [] [] [] [] [] [] []]; try reflexivity; try discriminate.

Lemma lower_char_idem c : lower_char (lower_char c) = lower_char c.
Proof. por_casos c. Qed.

Lemma upper_char_idem c : upper_char (upper_char c) = upper_char c.
Proof. por_casos c. Qed.

Lemma map_str_idem f s :
  (forall c, f (f c) = f c) -> map_str f (map_str f s) = map_str f s.
Proof.
  intros Hf. induction s as [|c r IH]; simpl; [reflexivity|].
  now rewrite Hf, IH.
Qed.

Lemma upper_idem s : upper (upper s) = upper s.
Proof. apply map_str_idem, upper_char_idem. Qed.

Lemma lower_idem s : lower (lower s) = lower s.
Proof. apply map_str_idem, lower_char_idem. Qed.

Lemma todos_lstrip p q s :
  todos q s = true -> todos q (lstrip_by p s) = true.
Proof.
  induction s as [|c r IH]; simpl; [easy|].
  intros H. apply andb_true_iff in H as [Hc Hr].
  destruct (p c); [auto|]. simpl. now rewrite Hc, Hr.
Qed.

Lemma todos_rstrip p q s :
  todos q s = true -> todos q (rstrip_by p s) = true.
Proof.
  induction s as [|c r IH]; simpl; [easy|].
  intros H. apply andb_true_iff in H as [Hc Hr].
  specialize (IH Hr).
  destruct (rstrip_by p r) as [|d t].
  - destruct (p c); simpl; [reflexivity|]. now rewrite Hc.
  - simpl in *. now rewrite Hc, IH.
Qed.

Lemma todos_strip p q s :
  todos q s = true -> todos q (strip_by p s) = true.
Proof. intros H. now apply todos_rstrip, todos_lstrip. Qed.

Lemma todos_map f q r s :
  (forall c, q c = true -> r (f c) = true) ->
  todos q s = true -> todos r (map_str f s) = true.
Proof.
  intros Hf. induction s as [|c t IH]; simpl; [easy|].
  intros H. apply andb_true_iff in H as [Hc Ht].
  now rewrite (Hf _ Hc), IH.
Qed.

Lemma todos_sub_runs p q r b s :
  r "_"%char = true ->
  (forall c, p c = false -> q c = true -> r c = true) ->
  todos q s = true -> todos r (sub_runs_aux p b s) = true.
Proof.
  intros Hu Hpq. revert b.
  induction s as [|c t IH]; simpl; [easy|].
  intros b H. apply andb_true_iff in H as [Hc Ht].
  destruct (p c) eqn:Hp.
  - destruct b; simpl; [now apply IH|]. rewrite Hu. now apply IH.
  - simpl. rewrite (Hpq _ Hp Hc). now apply IH.
Qed.

Lemma empieza_lstrip p s : empieza p (lstrip_by p s) = false.
Proof.
  induction s as [|c r IH]; simpl; [reflexivity|].
  destruct (p c) eqn:Hp; [exact IH|]. simpl. exact Hp.
Qed.

Lemma termina_rstrip p s : termina p (rstrip_by p s) = false.
Proof.
  induction s as [|c r IH]; simpl; [reflexivity|].
  destruct (rstrip_by p r) as [|d t] eqn:E.
  - destruct (p c) eqn:Hp; simpl; [reflexivity|exact Hp].
  - exact IH.
Qed.

Lemma empieza_rstrip p q s :
  empieza q (rstrip_by p s) = true -> empieza q s = true.
Proof.
  destruct s as [|c r]; simpl; [easy|].
  destruct (rstrip_by p r); [destruct (p c)|]; simpl; easy.
Qed.

Lemma lstrip_fix p s : empieza p s = false -> lstrip_by p s = s.
Proof. destruct s as [|c r]; simpl; [easy|]. now intros ->. Qed.

Lemma rstrip_fix p s : termina p s = false -> rstrip_by p s = s.
Proof.
  induction s as [|c r IH]; [easy|].
  intros H. cbn [rstrip_by]. destruct r as [|d t].
  - simpl in *. now rewrite H.
  - rewrite IH by exact H. reflexivity.
Qed.

Lemma strip_fix p s :
  empieza p s = false -> termina p s = false -> strip_by p s = s.
Proof.
  intros H1 H2. unfold strip_by. rewrite (lstrip_fix _ _ H1).
  now apply rstrip_fix.
Qed.

Lemma empieza_strip p s : empieza p (strip_by p s) = false.
Proof.
  unfold strip_by.
  destruct (empieza p (rstrip_by p (lstrip_by p s))) eqn:E; [|reflexivity].
  apply empieza_rstrip in E. now rewrite empieza_lstrip in E.
Qed.

Lemma termina_strip p s : termina p (strip_by p s) = false.
Proof. apply termina_rstrip. Qed.

Lemma todos_no_empieza p s :
  todos (fun c => negb (p c)) s = true -> empieza p s = false.
Proof.
  destruct s as [|c r]; simpl; [easy|].
  intros H. apply andb_true_iff in H as [Hc _].
  now apply negb_true_iff.
Qed.

Lemma todos_no_termina p s :
  todos (fun c => negb (p c)) s = true -> termina p s = false.
Proof.
  induction s as [|c r IH]; [easy|].
  intros H. simpl in H. apply andb_true_iff in H as [Hc Hr].
  destruct r as [|d t]; [now apply negb_true_iff|].
  exact (IH Hr).
Qed.

Lemma sin_dobles_lstrip p s :
  sin_dobles s = true -> sin_dobles (lstrip_by p s) = true.
Proof.
  induction s as [|c r IH]; [easy|].
  intros H. cbn [lstrip_by]. destruct (p c); [|exact H].
  cbn [sin_dobles] in H. apply andb_true_iff in H as [_ Hr]. auto.
Qed.

Lemma sin_dobles_rstrip p s :
  sin_dobles s = true -> sin_dobles (rstrip_by p s) = true.
Proof.
  induction s as [|c r IH]; [easy|].
  intros H. cbn [sin_dobles] in H. apply andb_true_iff in H as [Hc Hr].
  specialize (IH Hr). cbn [rstrip_by].
  destruct (rstrip_by p r) as [|d t] eqn:E.
  - destruct (p c); simpl; [reflexivity|].
    now rewrite andb_false_r.
  - change (sin_dobles (String c (String d t)))
      with (negb (Ascii.eqb "_" c && empieza (Ascii.eqb "_") (String d t))
            && sin_dobles (String d t)).
    rewrite IH, andb_true_r.
    destruct (Ascii.eqb "_" c) eqn:Ec; [|reflexivity].
    destruct (empieza (Ascii.eqb "_") (String d t)) eqn:Ed; [|reflexivity].
    rewrite <- E in Ed. apply empieza_rstrip in Ed.
    now rewrite Ed in Hc.
Qed.

Lemma sub_runs_guion_forma s :
  sin_dobles (sub_runs_aux (Ascii.eqb "_") false s) = true /\
  sin_dobles (sub_runs_aux (Ascii.eqb "_") true s) = true /\
  empieza (Ascii.eqb "_") (sub_runs_aux (Ascii.eqb "_") true s) = false.
Proof.
  induction s as [|c r (IHf & IHt & IHe)]; [easy|].
  cbn [sub_runs_aux]. destruct (Ascii.eqb "_" c) eqn:Ec.
  - repeat split; try assumption.
    cbn [sin_dobles]. rewrite IHe, IHt. reflexivity.
  - repeat split.
    + cbn [sin_dobles]. rewrite Ec, IHf. reflexivity.
    + cbn [sin_dobles]. rewrite Ec, IHf. reflexivity.
    + cbn [empieza]. exact Ec.
Qed.

Lemma sub_runs_guion_fix s :
  sin_dobles s = true ->
  sub_runs_aux (Ascii.eqb "_") false s = s /\
  (empieza (Ascii.eqb "_") s = false ->
   sub_runs_aux (Ascii.eqb "_") true s = s).
Proof.
  induction s as [|c r IH]; [easy|].
  intros H. cbn [sin_dobles] in H. apply andb_true_iff in H as [Hc Hr].
  destruct (IH Hr) as [IHf IHt]. cbn [sub_runs_aux].
  destruct (Ascii.eqb "_" c) eqn:Ec.
  - cbn [andb] in Hc. apply negb_true_iff in Hc. split.
    + rewrite (IHt Hc). apply Ascii.eqb_eq in Ec. now subst c.
    + cbn [empieza]. rewrite Ec. discriminate.
  - rewrite IHf. split; reflexivity.
Qed.

Lemma sub_runs_clase_fix p b s :
  todos (fun c => negb (p c)) s = true -> sub_runs_aux p b s = s.
Proof.
  revert b. induction s as [|c r IH]; [easy|].
  intros b H. simpl in H. apply andb_true_iff in H as [Hc Hr].
  apply negb_true_iff in Hc. cbn [sub_runs_aux]. rewrite Hc.
  now rewrite IH.
Qed.

Lemma map_str_fix f s :
  todos (fun c => Ascii.eqb (f c) c) s = true -> map_str f s = s.
Proof.
  induction s as [|c r IH]; [easy|].
  intros H. simpl in H. apply andb_true_iff in H as [Hc Hr].
  apply Ascii.eqb_eq in Hc. simpl. now rewrite Hc, IH.
Qed.

Lemma todos_impl (q r : ascii -> bool) s :
  (forall c, q c = true -> r c = true) ->
  todos q s = true -> todos r s = true.
Proof.
  intros Hqr. induction s as [|c t IH]; simpl; [easy|].
  intros H. apply andb_true_iff in H as [Hc Ht].
  now rewrite (Hqr _ Hc), IH.
Qed.

End PyStrFacts.

(** ** Column names *)

Section Aplanar.
Context {py : Python}.
Import PyStr PyStrFacts.

Lemma aplanar_desplegado x :
  aplanar_nombre_columna x = subrayar (py_sin_tildes (py_lower (py_strip x))).
Proof. reflexivity. Qed.

Lemma todos_sub_runs_guion q s b :
  q "_"%char = true ->
  todos q s = true -> todos q (sub_runs_aux (Ascii.eqb "_") b s) = true.
Proof.
  intros Hu. apply (todos_sub_runs _ q q); [exact Hu|auto].
Qed.

(** Whatever the text, the three substitutions leave none of the
    characters they replace, no two adjacent underscores and no underscore
    at either end. *)
Lemma subrayar_forma t : sin_separadores (subrayar t) = true.
Proof.
  unfold sin_separadores, subrayar, strip_char, sub_runs.
  rewrite !andb_true_iff, !negb_true_iff. repeat split.
  - apply todos_strip, todos_sub_runs_guion; [reflexivity|].
    apply (todos_sub_runs _ (fun _ => true)); [reflexivity| |].
    + intros c Hc _. now rewrite Hc.
    + clear. induction t as [|c r IH]; [reflexivity|exact IH].
  - unfold strip_by. apply sin_dobles_rstrip, sin_dobles_lstrip.
    apply sub_runs_guion_forma.
  - apply empieza_strip.
  - apply termina_strip.
Qed.

Lemma subrayar_fijo y : sin_separadores y = true -> subrayar y = y.
Proof.
  unfold sin_separadores, subrayar, strip_char, sub_runs.
  rewrite !andb_true_iff, !negb_true_iff. intros [[[Hs Hd] He] Ht].
  rewrite (sub_runs_clase_fix clase_separador false y Hs).
  rewrite (proj1 (sub_runs_guion_fix y Hd)).
  now apply strip_fix.
Qed.

Lemma subrayar_idem t : subrayar (subrayar t) = subrayar t.
Proof. apply subrayar_fijo, subrayar_forma. Qed.

Lemma base_tras_separador c :
  clase_separador c = false -> caracter_base c = true ->
  (es_ascii c && caracter_plano c) = true.
Proof.
  destruct c as [[] [] [] [] [] [] [] []]; vm_compute; intros; congruence.
Qed.

Lemma plano_no_blanco c :
  (es_ascii c && caracter_plano c) = true -> negb (isspace c) = true.
Proof.
  destruct c as [[] [] [] [] [] [] [] []]; vm_compute; intros; congruence.
Qed.

Lemma plano_minuscula c :
  (es_ascii c && caracter_plano c) = true -> Ascii.eqb (lower_char c) c = true.
Proof.
  destruct c as [[] [] [] [] [] [] [] []]; vm_compute; intros; congruence.
Qed.

Lemma plano_ascii c : (es_ascii c && caracter_plano c) = true -> es_ascii c = true.
Proof. intros H. now apply andb_true_iff in H as [H _]. Qed.

(** On a text of base characters the three substitutions give an ASCII
    text without capitals and without whitespace. *)
Lemma subrayar_base t :
  todos caracter_base t = true ->
  todos (fun c => es_ascii c && caracter_plano c) (subrayar t) = true.
Proof.
  intros Ht. unfold subrayar, strip_char, sub_runs.
  apply todos_strip, todos_sub_runs_guion; [reflexivity|].
  apply (todos_sub_runs _ caracter_base); [reflexivity| |exact Ht].
  apply base_tras_separador.
Qed.

(** The interpreter's methods leave an ASCII text without capitals and
    without whitespace as it is. *)
Lemma metodos_fijos y :
  todos (fun c => es_ascii c && caracter_plano c) y = true ->
  py_strip y = y /\ py_lower y = y /\ py_sin_tildes y = y.
Proof.
  intros Hy.
  assert (Ha : todos es_ascii y = true)
    by (eapply todos_impl; [apply plano_ascii|exact Hy]).
  assert (Hb : todos (fun c => negb (isspace c)) y = true)
    by (eapply todos_impl; [apply plano_no_blanco|exact Hy]).
  rewrite (py_strip_ascii y Ha), (py_lower_ascii y Ha), (py_sin_tildes_ascii y Ha).
  split; [|split; [|reflexivity]].
  - apply strip_fix; auto using todos_no_empieza, todos_no_termina.
  - apply map_str_fix. eapply todos_impl; [apply plano_minuscula|exact Hy].
Qed.

(** C5, amended: normalising twice gives the same name as normalising
    once whenever the name normalised once is left as it is by [strip],
    [lower] and the removal of diacritics; that is the case of every
    header whose trimmed, lower-cased form without diacritics is made of
    ASCII characters other than capitals and other than whitespace apart
    from the plain space. *)
Theorem aplanar_idempotente (x : string) :
  let y := aplanar_nombre_columna x in
  (py_strip y = y -> py_lower y = y -> py_sin_tildes y = y ->
   aplanar_nombre_columna y = y) /\
  (todos caracter_base (py_sin_tildes (py_lower (py_strip x))) = true ->
   aplanar_nombre_columna y = y).
Proof.
  intros y.
  assert (H1 : py_strip y = y -> py_lower y = y -> py_sin_tildes y = y ->
               aplanar_nombre_columna y = y).
  { intros Hs Hl Ht. rewrite (aplanar_desplegado y), Hs, Hl, Ht.
    subst y. rewrite aplanar_desplegado. apply subrayar_idem. }
  split; [exact H1|].
  intros Hx. apply subrayar_base, metodos_fijos in Hx as (Hs & Hl & Ht).
  now apply H1.
Qed.

End Aplanar.

(** C5, as stated, fails: the header made of an underscore, a TAB and the
    letter a normalises to TAB followed by a, which normalises to a. *)
Lemma aplanar_no_idempotente :
  aplanar_nombre_columna (py := Ejemplos.python_ejemplo)
    (aplanar_nombre_columna (py := Ejemplos.python_ejemplo) Ejemplos.cabecera_tab)
  <> aplanar_nombre_columna (py := Ejemplos.python_ejemplo) Ejemplos.cabecera_tab.
Proof. vm_compute. discriminate. Qed.

Lemma aplanar_idempotente_testigo :
  let x := "  Número de Documento. " in
  let y := aplanar_nombre_columna (py := Ejemplos.python_ejemplo) x in
  y = "numero_de_documento" /\
  aplanar_nombre_columna (py := Ejemplos.python_ejemplo) y = y.
Proof.
  intros x y. split; [vm_compute; reflexivity|].
  apply (proj2 (aplanar_idempotente (py := Ejemplos.python_ejemplo) x)).
  vm_compute. reflexivity.
Defined.

Example aplanar_docstring :
  aplanar_nombre_columna (py := Ejemplos.python_ejemplo) "Número de Documento"
  = "numero_de_documento".
Proof. vm_compute. reflexivity. Qed.

(** ** Header renaming in the commit pass *)

Section Renombrar.
Context {py : Python}.
Import PyStr PyStrFacts.

Lemma lower_upper_char c : lower_char (upper_char c) = lower_char c.
Proof. por_casos c. Qed.

Lemma lower_upper s : lower (upper s) = lower s.
Proof.
  induction s as [|c r IH]; [reflexivity|].
  unfold lower, upper in *. simpl. now rewrite lower_upper_char, IH.
Qed.

Lemma ascii_lower_char c : es_ascii c = true -> es_ascii (lower_char c) = true.
Proof.
  destruct c as [[] [] [] [] [] [] [] []]; vm_compute; intros; congruence.
Qed.

Lemma ascii_upper_char c : es_ascii c = true -> es_ascii (upper_char c) = true.
Proof.
  destruct c as [[] [] [] [] [] [] [] []]; vm_compute; intros; congruence.
Qed.

Lemma ascii_lower s : todos es_ascii s = true -> todos es_ascii (lower s) = true.
Proof. apply todos_map, ascii_lower_char. Qed.

Lemma ascii_upper s : todos es_ascii s = true -> todos es_ascii (upper s) = true.
Proof. apply todos_map, ascii_upper_char. Qed.

Lemma ascii_strip s : todos es_ascii s = true -> todos es_ascii (strip s) = true.
Proof. apply todos_strip. Qed.

(** On an ASCII text the methods of the interpreter are those of [PyStr]. *)
Lemma upper_strip_ascii s :
  todos es_ascii s = true -> py_upper (py_strip s) = upper (strip s).
Proof.
  intros H. rewrite (py_strip_ascii s H).
  now rewrite (py_upper_ascii _ (ascii_strip s H)).
Qed.

Lemma lower_strip_ascii s :
  todos es_ascii s = true -> py_lower (py_strip s) = lower (strip s).
Proof.
  intros H. rewrite (py_strip_ascii s H).
  now rewrite (py_lower_ascii _ (ascii_strip s H)).
Qed.

Lemma aplanar_ascii c :
  todos es_ascii c = true ->
  aplanar_nombre_columna c = subrayar (lower (strip c)).
Proof.
  intros H. rewrite aplanar_desplegado, (lower_strip_ascii c H).
  now rewrite (py_sin_tildes_ascii _ (ascii_lower _ (ascii_strip c H))).
Qed.

Lemma renombrar_ascii c :
  todos es_ascii c = true ->
  renombrar_columna c
  = match _get_column_map !! upper (strip c) with
    | Some interno => interno
    | None => lower (strip c)
    end.
Proof.
  intros H. unfold renombrar_columna.
  now rewrite (upper_strip_ascii c H), (lower_strip_ascii c H).
Qed.

(** The field names of the table are names that both normalisers leave
    as they are. *)
Lemma renombrar_valor_fijo k interno :
  _get_column_map !! k = Some interno ->
  renombrar_columna interno = interno /\
  aplanar_nombre_columna interno = interno.
Proof.
  unfold _get_column_map. intros H. apply elem_of_list_to_map_2 in H.
  repeat (apply elem_of_cons in H as [H|H];
          [inversion H; subst;
           rewrite renombrar_ascii, aplanar_ascii by reflexivity;
           split; vm_compute; reflexivity|]).
  now apply elem_of_nil in H.
Qed.


End Renombrar.



(** ** The commit loop *)

Section BucleCommit.
Context {py : Python}.

Lemma validar_fila_commit_aceptada cmap ex vistos get p vistos' :
  validar_fila_commit cmap ex vistos get = Ok (Aceptada p, vistos') ->
  codigo p = clave_commit get /\ (codigo p ∉ ex) /\ (codigo p ∉ vistos) /\
  vistos' = {[codigo p]} ∪ vistos.
Proof.
  unfold validar_fila_commit, clave_commit.
  intros H. repeat case_match; simplify_eq; simpl.
  all: repeat split; try reflexivity; eapply bool_decide_eq_false_1; eassumption.
Qed.

Lemma validar_fila_commit_vistos cmap ex vistos get v vistos' :
  validar_fila_commit cmap ex vistos get = Ok (v, vistos') ->
  vistos' = vistos \/
  (vistos' = {[clave_commit get]} ∪ vistos /\ (clave_commit get ∉ ex) /\
   (clave_commit get ∉ vistos)).
Proof.
  unfold validar_fila_commit, clave_commit.
  intros H.
  repeat case_match; simplify_eq; auto; right;
    (split; [reflexivity|split; eapply bool_decide_eq_false_1; eassumption]).
Qed.

(** The keys queued for insertion are pairwise distinct, absent from the
    cached existing keys and recorded as seen. *)
Lemma bucle_commit_claves cmap ex cols ind rows :
  forall index st r st',
    bucle_commit cmap ex cols ind index rows st = (r, st') ->
    NoDup (map codigo (productos_a_crear st)) ->
    (forall p, In p (productos_a_crear st) ->
               (codigo p ∉ ex) /\ codigo p ∈ codigos_en_archivo st) ->
    NoDup (map codigo (productos_a_crear st')) /\
    (forall p, In p (productos_a_crear st') ->
               (codigo p ∉ ex) /\ codigo p ∈ codigos_en_archivo st').
Proof.
  induction rows as [|row resto IH]; intros index st r st' H Hnd Hin.
  - simpl in H. now inversion H; subst.
  - cbn [bucle_commit] in H.
    destruct (mas_dos (ind index)) as [n|e0]; [|inversion H; subst; now split].
    destruct (validar_fila_commit cmap ex (codigos_en_archivo st)
                (row_get cols row)) as [[[m|p] vistos]|e] eqn:E.
    + apply IH in H; [exact H|exact Hnd|]. cbn.
      intros p Hp. destruct (Hin p Hp) as [H1 H2]. split; [exact H1|].
      apply validar_fila_commit_vistos in E as [->|(-> & _)];
        [exact H2|apply elem_of_union; now right].
    + apply validar_fila_commit_aceptada in E as (Hk & Hex & Hv & ->).
      apply IH in H; [exact H| |]; cbn.
      * rewrite map_app. apply NoDup_app. split; [exact Hnd|]. split.
        -- intros k Hk1 Hk2. apply list_elem_of_In in Hk1, Hk2.
           cbn in Hk2. destruct Hk2 as [<-|[]].
           apply in_map_iff in Hk1 as (q & Hq & Hq').
           apply Hv. rewrite <- Hq. now apply Hin.
        -- cbn. apply NoDup_singleton.
      * intros q Hq. apply in_app_iff in Hq as [Hq|[<-|[]]].
        -- destruct (Hin q Hq). split; [assumption|].
           apply elem_of_union; now right.
        -- split; [assumption|]. apply elem_of_union; left.
           now apply elem_of_singleton.
    + inversion H; subst. now split.
Qed.

(** The sum [index + 2] is never the mark of the handler. *)
Lemma mas_dos_no_na l n : mas_dos l = Ok n -> es_na n = false.
Proof.
  destruct l as [i|x|e]; cbn; intros H; inversion H; subst; [|reflexivity].
  now destruct (0 <=? i + 2)%Z.
Qed.

(** Every row visited by the loop is queued or rejected, once. *)
Lemma bucle_commit_cuenta cmap ex cols ind rows :
  forall index st r st',
    bucle_commit cmap ex cols ind index rows st = (r, st') ->
    (length (eb_errores st') + length (productos_a_crear st')
     <= length (eb_errores st) + length (productos_a_crear st) + length rows)%nat
    /\ (r = None ->
        (length (eb_errores st') + length (productos_a_crear st')
         = length (eb_errores st) + length (productos_a_crear st) + length rows)%nat).
Proof.
  induction rows as [|row resto IH]; intros index st r st' H.
  - simpl in H. inversion H; subst. simpl. lia.
  - cbn [bucle_commit] in H.
    destruct (mas_dos (ind index)) as [n|e0];
      [|inversion H; subst; cbn; split; [lia|discriminate]].
    destruct (validar_fila_commit cmap ex (codigos_en_archivo st)
                (row_get cols row)) as [[[m|p] vistos]|e] eqn:E.
    + apply IH in H as [H1 H2]. cbn in H1, H2. rewrite length_app in H1, H2.
      cbn in *. split; [lia|]. intros Hr. specialize (H2 Hr). lia.
    + apply IH in H as [H1 H2]. cbn in H1, H2. rewrite length_app in H1, H2.
      cbn in *. split; [lia|]. intros Hr. specialize (H2 Hr). lia.
    + inversion H; subst. cbn. split; [lia|discriminate].
Qed.

(** The loop only appends entries that carry a row number. *)
Lemma bucle_commit_errores cmap ex cols ind rows :
  forall index st r st',
    bucle_commit cmap ex cols ind index rows st = (r, st') ->
    exists l, eb_errores st' = (eb_errores st ++ l)%list /\
              Forall (fun it => es_na (ei_fila it) = false) l.
Proof.
  induction rows as [|row resto IH]; intros index st r st' H.
  - simpl in H. inversion H; subst. exists []. now rewrite app_nil_r.
  - cbn [bucle_commit] in H.
    destruct (mas_dos (ind index)) as [n|e0] eqn:En;
      [|inversion H; subst; exists []; now rewrite app_nil_r].
    destruct (validar_fila_commit cmap ex (codigos_en_archivo st)
                (row_get cols row)) as [[[m|p] vistos]|e] eqn:E.
    + apply IH in H as (l & -> & Hl). cbn. eexists.
      rewrite <- app_assoc. split; [reflexivity|].
      constructor; [exact (mas_dos_no_na _ _ En)|exact Hl].
    + apply IH in H as (l & -> & Hl). cbn. now exists l.
    + inversion H; subst. exists []. now rewrite app_nil_r.
Qed.

End BucleCommit.

(** ** The commit pass *)

Section Pase.
Context {py : Python}.

Lemma generar_mensaje_plantilla y :
  _generar_mensaje y = plantilla (creados y) (con_errores y).
Proof.
  unfold _generar_mensaje, plantilla.
  now destruct (0 <? creados y)%nat, (0 <? con_errores y)%nat.
Qed.

Lemma fillna_normalizar_filas df :
  length (filas (fillna (_normalizar_columnas df))) = length (filas df).
Proof. cbn. now rewrite length_map. Qed.

(** What the [try] block leaves behind, by outcome. *)
Lemma intento_forma env content filename s r s1 :
  intento env content filename s = (r, s1) ->
  categorias (db s1) = categorias (db s) /\
  (exists l, errores s1 = (errores s ++ l)%list /\
             Forall (fun it => es_na (ei_fila it) = false) l) /\
  actualizados (summary s1) = actualizados (summary s) /\
  match r with
  | Some e =>
      productos (db s1) = productos (db s) /\
      (creados (summary s1) + length (errores s1)
       <= total_filas (summary s1) + length (errores s)
          + creados (summary s) + total_filas (summary s))%nat
  | None =>
      exists df nuevos,
        leer_archivo env content filename = Ok df /\
        total_filas (summary s1) = length (filas df) /\
        (length (errores s1) + length nuevos
         = length (errores s) + length (filas df))%nat /\
        creados (summary s1)
        = match nuevos with [] => creados (summary s) | _ => length nuevos end /\
        productos (db s1)
        = (productos (db s) ++ pendientes (db s) ++ nuevos)%list /\
        pendientes (db s1) = [] /\
        NoDup (map codigo nuevos) /\
        (forall p, In p nuevos ->
                   codigo p ∉ indexar_codigos (filter activo (productos (db s))))
  end.
Proof.
  unfold intento, _precache_data.
  destruct (falla_consulta env) as [e0|].
  { intros H; inversion H; subst.
    split; [reflexivity|]. split; [exists []; now rewrite app_nil_r|].
    split; [reflexivity|]. split; [reflexivity|lia]. }
  destruct (leer_archivo env content filename) as [df|e1] eqn:Hleer.
  2:{ intros H; inversion H; subst. cbn.
      split; [reflexivity|]. split; [exists []; now rewrite app_nil_r|].
      split; [reflexivity|]. split; [reflexivity|lia]. }
  cbn -[fillna _normalizar_columnas bucle_commit insertar confirmar].
  destruct (bucle_commit _ _ _ _ 0 _ _) as [rb st] eqn:Hb.
  pose proof (bucle_commit_errores _ _ _ _ _ _ _ _ _ Hb) as (l & Hl & Hna).
  pose proof (bucle_commit_cuenta _ _ _ _ _ _ _ _ _ Hb) as [Hle Heq].
  pose proof (bucle_commit_claves _ _ _ _ _ _ _ _ _ Hb) as Hcl.
  cbn in Hl, Hle, Heq, Hcl. rewrite length_map in Hle, Heq.
  specialize (Hcl (NoDup_nil_2) (fun p (F : False) => match F with end)).
  destruct Hcl as [Hnd Hex].
  destruct rb as [e2|].
  { intros H; inversion H; subst. cbn. rewrite length_map.
    split; [reflexivity|]. split; [now exists l|].
    split; [reflexivity|]. split; [reflexivity|lia]. }
  specialize (Heq eq_refl).
  unfold insertar, confirmar.
  destruct (productos_a_crear st) as [|p0 ps] eqn:Hps.
  - cbn. destruct (falla_commit env) as [e3|]; intros H; inversion H; subst;
      cbn; rewrite ?length_map;
      (split; [reflexivity|]; split; [now exists l|]; split; [reflexivity|]).
    + split; [reflexivity|cbn in *; lia].
    + exists df, []. cbn in *. rewrite ?app_nil_r.
      split; [reflexivity|]. split; [reflexivity|]. split; [lia|].
      split; [reflexivity|]. split; [reflexivity|]. split; [reflexivity|].
      split; [exact Hnd|]. intros p [].
  - destruct (falla_insercion env) as [[n e4]|].
    + intros H; inversion H; subst. cbn. rewrite ?length_map.
      split; [reflexivity|]. split; [now exists l|]. split; [reflexivity|].
      split; [reflexivity|cbn in *; lia].
    + cbn. destruct (falla_commit env) as [e3|]; intros H; inversion H; subst;
        cbn; rewrite ?length_map;
        (split; [reflexivity|]; split; [now exists l|]; split; [reflexivity|]).
      * split; [reflexivity|cbn in *; lia].
      * exists df, (p0 :: ps). cbn in *.
        split; [reflexivity|]. split; [reflexivity|]. split; [lia|].
        split; [reflexivity|]. split; [reflexivity|]. split; [reflexivity|].
        split; [exact Hnd|]. intros p Hp. now apply Hex.
Qed.

Lemma conservacion_cota env content filename d :
  let y := r_summary (fst (procesar_archivo env content filename
                             (nuevo_servicio d))) in
  (creados y + actualizados y + con_errores y <= total_filas y + 1)%nat.
Proof.
  unfold procesar_archivo.
  destruct (intento env content filename (nuevo_servicio d)) as [r s1] eqn:Hi.
  apply intento_forma in Hi as (_ & _ & Hact & Hr).
  destruct r as [e|]; cbn in *.
  - destruct Hr as [_ Hr]. rewrite length_app. cbn. lia.
  - destruct Hr as (df & nuevos & _ & Ht & Hlen & Hc & _).
    destruct nuevos; cbn in *; lia.
Qed.

(** C1, as stated, fails: a file with an unsupported extension is caught
    before any row is counted, and the summary reports zero rows and one
    error. *)
Lemma conservacion_rota_por_fallo :
  let y := r_summary (fst (procesar_archivo (py := Ejemplos.python_ejemplo)
                             (Ejemplos.env_de df_dos_filas) [] "datos.txt"
                             (nuevo_servicio Ejemplos.db_ejemplo))) in
  total_filas y = 0%nat /\ creados y = 0%nat /\ actualizados y = 0%nat /\
  con_errores y = 1%nat /\
  total_filas y <> (creados y + actualizados y + con_errores y)%nat.
Proof. vm_compute. repeat split; discriminate. Qed.

(** C1, amended: the summary returned by a fresh service satisfies
    total_filas = creados + actualizados + con_errores whenever the commit
    pass catches no unexpected failure; with or without a failure the
    counts never exceed the rows by more than the one synthetic entry. *)
Theorem conservacion env content filename d :
  let y := r_summary (fst (procesar_archivo env content filename
                             (nuevo_servicio d))) in
  (fst (intento env content filename (nuevo_servicio d)) = None ->
   total_filas y = (creados y + actualizados y + con_errores y)%nat) /\
  (creados y + actualizados y + con_errores y <= total_filas y + 1)%nat.
Proof.
  split; [|apply conservacion_cota].
  unfold procesar_archivo.
  destruct (intento env content filename (nuevo_servicio d)) as [r s1] eqn:Hi.
  cbn [fst]. intros ->.
  apply intento_forma in Hi as (_ & _ & Hact & df & nuevos & _ & Ht & Hlen & Hc & _).
  cbn in *. destruct nuevos; cbn in *; lia.
Qed.

(** C2: the keys of the rows queued for insertion by the commit loop are
    pairwise distinct and none belongs to the set of existing keys; a pass
    over a database with no open transaction adds to the products table
    only rows with pairwise distinct keys outside the keys cached at its
    start. *)
Theorem claves_aceptadas_disjuntas :
  (forall cmap ex cols ind index rows errs,
      let st := snd (bucle_commit cmap ex cols ind index rows (estado_inicial errs)) in
      NoDup (map codigo (productos_a_crear st)) /\
      (forall p, In p (productos_a_crear st) -> codigo p ∉ ex)) /\
  (forall env content filename cs ps,
      let d := {| categorias := cs; productos := ps; pendientes := [] |} in
      exists nuevos,
        productos (db (snd (procesar_archivo env content filename
                              (nuevo_servicio d))))
        = (ps ++ nuevos)%list /\
        NoDup (map codigo nuevos) /\
        (forall p, In p nuevos ->
                   codigo p ∉ indexar_codigos (filter activo ps))).
Proof.
  split.
  - intros cmap ex cols ind index rows errs st. subst st.
    destruct (bucle_commit cmap ex cols ind index rows (estado_inicial errs))
      as [r st] eqn:Hb.
    apply bucle_commit_claves in Hb as [Hnd Hin];
      [|apply NoDup_nil_2|intros p []].
    cbn. split; [exact Hnd|]. intros p Hp. now apply Hin.
  - intros env content filename cs ps d. unfold procesar_archivo.
    destruct (intento env content filename (nuevo_servicio d)) as [r s1] eqn:Hi.
    apply intento_forma in Hi as (_ & _ & _ & Hr).
    destruct r as [e|]; cbn in *.
    + destruct Hr as [Hp _]. exists []. rewrite app_nil_r.
      split; [exact Hp|]. split; [apply NoDup_nil_2|intros p []].
    + destruct Hr as (df & nuevos & _ & _ & _ & _ & Hp & _ & Hnd & Hex).
      exists nuevos. split; [exact Hp|]. split; assumption.
Qed.

(** C4: when the [try] block of a fresh service raises, the pass ends with
    the tables as they were and no pending write, its error list is what
    the rows had produced followed by one synthetic entry marked N/A (the
    only entry so marked), and the caller receives the summary, the errors
    and the message. *)
Theorem fallo_inesperado env content filename d e s1 :
  intento env content filename (nuevo_servicio d) = (Some e, s1) ->
  let resp := fst (procesar_archivo env content filename (nuevo_servicio d)) in
  let s' := snd (procesar_archivo env content filename (nuevo_servicio d)) in
  productos (db s') = productos d /\
  categorias (db s') = categorias d /\
  pendientes (db s') = [] /\
  r_errors resp = (errores s1 ++ [error_sintetico e])%list /\
  length (filter (fun it => es_na (ei_fila it)) (r_errors resp)) = 1%nat /\
  con_errores (r_summary resp) = length (r_errors resp) /\
  r_message resp
  = plantilla (creados (r_summary resp)) (con_errores (r_summary resp)).
Proof.
  intros Hi. unfold procesar_archivo. rewrite Hi.
  apply intento_forma in Hi as (Hcat & (l & Hl & Hna) & _ & Hp & _).
  cbn in Hcat, Hl, Hp |- *. rewrite <- Hl in Hna.
  split; [exact Hp|]. split; [exact Hcat|]. split; [reflexivity|].
  split; [reflexivity|]. split.
  - rewrite filter_app, length_app. cbn.
    replace (filter _ (errores s1)) with (@nil ErrorItem); [reflexivity|].
    clear -Hna. induction Hna as [|it l Hit _ IH]; [reflexivity|].
    cbn. rewrite decide_False; [exact IH|].
    rewrite Hit. now intros [].
  - split; [reflexivity|]. apply generar_mensaje_plantilla.
Qed.


End Pase.

(** ** The commit pass on concrete files *)

Section PaseEjemplos.
Import Ejemplos.

Lemma conservacion_testigo :
  let y := r_summary (fst (procesar_archivo (env_de df_dos_filas) [] "datos.csv"
                             (nuevo_servicio db_ejemplo))) in
  total_filas y = 2%nat /\
  total_filas y = (creados y + actualizados y + con_errores y)%nat.
Proof.
  split; [vm_compute; reflexivity|].
  apply (proj1 (conservacion (env_de df_dos_filas) [] "datos.csv" db_ejemplo)).
  vm_compute. reflexivity.
Defined.

Lemma claves_aceptadas_disjuntas_testigo :
  exists nuevos,
    productos (db (snd (procesar_archivo (env_de df_dos_filas) [] "datos.csv"
                          (nuevo_servicio db_ejemplo))))
    = (productos db_ejemplo ++ nuevos)%list /\
    NoDup (map codigo nuevos) /\
    (forall p, In p nuevos ->
               codigo p ∉ indexar_codigos (filter activo (productos db_ejemplo))).
Proof.
  exact (proj2 claves_aceptadas_disjuntas (env_de df_dos_filas) [] "datos.csv"
           (categorias db_ejemplo) (productos db_ejemplo)).
Defined.

Lemma fallo_inesperado_testigo :
  let resp := fst (procesar_archivo (env_insercion_falla df_dos_filas) []
                     "datos.csv" (nuevo_servicio db_ejemplo)) in
  let s' := snd (procesar_archivo (env_insercion_falla df_dos_filas) []
                   "datos.csv" (nuevo_servicio db_ejemplo)) in
  productos (db s') = productos db_ejemplo /\
  pendientes (db s') = [] /\
  r_errors resp
  = [error_sintetico (Excepcion ErrorExterno "UNIQUE constraint failed")].
Proof.
  pose proof (fallo_inesperado (env_insercion_falla df_dos_filas) []
                "datos.csv" db_ejemplo
                (Excepcion ErrorExterno "UNIQUE constraint failed")
                (snd (intento (env_insercion_falla df_dos_filas) []
                        "datos.csv" (nuevo_servicio db_ejemplo))))
    as H.
  destruct H as (H1 & _ & H3 & H4 & _); [vm_compute; reflexivity|].
  split; [exact H1|]. split; [exact H3|]. rewrite H4.
  vm_compute. reflexivity.
Defined.



End PaseEjemplos.

(** ** The preview loop *)

Section BuclePreview.
Context {py : Python}.

Lemma atrapar_sin_duplicado {A} (r : resultado A) m k l c :
  atrapar r m k = Ok l ->
  m <> PCodigoDuplicado c ->
  (forall a, ~ In (PCodigoDuplicado c) (k a)) ->
  ~ In (PCodigoDuplicado c) l.
Proof.
  unfold atrapar. intros H Hm Hk.
  destruct r as [a|e].
  - inversion H; subst. apply Hk.
  - destruct (es_valor_o_tipo e); inversion H; subst.
    intros [E|[]]. now apply Hm.
Qed.

(** The key rule of the preview: a non-empty key is always recorded, and
    the duplicated-in-file reason is given exactly when the key had been
    seen. *)
Lemma errores_de_fila_clave cmap ex vistos row es vistos' :
  errores_de_fila cmap ex vistos row = Ok (es, vistos') ->
  let k := clave_preview row in
  (k = EmptyString -> vistos' = vistos) /\
  (k <> EmptyString ->
   vistos' = {[k]} ∪ vistos /\
   (In (PCodigoDuplicado k) es <-> k ∈ vistos) /\
   (In (PCodigoYaExiste k) es <-> k ∈ ex)).
Proof.
  unfold errores_de_fila, clave_preview.
  set (fila := aplanar_fila row).
  destruct (preview_codigo ex vistos fila) as [e1 v1] eqn:E1.
  destruct (preview_precio fila) as [e4|x4] eqn:E4; [|discriminate].
  destruct (preview_stock fila) as [e5|x5] eqn:E5; [|discriminate].
  cbn [ligar]. intros H; inversion H; subst; clear H.
  assert (H4 : forall m, In m e4 -> m = PPrecioNegativo \/ m = PPrecioInvalido).
  { unfold preview_precio, atrapar in E4. intros m.
    repeat (first [case_match | progress simplify_eq]); cbn; naive_solver. }
  assert (H5 : forall m, In m e5 -> m = PStockNegativo \/ m = PStockInvalido).
  { unfold preview_stock, atrapar in E5. intros m.
    repeat (first [case_match | progress simplify_eq]); cbn; naive_solver. }
  assert (H2 : forall m, In m (preview_nombre fila) -> m = PNombreRequerido).
  { unfold preview_nombre. intros m. case_match; cbn; naive_solver. }
  assert (H3 : forall m, In m (preview_categoria cmap fila) ->
                         m = PCategoriaRequerida \/ exists c, m = PCategoriaNoExiste c).
  { unfold preview_categoria. intros m. repeat case_match; cbn; naive_solver. }
  assert (Hresto : forall m,
             In m (preview_nombre fila ++ preview_categoria cmap fila ++ e4 ++ e5)%list ->
             (forall c, m <> PCodigoDuplicado c) /\ (forall c, m <> PCodigoYaExiste c)).
  { intros m Hm. rewrite !in_app_iff in Hm.
    destruct Hm as [Hm|[Hm|[Hm|Hm]]].
    - apply H2 in Hm. subst. split; discriminate.
    - apply H3 in Hm as [->|[c ->]]; split; discriminate.
    - apply H4 in Hm as [->| ->]; split; discriminate.
    - apply H5 in Hm as [->| ->]; split; discriminate. }
  unfold preview_codigo in E1.
  set (k := safe_upper (obtener fila "codigo")) in *.
  destruct (String.eqb k EmptyString) eqn:Ek.
  - inversion E1; subst. split; [reflexivity|].
    apply String.eqb_eq in Ek. intros Hk. now destruct Hk.
  - inversion E1; subst; clear E1. split.
    + apply String.eqb_neq in Ek. intros Hk. now destruct Ek.
    + intros _. split; [reflexivity|].
      rewrite !(in_app_iff (_ ++ _)%list).
      split; (split; [intros [Hin|Hin]|intros Hin; left]).
      * revert Hin. repeat case_bool_decide; cbn; naive_solver.
      * apply Hresto in Hin as [Hin _]. now destruct (Hin k).
      * repeat case_bool_decide; cbn; naive_solver.
      * revert Hin. repeat case_bool_decide; cbn; naive_solver.
      * apply Hresto in Hin as [_ Hin]. now destruct (Hin k).
      * repeat case_bool_decide; cbn; naive_solver.
Qed.

Lemma errores_de_fila_vistos cmap ex vistos row es vistos' :
  errores_de_fila cmap ex vistos row = Ok (es, vistos') ->
  forall k, k ∈ vistos' <->
            k ∈ vistos \/ (clave_preview row = k /\ k <> EmptyString).
Proof.
  intros H k. apply errores_de_fila_clave in H as [H0 H1].
  destruct (String.eqb_spec (clave_preview row) EmptyString) as [E|E].
  - rewrite (H0 E). split; [now left|]. intros [Hk|[Hk Hne]]; [exact Hk|].
    congruence.
  - destruct (H1 E) as [-> _]. rewrite elem_of_union, elem_of_singleton.
    split.
    + intros [->|Hk]; [right; now split|now left].
    + intros [Hk|[Hk _]]; [now right|now left].
Qed.

(** Position by position: the item of row [j] is computed from the row and
    from the keys seen before it. *)
Lemma bucle_preview_item cmap ex rows :
  forall idx vistos res te out te',
    bucle_preview cmap ex idx rows vistos res te = Ok (out, te') ->
    (exists items, out = (res ++ items)%list /\ length items = length rows) /\
    (forall j row,
        rows !! j = Some row ->
        exists es vj vj',
          errores_de_fila cmap ex vj row = Ok (es, vj') /\
          out !! (length res + j)%nat = Some (item_preview (idx + j) row es) /\
          (forall k, k ∈ vj <->
                     k ∈ vistos \/
                     exists i r, (i < j)%nat /\ rows !! i = Some r /\
                                 clave_preview r = k /\ k <> EmptyString)).
Proof.
  induction rows as [|row0 resto IH]; intros idx vistos res te out te' H.
  - cbn in H. inversion H; subst. split.
    + exists []. now rewrite app_nil_r.
    + intros j row Hj. discriminate.
  - cbn [bucle_preview] in H.
    destruct (errores_de_fila cmap ex vistos row0) as [[es0 v0]|e] eqn:E0;
      [|discriminate].
    apply IH in H as [(items & -> & Hlen) Hpos]. split.
    + exists (item_preview idx row0 es0 :: items).
      rewrite <- app_assoc. split; [reflexivity|]. cbn. now rewrite Hlen.
    + intros [|j] row Hj.
      * cbn in Hj. inversion Hj; subst row. exists es0, vistos, v0.
        split; [exact E0|]. split.
        -- rewrite <- app_assoc, Nat.add_0_r. cbn.
           rewrite lookup_app_r by lia. now rewrite Nat.sub_diag, Nat.add_0_r.
        -- intros k. split; [now left|].
           intros [Hk|(i & r & Hi & _)]; [exact Hk|lia].
      * cbn in Hj. destruct (Hpos j row Hj) as (es & vj & vj' & He & Hout & Hv).
        exists es, vj, vj'. split; [exact He|]. split.
        -- rewrite length_app in Hout. cbn in Hout.
           replace (length res + S j)%nat with (length res + 1 + j)%nat by lia.
           replace (idx + S j)%nat with (S idx + j)%nat by lia. exact Hout.
        -- intros k. rewrite Hv, (errores_de_fila_vistos _ _ _ _ _ _ E0). split.
           ++ intros [[Hk|[Hk Hne]]|(i & r & Hi & Hr & Hk & Hne)].
              ** now left.
              ** right. exists 0%nat, row0. repeat split; try assumption. lia.
              ** right. exists (S i), r. repeat split; try assumption. lia.
           ++ intros [Hk|(i & r & Hi & Hr & Hk & Hne)]; [left; now left|].
              destruct i as [|i].
              ** cbn in Hr. inversion Hr; subst r. left. right. now split.
              ** right. exists i, r. repeat split; try assumption. lia.
Qed.

(** The items of a truncated file are the first items of the whole file. *)
Lemma bucle_preview_prefijo cmap ex l1 l2 :
  forall idx vistos res te out te',
    bucle_preview cmap ex idx (l1 ++ l2) vistos res te = Ok (out, te') ->
    exists te0,
      bucle_preview cmap ex idx l1 vistos res te
      = Ok (take (length res + length l1) out, te0).
Proof.
  induction l1 as [|row0 resto IH]; intros idx vistos res te out te' H.
  - apply bucle_preview_item in H as [(items & -> & _) _].
    exists te. cbn. rewrite Nat.add_0_r.
    now rewrite take_app_length.
  - cbn [app bucle_preview] in H |- *.
    destruct (errores_de_fila cmap ex vistos row0) as [[es0 v0]|e] eqn:E0;
      [|discriminate].
    apply IH in H as [te0 H]. exists te0. rewrite H.
    rewrite length_app. cbn. do 3 f_equal. lia.
Qed.

End BuclePreview.

(** ** Repeated keys within one file *)

Section Duplicados.
Context {py : Python}.

(** The key rules of the commit validator, one by one. *)
Lemma validar_fila_commit_ya_existe cmap ex vistos get :
  clave_commit get <> EmptyString ->
  clave_commit get ∈ ex ->
  validar_fila_commit cmap ex vistos get
  = Ok (Rechazada (CCodigoYaExiste (clave_commit get)), vistos).
Proof.
  unfold validar_fila_commit, clave_commit. intros Hne Hex.
  apply String.eqb_neq in Hne. rewrite Hne.
  now rewrite bool_decide_eq_true_2.
Qed.

Lemma validar_fila_commit_duplicado cmap ex vistos get :
  clave_commit get <> EmptyString ->
  clave_commit get ∉ ex ->
  clave_commit get ∈ vistos ->
  validar_fila_commit cmap ex vistos get
  = Ok (Rechazada (CCodigoDuplicado (clave_commit get)), vistos).
Proof.
  unfold validar_fila_commit, clave_commit. intros Hne Hex Hv.
  apply String.eqb_neq in Hne. rewrite Hne.
  rewrite bool_decide_eq_false_2 by exact Hex.
  now rewrite bool_decide_eq_true_2.
Qed.

Lemma validar_fila_commit_nueva cmap ex vistos get v vistos' :
  clave_commit get <> EmptyString ->
  clave_commit get ∉ ex ->
  clave_commit get ∉ vistos ->
  validar_fila_commit cmap ex vistos get = Ok (v, vistos') ->
  vistos' = {[clave_commit get]} ∪ vistos.
Proof.
  unfold validar_fila_commit, clave_commit. intros Hne Hex Hv.
  apply String.eqb_neq in Hne. rewrite Hne.
  rewrite !bool_decide_eq_false_2 by assumption.
  intros H. repeat case_match; simplify_eq; reflexivity.
Qed.

(** The keys seen after a row: those seen before it, and its own key when
    it is non-empty and not an existing key. *)
Lemma validar_fila_commit_registra cmap ex vistos get v vistos' :
  validar_fila_commit cmap ex vistos get = Ok (v, vistos') ->
  forall k, k ∈ vistos' <->
            k ∈ vistos \/
            (clave_commit get = k /\ k <> EmptyString /\ k ∉ ex).
Proof.
  intros H k.
  destruct (String.eqb_spec (clave_commit get) EmptyString) as [E|E].
  { unfold validar_fila_commit in H. fold (clave_commit get) in H.
    rewrite E in H. cbn in H. inversion H; subst.
    split; [now left|]. intros [Hk|(Hk & Hne & _)]; [exact Hk|congruence]. }
  destruct (decide (clave_commit get ∈ ex)) as [Hex|Hex].
  { rewrite validar_fila_commit_ya_existe in H by assumption.
    inversion H; subst. split; [now left|].
    intros [Hk|(Hk & _ & Hn)]; [exact Hk|]. subst k. contradiction. }
  destruct (decide (clave_commit get ∈ vistos)) as [Hv|Hv].
  { rewrite validar_fila_commit_duplicado in H by assumption.
    inversion H; subst. split; [now left|].
    intros [Hk|(Hk & _ & _)]; [exact Hk|]. now subst k. }
  rewrite (validar_fila_commit_nueva _ _ _ _ _ _ E Hex Hv H).
  rewrite elem_of_union, elem_of_singleton. split.
  - intros [->|Hk]; [right; now repeat split|now left].
  - intros [Hk|(Hk & _ & _)]; [now right|now left].
Qed.

(** The loop over a file cut in two. *)
Lemma bucle_commit_app cmap ex cols ind l1 l2 :
  forall index st,
    bucle_commit cmap ex cols ind index (l1 ++ l2) st
    = match bucle_commit cmap ex cols ind index l1 st with
      | (None, st1) => bucle_commit cmap ex cols ind (index + length l1) l2 st1
      | (Some e, st1) => (Some e, st1)
      end.
Proof.
  induction l1 as [|row resto IH]; intros index st.
  - cbn. now rewrite Nat.add_0_r.
  - cbn [app bucle_commit length].
    destruct (mas_dos (ind index)) as [n|e0]; [|reflexivity].
    destruct (validar_fila_commit cmap ex (codigos_en_archivo st)
                (row_get cols row)) as [[[m|p] vistos]|e]; [| |reflexivity].
    + rewrite IH. now replace (S index + length resto)%nat
        with (index + S (length resto))%nat by lia.
    + rewrite IH. now replace (S index + length resto)%nat
        with (index + S (length resto))%nat by lia.
Qed.

Lemma bucle_commit_crece cmap ex cols ind rows :
  forall index st r st',
    bucle_commit cmap ex cols ind index rows st = (r, st') ->
    forall p, In p (productos_a_crear st) -> In p (productos_a_crear st').
Proof.
  induction rows as [|row resto IH]; intros index st r st' H p Hp.
  - cbn in H. now inversion H; subst.
  - cbn [bucle_commit] in H.
    destruct (mas_dos (ind index)) as [n|e0]; [|now inversion H; subst].
    destruct (validar_fila_commit cmap ex (codigos_en_archivo st)
                (row_get cols row)) as [[[m|q] w]|e].
    + eapply IH; [exact H|exact Hp].
    + eapply IH; [exact H|]. cbn. apply in_app_iff. now left.
    + now inversion H; subst.
Qed.



End Duplicados.

(** ** The rules of one row *)

Section Reglas.
Context {py : Python}.

Lemma preview_codigo_campo ex vistos fila m :
  In m (fst (preview_codigo ex vistos fila)) -> campo_preview m = Codigo.
Proof.
  unfold preview_codigo.
  repeat (first [case_match | case_bool_decide]); cbn; naive_solver.
Qed.

Lemma preview_nombre_campo fila m :
  In m (preview_nombre fila) -> campo_preview m = Nombre.
Proof. unfold preview_nombre. case_match; cbn; naive_solver. Qed.

Lemma preview_categoria_campo cmap fila m :
  In m (preview_categoria cmap fila) -> campo_preview m = CategoriaRef.
Proof.
  unfold preview_categoria.
  repeat (first [case_match | case_bool_decide]); cbn; naive_solver.
Qed.

Lemma preview_precio_campo fila e4 m :
  preview_precio fila = Ok e4 -> In m e4 -> campo_preview m = Precio.
Proof.
  unfold preview_precio, atrapar. intros H.
  repeat (first [case_match | progress simplify_eq]); cbn; naive_solver.
Qed.

Lemma preview_stock_campo fila e5 m :
  preview_stock fila = Ok e5 -> In m e5 -> campo_preview m = Stock.
Proof.
  unfold preview_stock, atrapar. intros H.
  repeat (first [case_match | progress simplify_eq]); cbn; naive_solver.
Qed.

(** [float] raises nothing but [ValueError] and [TypeError]. *)
Lemma float_de_excepcion v e : float_de v = Lanza e -> es_valor_o_tipo e = true.
Proof. destruct v; cbn; intros H; repeat case_match; now simplify_eq. Qed.

Lemma preview_precio_total fila : exists e4, preview_precio fila = Ok e4.
Proof.
  unfold preview_precio, atrapar.
  destruct (truthy (obtener fila "precio")); [|eauto].
  destruct (float_de (obtener fila "precio")) as [f|e] eqn:E; [eauto|].
  rewrite (float_de_excepcion _ _ E). eauto.
Qed.

(** The reasons of a row are those of its five rules, in their order. *)
Lemma errores_de_fila_partes cmap ex vistos row es vistos' :
  errores_de_fila cmap ex vistos row = Ok (es, vistos') ->
  exists e4 e5,
    preview_precio (aplanar_fila row) = Ok e4 /\
    preview_stock (aplanar_fila row) = Ok e5 /\
    es = (fst (preview_codigo ex vistos (aplanar_fila row))
          ++ preview_nombre (aplanar_fila row)
          ++ preview_categoria cmap (aplanar_fila row) ++ e4 ++ e5)%list /\
    vistos' = snd (preview_codigo ex vistos (aplanar_fila row)).
Proof.
  unfold errores_de_fila.
  destruct (preview_codigo ex vistos (aplanar_fila row)) as [e1 v1].
  destruct (preview_precio (aplanar_fila row)) as [e4|x]; [|discriminate].
  destruct (preview_stock (aplanar_fila row)) as [e5|x]; [|discriminate].
  cbn. intros H; inversion H; subst. now exists e4, e5.
Qed.

Lemma trunca_fraccion_negativa q :
  (-1 < q)%Q -> (q < 0)%Q -> Z.quot (Qnum q) (Zpos (Qden q)) = 0%Z.
Proof.
  destruct q as [n d]. unfold Qlt. cbn. intros H1 H2.
  rewrite <- (Z.opp_involutive n), Z.quot_opp_l by lia.
  rewrite Z.quot_small by lia. reflexivity.
Qed.

(** C10: a stock text whose float value lies strictly between -1 and 0 is
    truncated to 0: the preview gives the row no stock reason, the commit
    validator does not reject it for its stock, and the row it queues for
    insertion has stock 0. *)
Theorem stock_fraccion_negativa (s : string) (q : Q) :
  float_of_str s = Some (FFinite q) ->
  (-1 < q)%Q -> (q < 0)%Q ->
  (forall cmap ex vistos row,
      aplanar_fila row !! "stock" = Some (CStr s) ->
      exists es vistos',
        errores_de_fila cmap ex vistos row = Ok (es, vistos') /\
        forall m, In m es -> campo_preview m <> Stock) /\
  (forall cmap ex vistos get,
      get "stock" = Some (CStr s) ->
      exists v vistos',
        validar_fila_commit cmap ex vistos get = Ok (v, vistos') /\
        match v with
        | Rechazada m => campo_commit m <> Stock
        | Aceptada p => stock p = 0%Z
        end).
Proof.
  intros Hs H1 H2.
  pose proof (trunca_fraccion_negativa q H1 H2) as Hq.
  split.
  - intros cmap ex vistos row Hrow.
    assert (E5 : preview_stock (aplanar_fila row) = Ok []).
    { unfold preview_stock, obtener. rewrite Hrow.
      change (default (CStr EmptyString) (Some (CStr s))) with (CStr s).
      destruct (truthy (CStr s)); [|reflexivity].
      cbn. rewrite Hs. cbn. now rewrite Hq. }
    destruct (preview_precio_total (aplanar_fila row)) as [e4 E4].
    unfold errores_de_fila.
    destruct (preview_codigo ex vistos (aplanar_fila row)) as [e1 v1] eqn:E1.
    rewrite E4, E5. cbn [ligar]. eexists _, _. split; [reflexivity|].
    intros m Hm. rewrite app_nil_r, !in_app_iff in Hm.
    destruct Hm as [Hm|[Hm|[Hm|Hm]]].
    + replace e1 with (fst (preview_codigo ex vistos (aplanar_fila row))) in Hm
        by now rewrite E1.
      now rewrite (preview_codigo_campo _ _ _ _ Hm).
    + now rewrite (preview_nombre_campo _ _ Hm).
    + now rewrite (preview_categoria_campo _ _ _ Hm).
    + now rewrite (preview_precio_campo _ _ _ E4 Hm).
  - intros cmap ex vistos get Hget.
    assert (Est : leer_stock (get "stock") = Ok 0%Z).
    { unfold leer_stock. rewrite Hget.
      destruct (truthy (CStr s)); [|reflexivity].
      cbn. rewrite Hs. cbn. now rewrite Hq. }
    unfold validar_fila_commit. rewrite Est. cbn.
    repeat (first [case_match | progress simplify_eq]);
      try (eexists _, _; split; [reflexivity|cbn; try discriminate; reflexivity]).
    exfalso.
    match goal with
    | H : leer_precio _ = Lanza ?e, H' : es_valor_o_tipo ?e = false |- _ =>
        unfold leer_precio in H; repeat case_match; try discriminate;
        apply float_de_excepcion in H; congruence
    end.
Qed.

End Reglas.

Lemma stock_fraccion_negativa_testigo :
  let cmap :=
    indexar_categorias (py := Ejemplos.python_ejemplo)
      (filter (fun c => Z.eqb (cat_estado c) 1)
         (categorias Ejemplos.db_ejemplo)) in
  let row := Ejemplos.dict_txt "z9" "Clavo" "hogar" "1" "-0.5" in
  let get :=
    row_get (map (renombrar_columna (py := Ejemplos.python_ejemplo))
               Ejemplos.cabecera)
      (Ejemplos.fila_txt "z9" "Clavo" "hogar" "1" "-0.5") in
  float_of_str (Python := Ejemplos.python_ejemplo) "-0.5"
  = Some (FFinite (-5 # 10)) /\
  (exists vistos',
      errores_de_fila (py := Ejemplos.python_ejemplo) cmap ∅ ∅ row
      = Ok ([], vistos')) /\
  (exists es vistos',
      errores_de_fila (py := Ejemplos.python_ejemplo) cmap ∅ ∅ row
      = Ok (es, vistos') /\
      forall m, In m es -> campo_preview m <> Stock) /\
  (exists p vistos',
      validar_fila_commit (py := Ejemplos.python_ejemplo) cmap ∅ ∅ get
      = Ok (Aceptada p, vistos') /\
      stock p = 0%Z).
Proof.
  intros cmap row get.
  destruct (stock_fraccion_negativa (py := Ejemplos.python_ejemplo)
              "-0.5" (-5 # 10) eq_refl eq_refl eq_refl) as [Hp Hc].
  split; [reflexivity|].
  split; [eexists; vm_compute; reflexivity|].
  split; [apply Hp; vm_compute; reflexivity|].
  destruct (Hc cmap ∅ ∅ get eq_refl) as (v & vs & Hv & Hm).
  assert (Hcomp : exists p0 v0,
             validar_fila_commit (py := Ejemplos.python_ejemplo) cmap ∅ ∅ get
             = Ok (Aceptada p0, v0))
    by (eexists _, _; vm_compute; reflexivity).
  destruct Hcomp as (p0 & v0 & Hcomp). rewrite Hcomp in Hv.
  inversion Hv; subst v vs. exists p0, v0. split; [exact Hcomp|exact Hm].
Defined.

(** ** The reference cache *)

Section Cache.
Context {py : Python}.

Lemma indexar_categorias_claves cs :
  forall k id,
    indexar_categorias cs !! k = Some id ->
    exists c, In c cs /\ py_upper (cat_nombre c) = k /\ cat_id c = id.
Proof.
  unfold indexar_categorias.
  assert (G : forall (m0 : gmap string Z) k id,
             fold_left (fun m c => <[py_upper (cat_nombre c) := cat_id c]> m) cs m0
               !! k = Some id ->
             m0 !! k = Some id \/
             exists c, In c cs /\ py_upper (cat_nombre c) = k /\ cat_id c = id).
  { induction cs as [|c cs IH]; intros m0 k id H; [now left|].
    cbn in H. apply IH in H as [H|(c' & Hc & Hk & Hid)].
    - destruct (decide (py_upper (cat_nombre c) = k)) as [E|E].
      + subst k. rewrite lookup_insert_eq in H. inversion H; subst.
        right. exists c. repeat split. now left.
      + rewrite lookup_insert_ne in H by exact E. now left.
    - right. exists c'. repeat split; try assumption. now right. }
  intros k id H. apply G in H as [H|H]; [|exact H].
  now rewrite lookup_empty in H.
Qed.

Lemma indexar_codigos_claves ps :
  forall k, k ∈ indexar_codigos ps <->
            k <> EmptyString /\ exists p, In p ps /\ codigo p = k.
Proof.
  unfold indexar_codigos.
  assert (G : forall (s0 : gset string) k,
             k ∈ fold_left
                   (fun s p => if String.eqb (codigo p) EmptyString then s
                               else {[codigo p]} ∪ s) ps s0 <->
             k ∈ s0 \/ (k <> EmptyString /\ exists p, In p ps /\ codigo p = k)).
  { induction ps as [|p ps IH]; intros s0 k.
    - cbn. split; [now left|]. intros [H|(_ & p & [] & _)]. exact H.
    - cbn [fold_left]. rewrite IH.
      destruct (String.eqb_spec (codigo p) EmptyString) as [E|E].
      + split.
        * intros [H|(Hne & q & Hq & Hk)]; [now left|].
          right. split; [exact Hne|]. exists q. split; [now right|exact Hk].
        * intros [H|(Hne & q & [->|Hq] & Hk)]; [now left|congruence|].
          right. split; [exact Hne|]. now exists q.
      + rewrite elem_of_union, elem_of_singleton. split.
        * intros [[->|H]|(Hne & q & Hq & Hk)].
          -- right. split; [exact E|]. exists p. split; [now left|reflexivity].
          -- now left.
          -- right. split; [exact Hne|]. exists q. split; [now right|exact Hk].
        * intros [H|(Hne & q & [->|Hq] & Hk)].
          -- left. now right.
          -- left. now left.
          -- right. split; [exact Hne|]. now exists q. }
  intros k. rewrite G. split; [|now right].
  intros [H|H]; [|exact H]. now apply elem_of_empty in H.
Qed.

(** What [_precache_data] loads: the category map is keyed by the
    upper-cased names of the active categories; the set of existing keys
    holds the non-empty codes of the active products, as they are stored. *)
Lemma precache_contenido env s s1 :
  _precache_data env s = (None, s1) ->
  (forall k id,
      categorias_map s1 !! k = Some id ->
      exists c, In c (categorias (db s)) /\ cat_estado c = 1%Z /\
                py_upper (cat_nombre c) = k /\ cat_id c = id) /\
  (forall k,
      k ∈ codigos_existentes s1 <->
      k <> EmptyString /\
      exists p, In p (productos (db s)) /\ estado p = 1%Z /\ codigo p = k).
Proof.
  unfold _precache_data. destruct (falla_consulta env); [discriminate|].
  intros H; inversion H; subst; clear H. cbn. split.
  - intros k id Hk. apply indexar_categorias_claves in Hk as (c & Hc & Hk & Hid).
    apply list_elem_of_In, list_elem_of_filter in Hc as [Hact Hc].
    exists c. split; [now apply list_elem_of_In|]. split; [|now split].
    apply Is_true_true in Hact. now apply Z.eqb_eq.
  - intros k. rewrite indexar_codigos_claves. split.
    + intros (Hne & p & Hp & Hk). split; [exact Hne|].
      apply list_elem_of_In, list_elem_of_filter in Hp as [Hact Hp].
      exists p. split; [now apply list_elem_of_In|]. split; [|exact Hk].
      apply Is_true_true in Hact. now apply Z.eqb_eq.
    + intros (Hne & p & Hp & Hact & Hk). split; [exact Hne|].
      exists p. split; [|exact Hk].
      apply list_elem_of_In, list_elem_of_filter. split.
      * apply Is_true_true. now apply Z.eqb_eq.
      * now apply list_elem_of_In.
Qed.

End Cache.

(** C6, at the input that breaks it: the database holds an active product
    whose code is stored as abc; the cache keeps that code as it is stored
    while the row value is upper-cased before the test, so the preview
    accepts a row carrying abc and the commit pass inserts ABC beside it. *)
Lemma clave_existente_en_minusculas :
  In "abc" (map codigo (filter activo (productos Ejemplos.db_ejemplo))) /\
  fst (validar_filas_preview (py := Ejemplos.python_ejemplo)
         (Ejemplos.env_de df_clave_minuscula)
         (nuevo_servicio Ejemplos.db_ejemplo) [dict_clave_minuscula])
  = Ok ([ {| ri_success := true; ri_data := dict_clave_minuscula;
             ri_fila := FilaGuion; ri_error := EmptyString |} ], false) /\
  (let r := procesar_archivo (py := Ejemplos.python_ejemplo)
              (Ejemplos.env_de df_clave_minuscula) [] "datos.csv"
              (nuevo_servicio Ejemplos.db_ejemplo) in
   creados (r_summary (fst r)) = 1%nat /\
   r_errors (fst r) = [] /\
   map codigo (productos (db (snd r))) = ["PROD001"; "abc"; "VIEJO"; "ABC"]).
Proof. vm_compute. repeat split; try reflexivity. right. now left. Qed.

(** ** Preview and commit on the same row *)

Section Concordancia.
Context {py : Python}.

Lemma safe_upper_no_na v :
  isna v = false -> safe_upper v = py_upper (py_strip (str_de v)).
Proof. destruct v as [| |[]| |]; cbn; congruence. Qed.

Lemma texto_de_obtener (fila : gmap string celda) get k :
  get k = fila !! k -> texto_de (get k) = str_de (obtener fila k).
Proof. unfold texto_de, obtener. now intros ->. Qed.

Lemma leer_precio_obtener (fila : gmap string celda) get :
  get "precio" = fila !! "precio" ->
  leer_precio (get "precio")
  = if truthy (obtener fila "precio") then float_de (obtener fila "precio")
    else Ok (FFinite 0).
Proof.
  unfold leer_precio, obtener. intros ->.
  now destruct (fila !! "precio").
Qed.

Lemma leer_stock_obtener (fila : gmap string celda) get :
  get "stock" = fila !! "stock" ->
  leer_stock (get "stock")
  = if truthy (obtener fila "stock")
    then ligar (float_de (obtener fila "stock")) int_de_float
    else Ok 0%Z.
Proof.
  unfold leer_stock, obtener. intros ->.
  now destruct (fila !! "stock").
Qed.

(** The rules after the key, once the key has been recorded. *)
Lemma resto_concuerda cmap ex vc (fila : gmap string celda) get e4 e5 :
  (forall k, get k = fila !! k) ->
  isna (obtener fila "codigo") = false ->
  isna (obtener fila "categoria") = false ->
  safe_upper (obtener fila "categoria") <> EmptyString ->
  (forall k id, cmap !! k = Some id -> id <> 0%Z) ->
  float_de (CStr (str_de (obtener fila "stock")))
  = float_de (obtener fila "stock") ->
  safe_upper (obtener fila "codigo") <> EmptyString ->
  safe_upper (obtener fila "codigo") ∉ ex ->
  safe_upper (obtener fila "codigo") ∉ vc ->
  preview_precio fila = Ok e4 ->
  preview_stock fila = Ok e5 ->
  exists v,
    validar_fila_commit cmap ex vc get
    = Ok (v, {[safe_upper (obtener fila "codigo")]} ∪ vc) /\
    concuerdan (preview_nombre fila ++ preview_categoria cmap fila ++ e4 ++ e5) v.
Proof.
  intros Hget Hna1 Hna3 Hcat Hids Hstock Hne Hex Hvc E4 E5.
  unfold validar_fila_commit.
  rewrite !(texto_de_obtener fila) by apply Hget.
  rewrite <- !safe_upper_no_na by assumption.
  rewrite (leer_precio_obtener fila), (leer_stock_obtener fila) by apply Hget.
  apply String.eqb_neq in Hne. rewrite Hne.
  rewrite !bool_decide_eq_false_2 by assumption.
  unfold preview_nombre.
  destruct (String.eqb (py_strip (str_de (obtener fila "nombre"))) EmptyString).
  { eexists. split; reflexivity. }
  unfold preview_categoria. apply String.eqb_neq in Hcat. rewrite Hcat.
  destruct (cmap !! safe_upper (obtener fila "categoria")) as [id|] eqn:Eid.
  2:{ rewrite bool_decide_eq_false_2
        by (rewrite elem_of_dom, Eid; now intros [? ?]).
      eexists. split; reflexivity. }
  rewrite bool_decide_eq_true_2 by (rewrite elem_of_dom, Eid; eauto).
  apply Hids, Z.eqb_neq in Eid. rewrite Eid.
  unfold preview_precio, atrapar in E4.
  destruct (truthy (obtener fila "precio")).
  - destruct (float_de (obtener fila "precio")) as [f|e].
    + inversion E4; subst e4; clear E4.
      destruct (es_negativo f); [eexists; split; reflexivity|].
      cbn [app].
      unfold preview_stock, atrapar in E5. rewrite Hstock in E5.
      destruct (truthy (obtener fila "stock")).
      * destruct (ligar (float_de (obtener fila "stock")) int_de_float)
          as [z|e].
        -- inversion E5; subst e5; clear E5.
           destruct (z <? 0)%Z; eexists; split; reflexivity.
        -- destruct (es_valor_o_tipo e); [|discriminate].
           inversion E5; subst e5. eexists; split; reflexivity.
      * inversion E5; subst e5. eexists; split; reflexivity.
    + destruct (es_valor_o_tipo e); [|discriminate].
      inversion E4; subst e4. eexists; split; reflexivity.
  - inversion E4; subst e4; clear E4. cbn [app es_negativo].
    change (negb (Qle_bool 0 0)) with false. cbn iota.
    unfold preview_stock, atrapar in E5. rewrite Hstock in E5.
    destruct (truthy (obtener fila "stock")).
    + destruct (ligar (float_de (obtener fila "stock")) int_de_float)
        as [z|e].
      * inversion E5; subst e5; clear E5.
        destruct (z <? 0)%Z; eexists; split; reflexivity.
      * destruct (es_valor_o_tipo e); [|discriminate].
        inversion E5; subst e5. eexists; split; reflexivity.
    + inversion E5; subst e5. eexists; split; reflexivity.
Qed.

(** Away from the blank category the two validators agree.  Take a row
    whose cells are the same in both passes, with key and category cells
    that are not missing, a category that is not blank, a stock cell whose
    text converts like the cell itself, non-zero cached category
    identifiers, and sets of seen keys that agree outside the existing
    keys.  Whenever the preview returns its reasons, the commit validator
    returns a verdict: it accepts when the preview has no reason, and
    otherwise rejects with an error of the category of the preview's first
    reason; the sets of seen keys still agree afterwards. *)
Theorem primera_categoria_coincide cmap ex vp vc row get es vp' :
  (forall k, get k = aplanar_fila row !! k) ->
  isna (obtener (aplanar_fila row) "codigo") = false ->
  isna (obtener (aplanar_fila row) "categoria") = false ->
  safe_upper (obtener (aplanar_fila row) "categoria") <> EmptyString ->
  (forall k id, cmap !! k = Some id -> id <> 0%Z) ->
  float_de (CStr (str_de (obtener (aplanar_fila row) "stock")))
  = float_de (obtener (aplanar_fila row) "stock") ->
  mismos_vistos ex vp vc ->
  errores_de_fila cmap ex vp row = Ok (es, vp') ->
  exists v vc',
    validar_fila_commit cmap ex vc get = Ok (v, vc') /\
    concuerdan es v /\
    mismos_vistos ex vp' vc'.
Proof.
  intros Hget Hna1 Hna3 Hcat Hids Hstock Hrel H.
  apply errores_de_fila_partes in H as (e4 & e5 & E4 & E5 & -> & ->).
  set (fila := aplanar_fila row) in *.
  set (k := safe_upper (obtener fila "codigo")).
  assert (Hk : clave_commit get = k).
  { unfold clave_commit, k. rewrite (texto_de_obtener fila) by apply Hget.
    now rewrite safe_upper_no_na. }
  unfold preview_codigo. fold k.
  destruct (String.eqb_spec k EmptyString) as [E|E].
  { exists (Rechazada CCodigoRequerido), vc. split; [|split; [reflexivity|exact Hrel]].
    unfold validar_fila_commit. fold (clave_commit get). rewrite Hk, E.
    reflexivity. }
  cbn [fst snd].
  destruct (decide (k ∈ ex)) as [Hex|Hex].
  { exists (Rechazada (CCodigoYaExiste k)), vc. split; [|split].
    - rewrite <- Hk. apply validar_fila_commit_ya_existe; now rewrite Hk.
    - rewrite (bool_decide_eq_true_2 _ Hex). reflexivity.
    - intros k' Hk'. rewrite elem_of_union, elem_of_singleton, <- (Hrel k' Hk').
      split; [intros [->|Hv]; [contradiction|exact Hv]|now right]. }
  rewrite (bool_decide_eq_false_2 _ Hex).
  destruct (decide (k ∈ vp)) as [Hvp|Hvp].
  { exists (Rechazada (CCodigoDuplicado k)), vc. split; [|split].
    - rewrite <- Hk. apply validar_fila_commit_duplicado; rewrite Hk;
        [assumption|assumption|now apply Hrel].
    - rewrite (bool_decide_eq_true_2 _ Hvp). reflexivity.
    - intros k' Hk'. rewrite elem_of_union, elem_of_singleton, <- (Hrel k' Hk').
      split; [intros [->|Hv]; assumption|now right]. }
  rewrite (bool_decide_eq_false_2 _ Hvp). cbn [app].
  assert (Hvc : k ∉ vc) by (intros Hv; now apply Hvp, Hrel).
  destruct (resto_concuerda cmap ex vc fila get e4 e5)
    as (v & Hv & Hcon); try assumption.
  exists v, ({[k]} ∪ vc). split; [exact Hv|]. split; [exact Hcon|].
  intros k' Hk'. rewrite !elem_of_union, (Hrel k' Hk'). reflexivity.
Qed.

End Concordancia.

Section ConcordanciaEjemplos.
Import Ejemplos.

(** C8: the commit validator has no required test for the category.  For
    a row whose category is blank, and for a row whose category cell is
    empty in the file, the preview reports that the category is required
    and the commit pass that the category '' does not exist: the two
    errors are of different categories. *)
Theorem categoria_en_blanco_difiere :
  let cmap :=
    indexar_categorias
      (filter (fun c => Z.eqb (cat_estado c) 1) (categorias db_ejemplo)) in
  (exists vp',
      errores_de_fila cmap ∅ ∅ dict_sin_categoria
      = Ok ([PCategoriaRequerida], vp')) /\
  (exists vc',
      validar_fila_commit cmap ∅ ∅
        (row_get (map renombrar_columna cabecera)
           (fila_txt "k1" "Camisa" "  " "10" "1"))
      = Ok (Rechazada (CCategoriaNoExiste EmptyString), vc')) /\
  categoria_preview PCategoriaRequerida = Requerido CategoriaRef /\
  categoria_commit (CCategoriaNoExiste EmptyString) = NoExiste /\
  categoria_commit (CCategoriaNoExiste EmptyString)
  <> categoria_preview PCategoriaRequerida /\
  map ri_error
    (match fst (validar_filas_preview (env_de df_sin_categoria)
                  (nuevo_servicio db_ejemplo) [dict_sin_categoria]) with
     | Ok (items, _) => items
     | Lanza _ => []
     end)
  = ["CATEGORÍA es requerida."] /\
  map ei_error
    (r_errors (fst (procesar_archivo (env_de df_sin_categoria) [] "datos.csv"
                      (nuevo_servicio db_ejemplo))))
  = ["CATEGORÍA '' no existe."] /\
  map ri_error
    (match fst (validar_filas_preview (env_de df_categoria_vacia)
                  (nuevo_servicio db_ejemplo) [dict_categoria_vacia]) with
     | Ok (items, _) => items
     | Lanza _ => []
     end)
  = ["CATEGORÍA es requerida."] /\
  map ei_error
    (r_errors (fst (procesar_archivo (env_de df_categoria_vacia) [] "datos.csv"
                      (nuevo_servicio db_ejemplo))))
  = ["CATEGORÍA '' no existe."].
Proof.
  cbv zeta. split; [eexists; vm_compute; reflexivity|].
  split; [eexists; vm_compute; reflexivity|].
  split; [reflexivity|]. split; [reflexivity|]. split; [discriminate|].
  repeat split; vm_compute; reflexivity.
Qed.

Lemma primera_categoria_coincide_testigo :
  exists v vc',
    validar_fila_commit
      (indexar_categorias (categorias db_ejemplo)) ∅ ∅
      (fun k => aplanar_fila (dict_txt "k1" "Camisa" "ropa" "-2" "1") !! k)
    = Ok (v, vc') /\
    concuerdan [PPrecioNegativo] v /\
    mismos_vistos ∅ {["K1"]} vc'.
Proof.
  apply (primera_categoria_coincide
           (indexar_categorias (categorias db_ejemplo)) ∅ ∅ ∅
           (dict_txt "k1" "Camisa" "ropa" "-2" "1")
           (fun k => aplanar_fila (dict_txt "k1" "Camisa" "ropa" "-2" "1") !! k)).
  - reflexivity.
  - reflexivity.
  - reflexivity.
  - vm_compute. discriminate.
  - intros k id. vm_compute.
    intros H. repeat (case_match; try discriminate); simplify_eq; discriminate.
  - reflexivity.
  - intros k _. reflexivity.
  - vm_compute. reflexivity.
Defined.

End ConcordanciaEjemplos.

(** * Further properties *)

(** ** More on the text primitives *)

Module PyStrMas.
Import PyStr PyStrFacts.

Lemma isspace_lower c : isspace (lower_char c) = isspace c.
Proof. por_casos c. Qed.

Lemma isspace_upper c : isspace (upper_char c) = isspace c.
Proof. por_casos c. Qed.

Lemma upper_lower_char c : upper_char (lower_char c) = upper_char c.
Proof. por_casos c. Qed.

Lemma upper_lower s : upper (lower s) = upper s.
Proof.
  induction s as [|c r IH]; [reflexivity|].
  unfold lower, upper in *. cbn. now rewrite upper_lower_char, IH.
Qed.

Lemma lstrip_map f p s :
  (forall c, p (f c) = p c) ->
  lstrip_by p (map_str f s) = map_str f (lstrip_by p s).
Proof.
  intros Hf. induction s as [|c r IH]; [reflexivity|].
  cbn. rewrite Hf. now destruct (p c).
Qed.

Lemma rstrip_map f p s :
  (forall c, p (f c) = p c) ->
  rstrip_by p (map_str f s) = map_str f (rstrip_by p s).
Proof.
  intros Hf. induction s as [|c r IH]; [reflexivity|].
  cbn [map_str rstrip_by]. rewrite IH.
  destruct (rstrip_by p r) as [|d t]; cbn; [|reflexivity].
  rewrite Hf. now destruct (p c).
Qed.

Lemma strip_map f p s :
  (forall c, p (f c) = p c) ->
  strip_by p (map_str f s) = map_str f (strip_by p s).
Proof.
  intros Hf. unfold strip_by. now rewrite lstrip_map, rstrip_map.
Qed.

Lemma strip_lower s : strip (lower s) = lower (strip s).
Proof. apply strip_map, isspace_lower. Qed.

Lemma strip_upper s : strip (upper s) = upper (strip s).
Proof. apply strip_map, isspace_upper. Qed.

Lemma strip_idem p s : strip_by p (strip_by p s) = strip_by p s.
Proof. apply strip_fix; [apply empieza_strip|apply termina_strip]. Qed.

Lemma rstrip_app_final p s c :
  p c = true -> rstrip_by p (s ++ String c EmptyString) = rstrip_by p s.
Proof.
  intros Hc. induction s as [|d r IH].
  - change (EmptyString ++ String c EmptyString) with (String c EmptyString).
    cbn. now rewrite Hc.
  - change (String d r ++ String c EmptyString)
      with (String d (r ++ String c EmptyString)).
    cbn [rstrip_by]. now rewrite IH.
Qed.

Lemma strip_app_final p s c :
  p c = true -> strip_by p (s ++ String c EmptyString) = strip_by p s.
Proof.
  intros Hc. induction s as [|d r IH].
  - change (EmptyString ++ String c EmptyString) with (String c EmptyString).
    cbn. now rewrite Hc.
  - unfold strip_by in *.
    change (String d r ++ String c EmptyString)
      with (String d (r ++ String c EmptyString)).
    cbn [lstrip_by]. destruct (p d); [exact IH|].
    change (String d (r ++ String c EmptyString))
      with (String d r ++ String c EmptyString).
    now apply rstrip_app_final.
Qed.

Lemma todos_quitar p q s : todos q s = true -> todos q (quitar p s) = true.
Proof.
  induction s as [|c r IH]; [easy|].
  cbn. intros H. apply andb_true_iff in H as [Hc Hr].
  destruct (p c); cbn; [auto|]. now rewrite Hc, IH.
Qed.

Lemma todos_sub_runs_por rep p q b s :
  q rep = true -> todos q s = true -> todos q (sub_runs_por rep p b s) = true.
Proof.
  intros Hrep. revert b. induction s as [|c r IH]; [easy|].
  intros b H. cbn in H. apply andb_true_iff in H as [Hc Hr].
  cbn [sub_runs_por]. destruct (p c).
  - destruct b; cbn; [now apply IH|]. rewrite Hrep. now apply IH.
  - cbn. rewrite Hc. now apply IH.
Qed.

Lemma quitar_fix p s :
  todos (fun c => negb (p c)) s = true -> quitar p s = s.
Proof.
  induction s as [|c r IH]; [easy|].
  cbn. intros H. apply andb_true_iff in H as [Hc Hr].
  apply negb_true_iff in Hc. rewrite Hc. now rewrite IH.
Qed.

Lemma sub_runs_por_forma rep p s :
  p rep = true ->
  suelto p rep (sub_runs_por rep p false s) = true /\
  suelto p rep (sub_runs_por rep p true s) = true /\
  empieza p (sub_runs_por rep p true s) = false.
Proof.
  intros Hrep. induction s as [|c r (IHf & IHt & IHe)]; [easy|].
  cbn [sub_runs_por]. destruct (p c) eqn:Ec.
  - repeat split; try assumption.
    cbn [suelto]. rewrite IHe, IHt, Ascii.eqb_refl.
    now rewrite orb_true_r.
  - repeat split.
    + cbn [suelto]. now rewrite Ec, IHf.
    + cbn [suelto]. now rewrite Ec, IHf.
    + cbn [empieza]. exact Ec.
Qed.

Lemma sub_runs_por_fix rep p s :
  suelto p rep s = true ->
  sub_runs_por rep p false s = s /\
  (empieza p s = false -> sub_runs_por rep p true s = s).
Proof.
  induction s as [|c r IH]; [easy|].
  intros H. cbn [suelto] in H. apply andb_true_iff in H as [Hc Hr].
  destruct (IH Hr) as [IHf IHt]. cbn [sub_runs_por].
  destruct (p c) eqn:Ec.
  - cbn [negb orb] in Hc. apply andb_true_iff in Hc as [Hrep He].
    apply negb_true_iff in He. apply Ascii.eqb_eq in Hrep. subst c. split.
    + now rewrite (IHt He).
    + cbn [empieza]. rewrite Ec. discriminate.
  - rewrite IHf. split; reflexivity.
Qed.

Lemma suelto_lstrip q p rep s :
  suelto p rep s = true -> suelto p rep (lstrip_by q s) = true.
Proof.
  induction s as [|c r IH]; [easy|].
  intros H. cbn [lstrip_by]. destruct (q c); [|exact H].
  cbn [suelto] in H. apply andb_true_iff in H as [_ Hr]. auto.
Qed.

Lemma suelto_rstrip q p rep s :
  suelto p rep s = true -> suelto p rep (rstrip_by q s) = true.
Proof.
  induction s as [|c r IH]; [easy|].
  intros H. cbn [suelto] in H. apply andb_true_iff in H as [Hc Hr].
  specialize (IH Hr). cbn [rstrip_by].
  destruct (rstrip_by q r) as [|d t] eqn:E.
  - destruct (q c); [reflexivity|]. cbn [suelto empieza].
    destruct (p c); cbn in *; [|reflexivity].
    apply andb_true_iff in Hc as [Hc _]. now rewrite Hc.
  - change (suelto p rep (String c (String d t)))
      with ((negb (p c) || (Ascii.eqb c rep && negb (empieza p (String d t))))
            && suelto p rep (String d t)).
    rewrite IH, andb_true_r.
    destruct (p c); [|reflexivity]. cbn [negb orb] in Hc |- *.
    apply andb_true_iff in Hc as [Hc He]. rewrite Hc. cbn [andb].
    destruct (empieza p (String d t)) eqn:Ed; [|reflexivity].
    rewrite <- E in Ed. apply empieza_rstrip in Ed.
    now rewrite Ed in He.
Qed.

Lemma suelto_sin_otros p rep q s :
  (forall c, q c = true -> p c = true /\ c <> rep) ->
  suelto p rep s = true -> todos (fun c => negb (q c)) s = true.
Proof.
  intros Hq. induction s as [|c r IH]; [easy|].
  intros H. cbn [suelto] in H. apply andb_true_iff in H as [Hc Hr].
  cbn. rewrite (IH Hr), andb_true_r.
  destruct (q c) eqn:Eq; [|reflexivity].
  destruct (Hq c Eq) as [Hp Hne]. rewrite Hp in Hc. cbn in Hc.
  apply andb_true_iff in Hc as [Hc _]. apply Ascii.eqb_eq in Hc.
  contradiction.
Qed.

End PyStrMas.

(** ** Text normalisers of the base service *)

Section Normalizadores.
Context {py : Python}.
Import PyStr PyStrFacts PyStrMas.

Lemma todos_cierto s : todos (fun _ => true) s = true.
Proof. induction s as [|c r IH]; [reflexivity|exact IH]. Qed.

Lemma es_salto_blanco c :
  es_salto c = true -> isspace c = true /\ c <> " "%char.
Proof.
  destruct c as [[] [] [] [] [] [] [] []]; vm_compute; intros H;
    try discriminate H; (split; [reflexivity|discriminate]).
Qed.

Lemma todos_app q s t :
  todos q s = true -> todos q t = true -> todos q (s ++ t) = true.
Proof.
  intros Hs Ht. induction s as [|c r IH]; [exact Ht|].
  cbn in Hs. apply andb_true_iff in Hs as [Hc Hr].
  change (String c r ++ t) with (String c (r ++ t)). cbn.
  now rewrite Hc, IH.
Qed.

(** What [normalizar_texto] computes on a non-empty ASCII text. *)
Local Abbreviation nucleo s :=
  (strip (sub_runs_por " " isspace false (quitar es_salto (lower (strip s))))).

Lemma nucleo_ascii s : todos es_ascii s = true -> todos es_ascii (nucleo s) = true.
Proof.
  intros H. apply ascii_strip, todos_sub_runs_por; [reflexivity|].
  now apply todos_quitar, ascii_lower, ascii_strip.
Qed.

Lemma normalizar_texto_ascii v :
  todos es_ascii (str_de v) = true ->
  normalizar_texto v = if truthy v then nucleo (str_de v) else EmptyString.
Proof.
  intros H. unfold normalizar_texto. destruct (truthy v); [|reflexivity].
  rewrite (lower_strip_ascii _ H).
  assert (H1 : todos es_ascii (lower (strip (str_de v))) = true)
    by now apply ascii_lower, ascii_strip.
  rewrite (py_sin_tildes_ascii _ H1).
  assert (H2 : todos es_ascii (quitar es_salto (lower (strip (str_de v)))) = true)
    by now apply todos_quitar.
  rewrite (py_sub_blancos_ascii _ H2).
  apply py_strip_ascii, todos_sub_runs_por; [reflexivity|exact H2].
Qed.

(** The shape of an ASCII text normalised by [normalizar_texto]. *)
Lemma nucleo_forma s :
  empieza isspace (nucleo s) = false /\
  termina isspace (nucleo s) = false /\
  suelto isspace " " (nucleo s) = true /\
  todos (fun c => Ascii.eqb (lower_char c) c) (nucleo s) = true.
Proof.
  unfold strip.
  split; [apply empieza_strip|]. split; [apply termina_strip|]. split.
  - unfold strip_by. apply suelto_rstrip, suelto_lstrip.
    now apply sub_runs_por_forma.
  - apply todos_strip, todos_sub_runs_por; [reflexivity|].
    apply todos_quitar.
    apply (todos_map _ (fun _ => true)); [|apply todos_cierto].
    intros c _. rewrite lower_char_idem. apply Ascii.eqb_refl.
Qed.

Lemma nucleo_idem s : nucleo (nucleo s) = nucleo s.
Proof.
  destruct (nucleo_forma s) as (He & Ht & Hs & Hl).
  set (y := nucleo s) in *. unfold strip, lower.
  rewrite (strip_fix isspace y He Ht).
  rewrite (map_str_fix lower_char y Hl).
  rewrite (quitar_fix es_salto y)
    by (eapply suelto_sin_otros; [apply es_salto_blanco|exact Hs]).
  rewrite (proj1 (sub_runs_por_fix " " isspace y Hs)).
  now apply strip_fix.
Qed.

(** On a value whose text is ASCII, [normalizar_texto] is idempotent: lower
    case, single inner spaces and no outer whitespace are kept by a second
    pass. *)
Theorem normalizar_texto_idempotente v :
  todos es_ascii (str_de v) = true ->
  normalizar_texto (CStr (normalizar_texto v)) = normalizar_texto v.
Proof.
  intros H. rewrite (normalizar_texto_ascii v H).
  destruct (truthy v).
  - rewrite normalizar_texto_ascii by (cbn [str_de]; now apply nucleo_ascii).
    cbn [truthy str_de].
    destruct (String.eqb_spec (nucleo (str_de v)) EmptyString) as [E|E];
      [now rewrite E|].
    cbn [negb]. apply nucleo_idem.
  - reflexivity.
Qed.

Lemma safe_upper_ascii v :
  todos es_ascii (str_de v) = true ->
  safe_upper v = (if isna v then EmptyString else upper (strip (str_de v))) /\
  todos es_ascii (safe_upper v) = true.
Proof.
  intros H.
  assert (E : safe_upper v
              = if isna v then EmptyString else upper (strip (str_de v))).
  { destruct v as [| |[]| |]; cbn [safe_upper isna]; try reflexivity;
      now apply upper_strip_ascii. }
  split; [exact E|]. rewrite E.
  destruct (isna v); [reflexivity|]. now apply ascii_upper, ascii_strip.
Qed.

(** [safe_upper] gives the empty text for a missing value.  On ASCII text
    it reads a key the same way whatever its letter case and its outer
    blanks, and it returns a text that it maps to itself and that [strip]
    and [upper] leave as it is. *)
Theorem safe_upper_clave :
  (forall v, isna v = true -> safe_upper v = EmptyString) /\
  (forall s,
      todos es_ascii s = true ->
      safe_upper (CStr (py_lower s)) = safe_upper (CStr s) /\
      safe_upper (CStr (" " ++ s ++ " ")) = safe_upper (CStr s)) /\
  (forall v,
      todos es_ascii (str_de v) = true ->
      safe_upper (CStr (safe_upper v)) = safe_upper v /\
      py_strip (safe_upper v) = safe_upper v /\
      py_upper (safe_upper v) = safe_upper v).
Proof.
  assert (Hfijo : forall t, strip (upper (strip t)) = upper (strip t) /\
                            upper (upper (strip t)) = upper (strip t)).
  { intros t. split; [|apply upper_idem].
    rewrite strip_upper. f_equal. apply strip_idem. }
  split; [|split].
  - intros v Hv. destruct v as [| |[]| |]; cbn in *; congruence.
  - intros s Hs. rewrite (py_lower_ascii s Hs).
    assert (Hb : todos es_ascii (" " ++ s ++ " ") = true)
      by (apply (todos_app _ " "); [reflexivity|now apply todos_app]).
    rewrite (proj1 (safe_upper_ascii (CStr (lower s)) (ascii_lower s Hs))).
    rewrite (proj1 (safe_upper_ascii (CStr s) Hs)).
    rewrite (proj1 (safe_upper_ascii (CStr (" " ++ s ++ " ")) Hb)).
    cbn [isna str_de]. split.
    + now rewrite strip_lower, upper_lower.
    + f_equal.
      change (" " ++ s ++ " ") with (String " " (s ++ " ")).
      unfold strip, strip_by. cbn [lstrip_by].
      change (isspace " ") with true. cbn iota.
      apply (strip_app_final isspace s " "). reflexivity.
  - intros v Hv. destruct (safe_upper_ascii v Hv) as [E Ha].
    rewrite (proj1 (safe_upper_ascii (CStr (safe_upper v)) Ha)).
    rewrite (py_strip_ascii _ Ha), (py_upper_ascii _ Ha).
    cbn [isna str_de]. rewrite E.
    destruct (isna v); [now repeat split|].
    destruct (Hfijo (str_de v)) as [H1 H2]. rewrite H1. now repeat split.
Qed.

End Normalizadores.

(** ** Labels, file names and cleaned rows *)

Section Etiquetas.
Context {py : Python}.
Import PyStr PyStrFacts PyStrMas.

Lemma empieza_map f p s :
  (forall c, p (f c) = p c) -> empieza p (map_str f s) = empieza p s.
Proof. intros Hf. destruct s; cbn; [reflexivity|apply Hf]. Qed.

Lemma termina_map f p s :
  (forall c, p (f c) = p c) -> termina p (map_str f s) = termina p s.
Proof.
  intros Hf. induction s as [|c r IH]; [reflexivity|].
  destruct r as [|d t]; [cbn; apply Hf|]. exact IH.
Qed.

Lemma sub_runs_aux_vacio p s :
  sub_runs_aux p false s = EmptyString -> s = EmptyString.
Proof. destruct s as [|c r]; [easy|]. cbn. now destruct (p c). Qed.

Lemma empieza_sub_runs p q s :
  q "_"%char = false -> empieza q s = false ->
  empieza q (sub_runs_aux p false s) = false.
Proof.
  intros Hu. destruct s as [|c r]; [easy|].
  cbn. intros Hc. now destruct (p c).
Qed.

Lemma termina_sub_runs p q s :
  q "_"%char = false ->
  forall b, termina q (sub_runs_aux p b s) = true -> termina q s = true.
Proof.
  intros Hu. induction s as [|c r IH]; intros b H; [easy|].
  cbn [sub_runs_aux] in H. destruct (p c) eqn:Ep.
  - assert (Hr : termina q (sub_runs_aux p true r) = true).
    { destruct b; [exact H|].
      destruct (sub_runs_aux p true r) as [|d t] eqn:E; [|exact H].
      cbn in H. congruence. }
    specialize (IH _ Hr). destruct r; [discriminate IH|exact IH].
  - destruct (sub_runs_aux p false r) as [|d t] eqn:E.
    + apply sub_runs_aux_vacio in E. subst r. exact H.
    + assert (Hr : termina q (sub_runs_aux p false r) = true)
        by (rewrite E; exact H).
      specialize (IH _ Hr). destruct r; [discriminate IH|exact IH].
Qed.

(** For an ASCII header, the label the router hands to the preview
    normalises to the same name as the raw header: the renaming of
    [render_preview] is absorbed by [aplanar_nombre_columna]. *)
Theorem aplanar_tras_router (col : string) :
  todos es_ascii col = true ->
  aplanar_nombre_columna (normalizar_columna_router col)
  = aplanar_nombre_columna col.
Proof.
  intros Ha. unfold normalizar_columna_router.
  rewrite (lower_strip_ascii col Ha), (aplanar_ascii col Ha).
  unfold sub_runs.
  set (r := sub_runs_aux clase_separador false (lower (strip col))).
  assert (Hr : todos es_ascii r = true).
  { apply (todos_sub_runs _ es_ascii); [reflexivity|auto|].
    now apply ascii_lower, ascii_strip. }
  assert (He : empieza isspace r = false).
  { apply empieza_sub_runs; [reflexivity|].
    unfold lower. rewrite empieza_map by apply isspace_lower.
    apply empieza_strip. }
  assert (Ht : termina isspace r = false).
  { destruct (termina isspace r) eqn:E; [|reflexivity].
    apply termina_sub_runs in E; [|reflexivity].
    unfold lower in E. rewrite termina_map in E by apply isspace_lower.
    unfold strip in E. now rewrite termina_strip in E. }
  assert (Hl : todos (fun c => Ascii.eqb (lower_char c) c) r = true).
  { apply (todos_sub_runs _ (fun c => Ascii.eqb (lower_char c) c));
      [reflexivity|auto|].
    apply (todos_map _ (fun _ => true)); [|apply todos_cierto].
    intros c _. rewrite lower_char_idem. apply Ascii.eqb_refl. }
  assert (Hc : todos (fun c => negb (clase_separador c)) r = true).
  { apply (todos_sub_runs _ (fun _ => true)); [reflexivity| |apply todos_cierto].
    intros c Hp _. now rewrite Hp. }
  rewrite (aplanar_ascii r Hr). unfold subrayar, sub_runs, strip, lower.
  rewrite (strip_fix isspace r He Ht), (map_str_fix lower_char r Hl).
  rewrite (sub_runs_clase_fix clase_separador false r Hc).
  reflexivity.
Qed.

Lemma strip_strip s : strip (strip s) = strip s.
Proof. apply strip_idem. Qed.

Lemma renombrar_dos_veces c :
  is_Some (_get_column_map !! py_upper (py_strip c)) \/ todos es_ascii c = true ->
  renombrar_columna (renombrar_columna c) = renombrar_columna c.
Proof.
  intros [[interno E]|Ha].
  - unfold renombrar_columna at 2 3. rewrite E.
    eapply renombrar_valor_fijo, E.
  - rewrite (renombrar_ascii c Ha).
    destruct (_get_column_map !! upper (strip c)) as [interno|] eqn:E.
    + eapply renombrar_valor_fijo, E.
    + rewrite renombrar_ascii by now apply ascii_lower, ascii_strip.
      rewrite strip_lower, strip_strip, upper_lower, E.
      apply lower_idem.
Qed.

(** Renaming the labels of a frame twice is renaming them once, when
    each label is found in the override table or is ASCII; renaming touches
    neither the data, nor the index, nor the number of columns. *)
Theorem normalizar_columnas_idempotente (df : DataFrame) :
  Forall (fun c => is_Some (_get_column_map !! py_upper (py_strip c)) \/
                   todos es_ascii c = true) (columnas df) ->
  _normalizar_columnas (_normalizar_columnas df) = _normalizar_columnas df /\
  filas (_normalizar_columnas df) = filas df /\
  indice (_normalizar_columnas df) = indice df /\
  length (columnas (_normalizar_columnas df)) = length (columnas df).
Proof.
  intros H. unfold _normalizar_columnas. cbn.
  split; [|split; [reflexivity|split; [reflexivity|apply length_map]]].
  f_equal. rewrite map_map.
  induction H as [|c l Hc _ IH]; [reflexivity|].
  cbn. now rewrite (renombrar_dos_veces c Hc), IH.
Qed.

(** [leer_archivo] reads the extension of an ASCII file name without
    regard to letter case; a name refused by the format test of the upload
    makes it raise the format error whatever the content, and a name that
    passes the test reaches one of the two pandas readers. *)
Theorem leer_archivo_formato env content (filename : string) :
  (todos es_ascii filename = true ->
   leer_archivo env content (py_upper filename)
   = leer_archivo env content filename) /\
  (formato_valido (Some filename) = false ->
   leer_archivo env content filename = Lanza error_formato) /\
  (formato_valido (Some filename) = true ->
   leer_archivo env content filename = read_csv env content \/
   leer_archivo env content filename = read_excel env content).
Proof.
  assert (Hv : formato_valido (Some filename)
               = (endswith (py_lower filename) ".csv"
                  || endswith (py_lower filename) ".xls"
                  || endswith (py_lower filename) ".xlsx")).
  { unfold formato_valido.
    destruct (String.eqb_spec filename EmptyString) as [->|_]; [|reflexivity].
    now rewrite (py_lower_ascii EmptyString eq_refl). }
  rewrite Hv. unfold leer_archivo. split.
  { intros Ha. rewrite (py_upper_ascii _ Ha).
    rewrite (py_lower_ascii _ (ascii_upper _ Ha)), lower_upper.
    now rewrite (py_lower_ascii _ Ha). }
  destruct (endswith (py_lower filename) ".csv");
    destruct (endswith (py_lower filename) ".xls");
    destruct (endswith (py_lower filename) ".xlsx"); cbn;
    (split; intros H; try discriminate H;
       first [reflexivity | left; reflexivity | right; reflexivity]).
Qed.

(** [limpiar_nan] on a row keeps the keys and their order, leaves no NaN
    behind, changes nothing in a row without missing values and need not
    be applied twice. *)
Theorem limpiar_nan_fila (row : list (string * celda)) :
  map fst (limpiar_nan row) = map fst row /\
  Forall (fun kv => snd kv <> CFloat FNaN) (limpiar_nan row) /\
  limpiar_nan (limpiar_nan row) = limpiar_nan row /\
  (Forall (fun kv => isna (snd kv) = false) row -> limpiar_nan row = row).
Proof.
  unfold limpiar_nan. repeat split.
  - rewrite map_map. now apply map_ext.
  - apply Forall_forall. intros kv Hkv. apply list_elem_of_In in Hkv.
    apply in_map_iff in Hkv as ([k v] & <- & _). cbn.
    destruct v as [| |[]| |]; discriminate.
  - rewrite map_map. apply map_ext. intros [k v]. cbn.
    destruct v as [| |[]| |]; reflexivity.
  - intros H. induction H as [|[k v] l Hv _ IH]; [reflexivity|].
    cbn in *. now rewrite Hv, IH.
Qed.

End Etiquetas.

(** ** The reference cache, continued *)

Section CacheMas.
Context {py : Python}.

Lemma indexar_categorias_completo cs c :
  In c cs -> is_Some (indexar_categorias cs !! py_upper (cat_nombre c)).
Proof.
  unfold indexar_categorias.
  assert (G : forall (m0 : gmap string Z) k,
             is_Some (m0 !! k) \/ (exists c, In c cs /\ py_upper (cat_nombre c) = k) ->
             is_Some (fold_left
                        (fun m c => <[py_upper (cat_nombre c) := cat_id c]> m)
                        cs m0 !! k)).
  { induction cs as [|d cs IH]; intros m0 k H.
    - destruct H as [H|(x & [] & _)]. exact H.
    - cbn [fold_left]. apply IH.
      destruct H as [H|(x & [<-|Hx] & Hk)].
      + left. destruct (decide (py_upper (cat_nombre d) = k)) as [->|E].
        * rewrite lookup_insert_eq. eauto.
        * now rewrite lookup_insert_ne.
      + left. subst k. rewrite lookup_insert_eq. eauto.
      + right. eauto. }
  intros Hc. apply G. right. eauto.
Qed.

Lemma precache_nombres env s s1 :
  _precache_data env s = (None, s1) ->
  forall k, is_Some (categorias_map s1 !! k) <->
            exists c, In c (categorias (db s)) /\ cat_estado c = 1%Z /\
                      py_upper (cat_nombre c) = k.
Proof.
  intros H. pose proof (precache_contenido _ _ _ H) as [Hcat _].
  intros k. split.
  - intros [id Hid]. apply Hcat in Hid as (c & Hc & He & Hk & _). eauto.
  - intros (c & Hc & He & <-).
    unfold _precache_data in H. destruct (falla_consulta env); [discriminate|].
    inversion H; subst; clear H. cbn.
    apply indexar_categorias_completo.
    apply list_elem_of_In, list_elem_of_filter. split.
    + apply Is_true_true. now apply Z.eqb_eq.
    + now apply list_elem_of_In.
Qed.

Lemma precache_resto env s s1 :
  _precache_data env s = (None, s1) ->
  db s1 = db s /\ errores s1 = errores s /\ summary s1 = summary s.
Proof.
  unfold _precache_data. destruct (falla_consulta env); [discriminate|].
  intros H. now inversion H; subst.
Qed.

(** [_precache_data] indexes the active categories by their upper-cased
    name, completely, and collects the non-empty codes of the active
    products as they are stored; it touches nothing else of the service. *)
Theorem precache_indice env s s1 :
  _precache_data env s = (None, s1) ->
  (forall k, is_Some (categorias_map s1 !! k) <->
             exists c, In c (categorias (db s)) /\ cat_estado c = 1%Z /\
                       py_upper (cat_nombre c) = k) /\
  (forall k id, categorias_map s1 !! k = Some id ->
                exists c, In c (categorias (db s)) /\ cat_estado c = 1%Z /\
                          py_upper (cat_nombre c) = k /\ cat_id c = id) /\
  (forall k, k ∈ codigos_existentes s1 <->
             k <> EmptyString /\
             exists p, In p (productos (db s)) /\ estado p = 1%Z /\ codigo p = k) /\
  db s1 = db s /\ errores s1 = errores s /\ summary s1 = summary s.
Proof.
  intros H. pose proof (precache_contenido _ _ _ H) as [Hcat Hcod].
  split; [exact (precache_nombres _ _ _ H)|].
  split; [exact Hcat|]. split; [exact Hcod|].
  exact (precache_resto _ _ _ H).
Qed.

(** The category rule of the preview, against the database: a row passes
    it exactly when its category, trimmed and upper-cased, is not empty and
    is the upper-cased name of an active category. *)
Theorem categoria_regla env s s1 (fila : gmap string celda) :
  _precache_data env s = (None, s1) ->
  (preview_categoria (categorias_map s1) fila = [] <->
   safe_upper (obtener fila "categoria") <> EmptyString /\
   exists c, In c (categorias (db s)) /\ cat_estado c = 1%Z /\
             py_upper (cat_nombre c) = safe_upper (obtener fila "categoria")).
Proof.
  intros H. pose proof (precache_nombres _ _ _ H) as Hk.
  unfold preview_categoria.
  destruct (String.eqb_spec (safe_upper (obtener fila "categoria")) EmptyString)
    as [E|E].
  { split; [discriminate|]. now intros [Hne _]. }
  case_bool_decide as Hd.
  - split; [|reflexivity]. intros _. split; [exact E|].
    apply Hk. now apply elem_of_dom.
  - split; [discriminate|]. intros [_ Hc]. exfalso. apply Hd.
    apply elem_of_dom. now apply Hk.
Qed.

End CacheMas.

(** ** The preview, continued *)

Section PreviewMas.
Context {py : Python}.

Lemma mensaje_preview_no_vacio m : mensaje_preview m <> EmptyString.
Proof. destruct m; vm_compute; discriminate. Qed.

Lemma join_no_vacio sep x l :
  x <> EmptyString -> PyStr.join sep (x :: l) <> EmptyString.
Proof.
  intros Hx. destruct x as [|c r]; [contradiction|].
  destruct l; cbn [PyStr.join]; [discriminate|].
  change (String c r ++ sep ++ PyStr.join sep (s :: l))
    with (String c (r ++ sep ++ PyStr.join sep (s :: l))).
  discriminate.
Qed.

Lemma item_preview_forma idx row es :
  let it := item_preview idx row es in
  ri_data it = limpiar_nan row /\
  ri_success it = match es with [] => true | _ => false end /\
  (if ri_success it
   then ri_fila it = FilaGuion /\ ri_error it = EmptyString
   else ri_fila it = FilaNumero idx /\ ri_error it <> EmptyString).
Proof.
  destruct es as [|m es]; cbn; repeat split.
  apply join_no_vacio, mensaje_preview_no_vacio.
Qed.

Lemma bucle_preview_bandera cmap ex rows :
  forall idx vistos res te out te',
    bucle_preview cmap ex idx rows vistos res te = Ok (out, te') ->
    exists items,
      out = (res ++ items)%list /\
      te' = te || existsb (fun it => negb (ri_success it)) items.
Proof.
  induction rows as [|row0 resto IH]; intros idx vistos res te out te' H.
  - cbn in H. inversion H; subst. exists [].
    now rewrite app_nil_r, orb_false_r.
  - cbn [bucle_preview] in H.
    destruct (errores_de_fila cmap ex vistos row0) as [[es0 v0]|e]; [|discriminate].
    apply IH in H as (items & -> & ->).
    exists (item_preview idx row0 es0 :: items).
    rewrite <- app_assoc. split; [reflexivity|]. cbn [existsb].
    rewrite <- orb_assoc. do 2 f_equal. now destruct es0.
Qed.

(** The result of a preview that returns: one item for each row, in the
    order of the file; the flag tells whether some item failed; an accepted
    item carries the dash and no message, a failed one its row number,
    counted from 2, and a message; the service is left as the cache load
    left it. *)
Theorem preview_resultados env s filas out te s1 :
  validar_filas_preview env s filas = (Ok (out, te), s1) ->
  length out = length filas /\
  te = existsb (fun it => negb (ri_success it)) out /\
  db s1 = db s /\ errores s1 = errores s /\ summary s1 = summary s /\
  (forall j row,
      filas !! j = Some row ->
      exists it,
        out !! j = Some it /\
        ri_data it = limpiar_nan row /\
        (if ri_success it
         then ri_fila it = FilaGuion /\ ri_error it = EmptyString
         else ri_fila it = FilaNumero (j + 2) /\ ri_error it <> EmptyString)).
Proof.
  unfold validar_filas_preview.
  destruct (_precache_data env s) as [[e|] s0] eqn:Hp; [discriminate|].
  intros H. inversion H as [[Hb Hs]]. subst s0. clear H.
  destruct (precache_resto _ _ _ Hp) as (Hdb & Herr & Hsum).
  pose proof (bucle_preview_bandera _ _ _ _ _ _ _ _ _ Hb) as (items & Hout & Hte).
  pose proof (bucle_preview_item _ _ _ _ _ _ _ _ _ Hb) as [(items' & Hout' & Hlen) Hpos].
  cbn in Hout, Hout', Hte. subst out items'.
  repeat split; try assumption.
  intros j row Hj. destruct (Hpos j row Hj) as (es & _ & _ & _ & Hit & _).
  cbn in Hit. exists (item_preview (2 + j) row es). split; [exact Hit|].
  destruct (item_preview_forma (2 + j) row es) as (Hd & _ & Hf).
  split; [exact Hd|]. now rewrite (Nat.add_comm j 2).
Qed.

(** The only exception the rules of a row let through is the overflow of
    [int] on an infinite stock, and it is raised whatever the other cells
    hold. *)
Lemma errores_de_fila_lanza cmap ex vistos row e :
  errores_de_fila cmap ex vistos row = Lanza e <->
  stock_infinito row /\ e = desbordamiento.
Proof.
  unfold errores_de_fila, stock_infinito.
  destruct (preview_codigo ex vistos (aplanar_fila row)) as [e1 v1].
  destruct (preview_precio_total (aplanar_fila row)) as [e4 ->]. cbn [ligar].
  unfold preview_stock, atrapar.
  destruct (truthy (obtener (aplanar_fila row) "stock")).
  2:{ cbn. split; [discriminate|]. now intros [[? _] _]. }
  destruct (float_de (CStr (str_de (obtener (aplanar_fila row) "stock"))))
    as [f|x] eqn:Ef.
  - destruct f as [q|b|]; cbn.
    + split; [discriminate|]. intros [[_ [b Hb]] _]. discriminate Hb.
    + split.
      * intros H; inversion H; subst. split; [split; eauto|reflexivity].
      * intros [_ ->]. reflexivity.
    + split; [discriminate|]. intros [[_ [b Hb]] _]. discriminate Hb.
  - cbn. rewrite (float_de_excepcion _ _ Ef). cbn.
    split; [discriminate|]. intros [[_ [b Hb]] _]. discriminate Hb.
Qed.

Lemma bucle_preview_lanza cmap ex rows :
  forall idx vistos res te,
    (exists row, In row rows /\ stock_infinito row) <->
    bucle_preview cmap ex idx rows vistos res te = Lanza desbordamiento.
Proof.
  induction rows as [|row0 resto IH]; intros idx vistos res te.
  - cbn. split; [intros (row & [] & _)|discriminate].
  - cbn [bucle_preview].
    destruct (errores_de_fila cmap ex vistos row0) as [[es0 v0]|e] eqn:E.
    + rewrite <- IH. split.
      * intros (row & [<-|Hin] & Hrow); [|eauto].
        exfalso. pose proof (proj2 (errores_de_fila_lanza cmap ex vistos row0 _)
                               (conj Hrow eq_refl)) as HL.
        congruence.
      * intros (row & Hin & Hrow). exists row. split; [now right|exact Hrow].
    + apply errores_de_fila_lanza in E as [Hrow ->]. split; [reflexivity|].
      intros _. exists row0. split; [now left|exact Hrow].
Qed.

Lemma bucle_preview_ok_o_desborda cmap ex rows :
  forall idx vistos res te,
    (exists r, bucle_preview cmap ex idx rows vistos res te = Ok r) \/
    bucle_preview cmap ex idx rows vistos res te = Lanza desbordamiento.
Proof.
  induction rows as [|row0 resto IH]; intros idx vistos res te.
  - left. cbn. eauto.
  - cbn [bucle_preview].
    destruct (errores_de_fila cmap ex vistos row0) as [[es0 v0]|e] eqn:E.
    + apply IH.
    + apply errores_de_fila_lanza in E as [_ ->]. now right.
Qed.

(** With the cache loaded, a preview fails exactly when some row of the
    file has an infinite stock, and then it raises the overflow error: no
    item is returned, not even for the rows before it. *)
Theorem preview_desbordamiento env s filas :
  falla_consulta env = None ->
  ((exists row, In row filas /\ stock_infinito row) <->
   fst (validar_filas_preview env s filas) = Lanza desbordamiento) /\
  ((forall row, In row filas -> ~ stock_infinito row) <->
   exists r, fst (validar_filas_preview env s filas) = Ok r).
Proof.
  intros Hq. unfold validar_filas_preview, _precache_data. rewrite Hq.
  cbn [fst categorias_map codigos_existentes].
  match goal with
  | |- context [bucle_preview ?c ?x 2 filas ∅ [] false] =>
      set (cmap := c); set (ex := x)
  end.
  split; [apply bucle_preview_lanza|].
  destruct (bucle_preview_ok_o_desborda cmap ex filas 2 ∅ [] false) as [Hok|Hl].
  - split; [intros _; exact Hok|].
    intros _ row Hin Hrow.
    assert (HL := proj1 (bucle_preview_lanza cmap ex filas 2 ∅ [] false)
                    (ex_intro _ row (conj Hin Hrow))).
    destruct Hok as [r Hr]. congruence.
  - split.
    + intros Hno. apply bucle_preview_lanza in Hl as (row & Hin & Hrow).
      now destruct (Hno row Hin).
    + intros [r Hr]. congruence.
Qed.

End PreviewMas.

(** ** Two rows with the same key *)

Section DuplicadosArchivo.
Context {py : Python}.


End DuplicadosArchivo.

Section DuplicadosEjemplos.
Import Ejemplos.



End DuplicadosEjemplos.

(** ** The rules of one row, continued *)

Section ReglasMas.
Context {py : Python}.

Lemma row_get_map (f : celda -> celda) cols row k :
  row_get cols (map f row) k = option_map f (row_get cols row k).
Proof.
  revert row. induction cols as [|c cs IH]; intros [|v vs]; cbn; try reflexivity.
  destruct (String.eqb c k); [reflexivity|apply IH].
Qed.

(** Missing values.  In the preview a cell that pandas left as NaN makes
    the key and the category required, passes the name rule as the text
    nan, passes the price rule and fails the stock rule; the commit pass
    reads the same cell, after [fillna], as an empty text: an empty name,
    a price of 0 and a stock of 0. *)
Theorem celdas_ausentes :
  str_of_float FNaN = "nan" ->
  float_of_str "nan" = Some FNaN ->
  (forall (fila : gmap string celda),
      (fila !! "codigo" = Some (CFloat FNaN) ->
       forall ex vistos, preview_codigo ex vistos fila = ([PCodigoRequerido], vistos)) /\
      (fila !! "nombre" = Some (CFloat FNaN) -> preview_nombre fila = []) /\
      (fila !! "categoria" = Some (CFloat FNaN) ->
       forall cmap, preview_categoria cmap fila = [PCategoriaRequerida]) /\
      (fila !! "precio" = Some (CFloat FNaN) -> preview_precio fila = Ok []) /\
      (fila !! "stock" = Some (CFloat FNaN) ->
       preview_stock fila = Ok [PStockInvalido])) /\
  (forall df cols row k,
      In row (filas df) ->
      row_get cols row k = Some (CFloat FNaN) ->
      In (map llenar row) (filas (fillna df)) /\
      row_get cols (map llenar row) k = Some (CStr EmptyString)) /\
  texto_de (Some (CStr EmptyString)) = EmptyString /\
  leer_precio (Some (CStr EmptyString)) = Ok (FFinite 0) /\
  leer_stock (Some (CStr EmptyString)) = Ok 0%Z.
Proof.
  intros Hs Hp. split; [|split; [|now repeat split]].
  - intros fila. repeat split.
    + intros H ex vistos. unfold preview_codigo, obtener. now rewrite H.
    + intros H. unfold preview_nombre, obtener. rewrite H.
      change (default (CStr EmptyString) (Some (CFloat FNaN))) with (CFloat FNaN).
      cbn [str_de]. rewrite Hs, (py_strip_ascii "nan" eq_refl). reflexivity.
    + intros H cmap. unfold preview_categoria, obtener. now rewrite H.
    + intros H. unfold preview_precio, obtener. now rewrite H.
    + intros H. unfold preview_stock, obtener. rewrite H. cbn.
      rewrite Hs, Hp. reflexivity.
  - intros df cols row k Hin Hk. split.
    + unfold fillna. cbn. apply in_map_iff. now exists row.
    + now rewrite row_get_map, Hk.
Qed.

(** The reasons of a row follow the order of the rules (key, name,
    category, price, stock) and are six at most. *)
Theorem motivos_en_orden cmap ex vistos row es vistos' :
  errores_de_fila cmap ex vistos row = Ok (es, vistos') ->
  ordenado (map (fun m => rango (campo_preview m)) es) = true /\
  (length es <= 6)%nat.
Proof.
  intros H. apply errores_de_fila_partes in H as (e4 & e5 & E4 & E5 & -> & _).
  unfold preview_codigo, preview_nombre, preview_categoria.
  unfold preview_precio, atrapar in E4. unfold preview_stock, atrapar in E5.
  repeat (first [case_match | case_bool_decide | progress simplify_eq]);
    (split; [reflexivity|cbn; lia]).
Qed.

(** Which keys a row leaves as seen: the preview records every non-empty
    key, also one that already exists; the commit validator records a
    non-empty key only when it is not an existing key. *)
Theorem registro_de_claves :
  (forall cmap ex vistos row es vistos',
      errores_de_fila cmap ex vistos row = Ok (es, vistos') ->
      forall k, k ∈ vistos' <->
                k ∈ vistos \/ (clave_preview row = k /\ k <> EmptyString)) /\
  (forall cmap ex vistos get v vistos',
      validar_fila_commit cmap ex vistos get = Ok (v, vistos') ->
      forall k, k ∈ vistos' <->
                k ∈ vistos \/
                (clave_commit get = k /\ k <> EmptyString /\ k ∉ ex)).
Proof.
  split.
  - intros cmap ex vistos row es vistos' H.
    exact (errores_de_fila_vistos _ _ _ _ _ _ H).
  - intros cmap ex vistos get v vistos' H.
    exact (validar_fila_commit_registra _ _ _ _ _ _ H).
Qed.

(** The price rule on a non-empty text: the preview reports an invalid
    number when the text does not convert and a negative price when its
    value is below zero; a row the commit validator accepts carries the
    converted value, which is not negative.  Without a price the accepted
    row carries 0. *)
Theorem precio_regla (s : string) :
  s <> EmptyString ->
  (forall fila : gmap string celda,
      fila !! "precio" = Some (CStr s) ->
      preview_precio fila
      = Ok match float_of_str s with
           | None => [PPrecioInvalido]
           | Some f => if es_negativo f then [PPrecioNegativo] else []
           end) /\
  (forall cmap ex vistos get p vistos',
      validar_fila_commit cmap ex vistos get = Ok (Aceptada p, vistos') ->
      (get "precio" = Some (CStr s) ->
       float_of_str s = Some (precio p) /\ es_negativo (precio p) = false) /\
      (get "precio" = None -> precio p = FFinite 0)).
Proof.
  intros Hs. apply String.eqb_neq in Hs. split.
  - intros fila H. unfold preview_precio, obtener, atrapar. rewrite H.
    cbn. rewrite Hs. cbn. now destruct (float_of_str s).
  - intros cmap ex vistos get p vistos' H. unfold validar_fila_commit in H.
    split; intros Hg; rewrite Hg in H; cbn in H; rewrite ?Hs in H; cbn in H.
    + destruct (float_of_str s) as [f|] eqn:Ef; cbn in H;
        repeat (first [case_match | progress simplify_eq]).
      all: cbn; split; [reflexivity|assumption].
    + repeat (first [case_match | progress simplify_eq]); reflexivity.
Qed.

End ReglasMas.

(** ** The commit loop, continued *)

Section BucleCommitMas.
Context {py : Python}.
Import PyStr PyStrFacts PyStrMas.

Lemma no_negativo_admitido f : es_negativo f = false -> precio_admitido f.
Proof.
  destruct f as [q|b|]; cbn; [|easy|easy].
  intros H. apply negb_false_iff in H. now apply Qle_bool_iff.
Qed.

Lemma validar_fila_commit_bien_formado cmap ex vistos get p vistos' :
  validar_fila_commit cmap ex vistos get = Ok (Aceptada p, vistos') ->
  bien_formado cmap p.
Proof.
  unfold validar_fila_commit, bien_formado. intros H.
  repeat (first [case_match | progress simplify_eq]);
    cbn [codigo nombre descripcion categoria_id precio stock estado].
  all: repeat match goal with
         | H : String.eqb _ _ = false |- _ => apply String.eqb_neq in H
         | H : Z.eqb _ _ = false |- _ => apply Z.eqb_neq in H
         | H : Z.ltb _ _ = false |- _ => apply Z.ltb_ge in H
         end.
  all: repeat split; try assumption; try discriminate; try reflexivity;
    try (apply no_negativo_admitido; assumption); try congruence; eauto.
Qed.

Lemma bucle_commit_bien_formados cmap ex cols ind rows :
  forall index st r st',
    bucle_commit cmap ex cols ind index rows st = (r, st') ->
    Forall (bien_formado cmap) (productos_a_crear st) ->
    Forall (bien_formado cmap) (productos_a_crear st').
Proof.
  induction rows as [|row resto IH]; intros index st r st' H Hst.
  - cbn in H. now inversion H; subst.
  - cbn [bucle_commit] in H.
    destruct (mas_dos (ind index)) as [n|e0]; [|now inversion H; subst].
    destruct (validar_fila_commit cmap ex (codigos_en_archivo st)
                (row_get cols row)) as [[[m|p] vistos]|e] eqn:E.
    + eapply IH; [exact H|exact Hst].
    + eapply IH; [exact H|]. cbn. apply Forall_app. split; [exact Hst|].
      constructor; [|constructor].
      eapply validar_fila_commit_bien_formado, E.
    + now inversion H; subst.
Qed.

(** On the default index the sum is the position plus 2. *)
Lemma mas_dos_rango i : mas_dos (indice_rango i) = Ok (FilaNumero (i + 2)).
Proof.
  unfold mas_dos, indice_rango.
  replace (0 <=? Z.of_nat i + 2)%Z with true by (symmetry; apply Z.leb_le; lia).
  do 2 f_equal. lia.
Qed.

(** With the default index, the entries the loop appends carry row numbers
    that grow strictly and stay within the rows visited; each is the entry
    of one row of the frame, with its data. *)
Lemma bucle_commit_numeros cmap ex cols ind rows :
  forall index st r st',
    (forall j, (j < length rows)%nat -> ind (index + j)%nat = indice_rango (index + j)) ->
    bucle_commit cmap ex cols ind index rows st = (r, st') ->
    exists l js,
      eb_errores st' = (eb_errores st ++ l)%list /\
      map ei_fila l = map FilaNumero js /\
      StronglySorted lt js /\
      Forall (fun j => index + 2 <= j < index + 2 + length rows)%nat js /\
      Forall (fun it => exists j row m,
                  rows !! j = Some row /\
                  it = entrada_commit cols (FilaNumero (index + j + 2)) row m) l.
Proof.
  induction rows as [|row resto IH]; intros index st r st' Hind H.
  - cbn in H. inversion H; subst. exists [], [].
    rewrite app_nil_r. repeat split; constructor.
  - cbn [bucle_commit] in H.
    assert (Hind' : forall j, (j < length resto)%nat ->
                              ind (S index + j)%nat = indice_rango (S index + j)).
    { intros j Hj. replace (S index + j)%nat with (index + S j)%nat by lia.
      apply Hind. cbn. lia. }
    rewrite <- (Nat.add_0_r index) in H at 1.
    rewrite (Hind 0%nat ltac:(cbn; lia)), mas_dos_rango, Nat.add_0_r in H.
    destruct (validar_fila_commit cmap ex (codigos_en_archivo st)
                (row_get cols row)) as [[[m|p] vistos]|e] eqn:E.
    + apply (IH _ _ _ _ Hind') in H as (l & js & Hl & Hjs & Hs & Hr & Hit).
      cbn in Hl.
      exists (entrada_commit cols (FilaNumero (index + 2)) row m :: l),
             ((index + 2)%nat :: js).
      rewrite Hl, <- app_assoc. split; [reflexivity|].
      split; [cbn; now rewrite Hjs|]. split; [|split].
      * constructor; [exact Hs|].
        eapply Forall_impl; [exact Hr|]. cbn. intros j Hj. lia.
      * constructor; [cbn; lia|].
        eapply Forall_impl; [exact Hr|]. cbn. intros j Hj. lia.
      * constructor.
        -- exists 0%nat, row, m. split; [reflexivity|].
           now rewrite Nat.add_0_r.
        -- eapply Forall_impl; [exact Hit|]. cbn.
           intros it (j & rw & m' & Hj & ->). exists (S j), rw, m'.
           split; [exact Hj|]. do 2 f_equal. lia.
    + apply (IH _ _ _ _ Hind') in H as (l & js & Hl & Hjs & Hs & Hr & Hit).
      cbn in Hl.
      exists l, js. split; [exact Hl|]. split; [exact Hjs|].
      split; [exact Hs|]. split.
      * eapply Forall_impl; [exact Hr|]. cbn. intros j Hj. lia.
      * eapply Forall_impl; [exact Hit|]. cbn.
        intros it (j & rw & m' & Hj & ->). exists (S j), rw, m'.
        split; [exact Hj|]. do 2 f_equal. lia.
    + inversion H; subst. exists [], [].
      rewrite app_nil_r. repeat split; constructor.
Qed.

Lemma validar_fila_commit_sin_clave cmap ex vistos get :
  clave_commit get = EmptyString ->
  validar_fila_commit cmap ex vistos get = Ok (Rechazada CCodigoRequerido, vistos).
Proof.
  intros E. unfold validar_fila_commit. fold (clave_commit get).
  now rewrite E.
Qed.

(** Past the tests on the key, the verdict does not depend on the sets of
    keys. *)
Lemma validar_fila_commit_indiferente cmap ex ex2 s1 s2 get v s1' :
  clave_commit get <> EmptyString ->
  clave_commit get ∉ ex -> clave_commit get ∉ s1 ->
  clave_commit get ∉ ex2 -> clave_commit get ∉ s2 ->
  validar_fila_commit cmap ex s1 get = Ok (v, s1') ->
  validar_fila_commit cmap ex2 s2 get = Ok (v, {[clave_commit get]} ∪ s2).
Proof.
  unfold validar_fila_commit, clave_commit. intros Hne H1 H2 H3 H4.
  apply String.eqb_neq in Hne. rewrite Hne.
  rewrite !bool_decide_eq_false_2 by assumption.
  intros H. repeat (first [case_match | progress simplify_eq]); reflexivity.
Qed.

(** One row of a second pass over the same file, against existing keys
    that now include those of the rows the first pass accepted. *)
Lemma fila_segunda cmap ex ex2 s1 s2 get v s1' :
  validar_fila_commit cmap ex s1 get = Ok (v, s1') ->
  (forall k, k ∈ ex -> k ∈ ex2) ->
  match v with Aceptada p => codigo p ∈ ex2 | Rechazada _ => True end ->
  mismos_vistos ex2 s1 s2 ->
  exists m2 s2',
    validar_fila_commit cmap ex2 s2 get = Ok (Rechazada m2, s2') /\
    mismos_vistos ex2 s1' s2'.
Proof.
  intros H Hsub Hacc Hrel.
  pose proof (validar_fila_commit_registra _ _ _ _ _ _ H) as Hreg.
  destruct (String.eqb_spec (clave_commit get) EmptyString) as [E|E].
  { rewrite validar_fila_commit_sin_clave in H |- * by exact E.
    inversion H; subst. eauto. }
  destruct (decide (clave_commit get ∈ ex2)) as [H2|H2].
  { rewrite validar_fila_commit_ya_existe by assumption.
    eexists _, _. split; [reflexivity|].
    intros k Hk. rewrite Hreg, <- (Hrel k Hk). split; [|now left].
    intros [Hin|(Hc & _)]; [exact Hin|]. subst k. contradiction. }
  assert (H1 : clave_commit get ∉ ex) by (intros Hin; apply H2, Hsub, Hin).
  destruct (decide (clave_commit get ∈ s1)) as [Hs|Hs].
  { rewrite validar_fila_commit_duplicado in H by assumption.
    inversion H; subst.
    rewrite validar_fila_commit_duplicado;
      [|assumption|assumption|now apply Hrel].
    eauto. }
  assert (Hs2 : clave_commit get ∉ s2) by (intros Hin; now apply Hs, Hrel).
  destruct v as [m|p].
  - exists m, ({[clave_commit get]} ∪ s2). split.
    + exact (validar_fila_commit_indiferente _ _ _ _ _ _ _ _ E H1 Hs H2 Hs2 H).
    + rewrite (validar_fila_commit_nueva _ _ _ _ _ _ E H1 Hs H).
      intros k Hk. rewrite !elem_of_union, (Hrel k Hk). reflexivity.
  - exfalso. apply validar_fila_commit_aceptada in H as (Hc & _).
    rewrite Hc in Hacc. contradiction.
Qed.

Lemma bucle_commit_segunda cmap ex ex2 cols ind rows :
  (forall k, k ∈ ex -> k ∈ ex2) ->
  forall index st1 st1' st2,
    bucle_commit cmap ex cols ind index rows st1 = (None, st1') ->
    (forall p, In p (productos_a_crear st1') -> codigo p ∈ ex2) ->
    mismos_vistos ex2 (codigos_en_archivo st1) (codigos_en_archivo st2) ->
    exists st2',
      bucle_commit cmap ex2 cols ind index rows st2 = (None, st2') /\
      productos_a_crear st2' = productos_a_crear st2 /\
      length (eb_errores st2') = (length (eb_errores st2) + length rows)%nat.
Proof.
  intros Hsub. induction rows as [|row resto IH];
    intros index st1 st1' st2 H Hacc Hrel.
  - cbn. eexists. repeat split. cbn. lia.
  - cbn [bucle_commit] in H |- *.
    destruct (mas_dos (ind index)) as [n|e0]; [|discriminate].
    destruct (validar_fila_commit cmap ex (codigos_en_archivo st1)
                (row_get cols row)) as [[v vistos]|e] eqn:E; [|discriminate].
    assert (Hv : match v with
                 | Aceptada p => codigo p ∈ ex2
                 | Rechazada _ => True
                 end).
    { destruct v as [m|p]; [exact I|]. apply Hacc.
      apply (bucle_commit_crece _ _ _ _ _ _ _ _ _ H). cbn.
      apply in_app_iff. right. now left. }
    destruct (fila_segunda _ _ _ _ _ _ _ _ E Hsub Hv Hrel) as (m2 & s2' & E2 & Hrel').
    rewrite E2.
    assert (H' : exists s0, bucle_commit cmap ex cols ind (S index) resto s0 = (None, st1')
                            /\ codigos_en_archivo s0 = vistos)
      by (destruct v; eexists; (split; [exact H|reflexivity])).
    destruct H' as (s0 & H' & Hs0).
    edestruct (IH (S index) s0 st1') as (st2' & Hb & Hp & Hl);
      [exact H'|exact Hacc| |].
    2:{ exists st2'. split; [exact Hb|]. split; [exact Hp|].
        rewrite Hl. cbn. rewrite length_app. cbn. lia. }
    rewrite Hs0. exact Hrel'.
Qed.

End BucleCommitMas.

(** ** The commit pass, continued *)

Section PaseMas.
Context {py : Python}.

(** A [try] block that ends without an exception, in full. *)
Lemma intento_exito env content filename s s1 :
  intento env content filename s = (None, s1) ->
  falla_consulta env = None /\ falla_commit env = None /\
  exists df st,
    leer_archivo env content filename = Ok df /\
    bucle_commit
      (indexar_categorias
         (filter (fun c => Z.eqb (cat_estado c) 1) (categorias (db s))))
      (indexar_codigos (filter activo (productos (db s))))
      (columnas (fillna (_normalizar_columnas df))) (indice df) 0
      (filas (fillna (_normalizar_columnas df)))
      (estado_inicial (errores s)) = (None, st) /\
    errores s1 = eb_errores st /\
    categorias (db s1) = categorias (db s) /\
    productos (db s1)
    = (productos (db s) ++ pendientes (db s) ++ productos_a_crear st)%list /\
    pendientes (db s1) = [] /\
    total_filas (summary s1) = length (filas df) /\
    creados (summary s1)
    = match productos_a_crear st with
      | [] => creados (summary s)
      | _ => length (productos_a_crear st)
      end /\
    actualizados (summary s1) = actualizados (summary s) /\
    codigos_existentes s1 = indexar_codigos (filter activo (productos (db s))).
Proof.
  unfold intento, _precache_data.
  destruct (falla_consulta env) as [e0|]; [discriminate|].
  destruct (leer_archivo env content filename) as [df|e1]; [|discriminate].
  cbn -[fillna _normalizar_columnas bucle_commit insertar confirmar].
  destruct (bucle_commit _ _ _ _ 0 _ _) as [rb st] eqn:Hb.
  destruct rb as [e2|]; [discriminate|].
  unfold insertar, confirmar.
  destruct (productos_a_crear st) as [|p0 ps] eqn:Hps.
  - cbn. destruct (falla_commit env) as [e3|]; [discriminate|].
    intros H; inversion H; subst; clear H. cbn.
    split; [reflexivity|]. split; [reflexivity|]. exists df, st.
    rewrite Hps, length_map, app_nil_r. repeat split. exact Hb.
  - destruct (falla_insercion env) as [[n e4]|]; [discriminate|].
    cbn. destruct (falla_commit env) as [e3|]; [discriminate|].
    intros H; inversion H; subst; clear H. cbn.
    split; [reflexivity|]. split; [reflexivity|]. exists df, st.
    rewrite Hps, length_map. repeat split. exact Hb.
Qed.

(** A [try] block whose cache load and file reading succeed, by what
    happens in and after the loop. *)
Lemma intento_con_bucle env content filename s r s1 df :
  falla_consulta env = None ->
  leer_archivo env content filename = Ok df ->
  intento env content filename s = (r, s1) ->
  exists rb st,
    bucle_commit
      (indexar_categorias
         (filter (fun c => Z.eqb (cat_estado c) 1) (categorias (db s))))
      (indexar_codigos (filter activo (productos (db s))))
      (columnas (fillna (_normalizar_columnas df))) (indice df) 0
      (filas (fillna (_normalizar_columnas df)))
      (estado_inicial (errores s)) = (rb, st) /\
    errores s1 = eb_errores st /\
    total_filas (summary s1) = length (filas df) /\
    match rb with
    | Some e =>
        r = Some e /\ db s1 = db s /\ creados (summary s1) = creados (summary s)
    | None =>
        match productos_a_crear st with
        | [] =>
            creados (summary s1) = creados (summary s) /\
            match falla_commit env with
            | Some e => r = Some e /\ db s1 = db s
            | None => r = None /\ db s1 = db_confirmar (db s)
            end
        | ps =>
            match falla_insercion env with
            | Some (n, e) =>
                r = Some e /\ db s1 = db_escribir (db s) (take n ps) /\
                creados (summary s1) = creados (summary s)
            | None =>
                creados (summary s1) = length ps /\
                match falla_commit env with
                | Some e => r = Some e /\ db s1 = db_escribir (db s) ps
                | None =>
                    r = None /\ db s1 = db_confirmar (db_escribir (db s) ps)
                end
            end
        end
    end.
Proof.
  intros Hq Hleer. unfold intento, _precache_data. rewrite Hq, Hleer.
  cbn -[fillna _normalizar_columnas bucle_commit insertar confirmar].
  destruct (bucle_commit _ _ _ _ 0 _ _) as [rb st] eqn:Hb.
  intros H. exists rb, st. split; [reflexivity|].
  destruct rb as [e2|].
  { inversion H; subst; clear H. cbn. rewrite length_map. now repeat split. }
  unfold insertar, confirmar in H.
  destruct (productos_a_crear st) as [|p0 ps] eqn:Hps.
  - cbn in H. destruct (falla_commit env) as [e3|];
      inversion H; subst; clear H; cbn; rewrite length_map; now repeat split.
  - destruct (falla_insercion env) as [[n e4]|].
    + inversion H; subst; clear H. cbn. rewrite length_map. now repeat split.
    + cbn in H. destruct (falla_commit env) as [e3|];
        inversion H; subst; clear H; cbn; rewrite length_map; now repeat split.
Qed.

(** On a frame with the default index, the entries a [try] block adds
    carry growing row numbers between 2 and the number of rows plus 1. *)
Lemma intento_numeros env content filename s r s1 :
  (forall df i, leer_archivo env content filename = Ok df ->
                (i < length (filas df))%nat -> indice df i = indice_rango i) ->
  intento env content filename s = (r, s1) ->
  exists l js,
    errores s1 = (errores s ++ l)%list /\
    map ei_fila l = map FilaNumero js /\
    StronglySorted lt js /\
    (l = [] \/
     Forall (fun j => 2 <= j < 2 + total_filas (summary s1))%nat js).
Proof.
  intros Hind H.
  destruct (falla_consulta env) as [e0|] eqn:Hq.
  { unfold intento, _precache_data in H. rewrite Hq in H.
    inversion H; subst. exists [], []. rewrite app_nil_r.
    repeat split; [constructor|now left]. }
  destruct (leer_archivo env content filename) as [df|e1] eqn:Hleer.
  2:{ unfold intento, _precache_data in H. rewrite Hq, Hleer in H.
      inversion H; subst. exists [], []. cbn. rewrite app_nil_r.
      repeat split; [constructor|now left]. }
  destruct (intento_con_bucle _ _ _ _ _ _ _ Hq Hleer H)
    as (rb & st & Hb & He & Ht & _).
  assert (Hside : forall j,
             (j < length (filas (fillna (_normalizar_columnas df))))%nat ->
             indice df (0 + j)%nat = indice_rango (0 + j)).
  { intros j Hj. rewrite fillna_normalizar_filas in Hj.
    exact (Hind df j eq_refl Hj). }
  destruct (bucle_commit_numeros _ _ _ _ _ _ _ _ _ Hside Hb)
    as (l & js & Hl & Hjs & Hs & Hr & _).
  exists l, js. rewrite He, Hl, Ht. cbn in Hr |- *.
  rewrite length_map in Hr.
  split; [reflexivity|]. split; [exact Hjs|]. split; [exact Hs|]. now right.
Qed.

Lemma indexar_codigos_nuevos ps nuevos :
  Forall (fun p => codigo p <> EmptyString /\ estado p = 1%Z) nuevos ->
  forall k,
    k ∈ indexar_codigos (filter activo (ps ++ nuevos)%list) <->
    k ∈ indexar_codigos (filter activo ps) \/ In k (map codigo nuevos).
Proof.
  intros Hn k. rewrite !indexar_codigos_claves. split.
  - intros (Hne & p & Hp & Hk).
    apply list_elem_of_In, list_elem_of_filter in Hp as [Hact Hp].
    apply list_elem_of_In, in_app_iff in Hp as [Hp|Hp].
    + left. split; [exact Hne|]. exists p. split; [|exact Hk].
      apply list_elem_of_In, list_elem_of_filter. split; [exact Hact|].
      now apply list_elem_of_In.
    + right. apply in_map_iff. now exists p.
  - intros [(Hne & p & Hp & Hk)|Hin].
    + split; [exact Hne|]. exists p. split; [|exact Hk].
      apply list_elem_of_In, list_elem_of_filter in Hp as [Hact Hp].
      apply list_elem_of_In, list_elem_of_filter. split; [exact Hact|].
      apply list_elem_of_In, in_app_iff. left. now apply list_elem_of_In.
    + apply in_map_iff in Hin as (p & Hk & Hp).
      rewrite Forall_forall in Hn. apply list_elem_of_In in Hp.
      destruct (Hn p Hp) as [Hne Hest]. subst k. split; [exact Hne|].
      exists p. split; [|reflexivity].
      apply list_elem_of_In, list_elem_of_filter. split.
      * unfold activo. apply Is_true_true. now apply Z.eqb_eq.
      * apply list_elem_of_In, in_app_iff. right. now apply list_elem_of_In.
Qed.

Lemma bien_formado_activo cmap p :
  bien_formado cmap p -> codigo p <> EmptyString /\ estado p = 1%Z.
Proof. unfold bien_formado. tauto. Qed.

Lemma numero_de_numerados l js :
  map ei_fila l = map FilaNumero js -> map numero_de l = map Some js.
Proof.
  revert js. induction l as [|it l IH]; intros [|j js] H; try discriminate;
    [reflexivity|].
  cbn in H. inversion H as [[Hj Hl]]. cbn. unfold numero_de at 1.
  rewrite Hj. f_equal. now apply IH.
Qed.

(** Every product a pass adds to the table has a non-empty code that is
    the upper-cased, trimmed text of a cell, a non-empty name that is the
    trimmed text of a cell, no empty description, a price that does not
    compare below zero (a number at least 0, the infinity above or NaN), a
    stock of at least 0, the active state, and the identifier of an active
    category. *)
Theorem productos_insertados env content filename cs ps :
  let d := {| categorias := cs; productos := ps; pendientes := [] |} in
  let cmap := indexar_categorias (filter (fun c => Z.eqb (cat_estado c) 1) cs) in
  exists nuevos,
    productos (db (snd (procesar_archivo env content filename (nuevo_servicio d))))
    = (ps ++ nuevos)%list /\
    forall p,
      In p nuevos ->
      bien_formado cmap p /\
      exists c, In c cs /\ cat_estado c = 1%Z /\ cat_id c = categoria_id p.
Proof.
  intros d cmap. unfold procesar_archivo.
  destruct (intento env content filename (nuevo_servicio d)) as [r s1] eqn:Hi.
  destruct r as [e|].
  - apply intento_forma in Hi as (_ & _ & _ & Hp & _).
    exists []. cbn in *. rewrite app_nil_r. split; [exact Hp|]. intros p [].
  - apply intento_exito in Hi as (_ & _ & df & st & _ & Hb & _ & _ & Hp & _).
    cbn in Hb, Hp |- *. exists (productos_a_crear st). split; [exact Hp|].
    apply bucle_commit_bien_formados in Hb; [|constructor].
    rewrite Forall_forall in Hb. intros p Hp'.
    apply list_elem_of_In in Hp'. specialize (Hb p Hp'). split; [exact Hb|].
    destruct Hb as (_ & _ & _ & _ & _ & (k & Hk) & _).
    apply indexar_categorias_claves in Hk as (c & Hc & _ & Hid).
    apply list_elem_of_In, list_elem_of_filter in Hc as [Hact Hc].
    exists c. split; [now apply list_elem_of_In|]. split; [|exact Hid].
    apply Is_true_true in Hact. now apply Z.eqb_eq.
Qed.

(** The errors a fresh service returns for a file read with the default
    index: the entries of the rejected rows, with strictly growing row
    numbers between 2 and the number of rows plus 1, followed by the entry
    without a row number exactly when a failure was caught. *)
Theorem errores_numerados env content filename d :
  (forall df i, leer_archivo env content filename = Ok df ->
                (i < length (filas df))%nat -> indice df i = indice_rango i) ->
  let resp := fst (procesar_archivo env content filename (nuevo_servicio d)) in
  exists js,
    map numero_de (r_errors resp)
    = (map Some js
         ++ match fst (intento env content filename (nuevo_servicio d)) with
            | Some _ => [None]
            | None => []
            end)%list /\
    StronglySorted lt js /\
    Forall (fun j => 2 <= j <= total_filas (r_summary resp) + 1)%nat js.
Proof.
  intros Hind. unfold procesar_archivo.
  destruct (intento env content filename (nuevo_servicio d)) as [r s1] eqn:Hi.
  apply (intento_numeros _ _ _ _ _ _ Hind) in Hi as (l & js & Hl & Hjs & Hs & Hr).
  cbn in Hl. exists js.
  assert (Hr' : Forall (fun j => 2 <= j <= total_filas (summary s1) + 1)%nat js).
  { destruct Hr as [->|Hr].
    - destruct js; [constructor|discriminate].
    - eapply Forall_impl; [exact Hr|]. cbn. intros j Hj. lia. }
  destruct r as [e|]; cbn.
  - rewrite Hl, map_app. cbn. rewrite (numero_de_numerados _ _ Hjs).
    now repeat split.
  - rewrite Hl, app_nil_r. rewrite (numero_de_numerados _ _ Hjs).
    now repeat split.
Qed.

(** Round trip through the table: after a pass without failure, loading
    the cache again finds the keys cached before the pass and the keys of
    the products the pass created, and nothing else; the number of created
    products is the count the summary reports. *)
Theorem recarga_de_claves env content filename d :
  fst (intento env content filename (nuevo_servicio d)) = None ->
  pendientes d = [] ->
  let s' := snd (procesar_archivo env content filename (nuevo_servicio d)) in
  let s2 := snd (_precache_data env (nuevo_servicio (db s'))) in
  exists nuevos,
    productos (db s') = (productos d ++ nuevos)%list /\
    length nuevos = creados (summary s') /\
    categorias_map s2 = categorias_map s' /\
    forall k, k ∈ codigos_existentes s2 <->
              k ∈ codigos_existentes s' \/ In k (map codigo nuevos).
Proof.
  unfold procesar_archivo.
  destruct (intento env content filename (nuevo_servicio d)) as [r s1] eqn:Hi.
  cbn [fst]. intros -> Hpend.
  pose proof Hi as Hi'.
  apply intento_exito in Hi
    as (Hq & _ & df & st & _ & Hb & _ & Hcat & Hp & _ & _ & Hc & _ & Hex).
  cbn in Hb, Hcat, Hp, Hc, Hex |- *. rewrite Hpend in Hp. cbn in Hp.
  exists (productos_a_crear st). split; [exact Hp|]. split.
  { rewrite Hc. now destruct (productos_a_crear st). }
  unfold _precache_data. rewrite Hq. cbn. rewrite Hcat, Hp, Hex. split.
  - unfold intento, _precache_data in Hi'. rewrite Hq in Hi'.
    destruct (leer_archivo env content filename); [|discriminate].
    cbn -[fillna _normalizar_columnas bucle_commit insertar confirmar] in Hi'.
    destruct (bucle_commit _ _ _ _ 0 _ _) as [[?|] ?]; [discriminate|].
    unfold insertar, confirmar in Hi'.
    repeat (first [case_match | progress simplify_eq]); reflexivity.
  - apply indexar_codigos_nuevos.
    apply bucle_commit_bien_formados in Hb; [|constructor].
    eapply Forall_impl; [exact Hb|]. apply bien_formado_activo.
Qed.

(** Running the commit again on the same file, after a pass without
    failure, creates nothing: every row is rejected and the table is left
    as the first pass left it. *)
Theorem segunda_pasada env content filename d :
  fst (intento env content filename (nuevo_servicio d)) = None ->
  pendientes d = [] ->
  let r1 := procesar_archivo env content filename (nuevo_servicio d) in
  let r2 := procesar_archivo env content filename (nuevo_servicio (db (snd r1))) in
  creados (r_summary (fst r2)) = 0%nat /\
  total_filas (r_summary (fst r2)) = total_filas (r_summary (fst r1)) /\
  con_errores (r_summary (fst r2)) = total_filas (r_summary (fst r2)) /\
  productos (db (snd r2)) = productos (db (snd r1)) /\
  pendientes (db (snd r2)) = [].
Proof.
  intros H1 Hpend r1 r2. subst r1 r2. unfold procesar_archivo.
  destruct (intento env content filename (nuevo_servicio d)) as [r s1] eqn:Hi.
  cbn [fst] in H1. subst r. cbn [fst snd db summary con_summary].
  apply intento_exito in Hi
    as (Hq & Hcm & df & st & Hleer & Hb & _ & Hcat & Hp & Hpe & Ht & _).
  cbn in Hb, Hcat, Hp. rewrite Hpend in Hp. cbn in Hp.
  set (d1 := db s1) in *.
  destruct (intento env content filename (nuevo_servicio d1)) as [r2 s2] eqn:Hi2.
  destruct (intento_con_bucle _ _ _ _ _ _ _ Hq Hleer Hi2)
    as (rb & st2 & Hb2 & He2 & Ht2 & Hcase).
  cbn in Hb2. rewrite Hcat in Hb2.
  assert (Hbf : Forall (fun p => codigo p <> EmptyString /\ estado p = 1%Z)
                  (productos_a_crear st)).
  { pose proof (bucle_commit_bien_formados _ _ _ _ _ _ _ _ _ Hb
                  ltac:(constructor)) as Hbf.
    eapply Forall_impl; [exact Hbf|]. apply bien_formado_activo. }
  edestruct (bucle_commit_segunda
               (indexar_categorias
                  (filter (fun c => Z.eqb (cat_estado c) 1) (categorias d)))
               (indexar_codigos (filter activo (productos d)))
               (indexar_codigos (filter activo (productos d1))))
    as (st2' & Hb2' & Hcr & Hlen);
    [ |exact Hb| |exact (fun k _ => iff_refl _)|].
  { intros k Hk. rewrite Hp. apply indexar_codigos_nuevos; [exact Hbf|now left]. }
  { intros p Hin. rewrite Hp. apply indexar_codigos_nuevos; [exact Hbf|].
    right. now apply in_map. }
  cbn in Hb2'. rewrite Hb2' in Hb2. inversion Hb2; subst rb st2'. clear Hb2.
  cbn in Hcr, Hlen. rewrite Hcr in Hcase. rewrite Hcm in Hcase.
  destruct Hcase as (Hc2 & -> & Hdb2).
  cbn. rewrite He2, Hlen, Ht2, Ht, Hc2, Hdb2, length_map. cbn.
  fold d1. rewrite Hpe, app_nil_r. now repeat split.
Qed.

Lemma leer_archivo_rechaza env content filename :
  formato_valido (Some filename) = false ->
  leer_archivo env content filename = Lanza error_formato.
Proof.
  unfold formato_valido, leer_archivo.
  destruct (String.eqb_spec filename EmptyString) as [->|_].
  - intros _. now rewrite (py_lower_ascii EmptyString eq_refl).
  - destruct (PyStr.endswith (py_lower filename) ".csv"); [discriminate|].
    destruct (PyStr.endswith (py_lower filename) ".xls"); [discriminate|].
    destruct (PyStr.endswith (py_lower filename) ".xlsx"); [discriminate|].
    reflexivity.
Qed.

(** A commit pass on a file whose name the format test refuses reads
    nothing: with the cache loaded, it reports no rows, no product created
    and the one entry of the format error, whatever the content and the
    readers, and leaves the tables as they were. *)
Theorem formato_no_soportado env content filename d :
  falla_consulta env = None ->
  formato_valido (Some filename) = false ->
  let resp := fst (procesar_archivo env content filename (nuevo_servicio d)) in
  let s' := snd (procesar_archivo env content filename (nuevo_servicio d)) in
  r_errors resp = [error_sintetico error_formato] /\
  r_summary resp
  = {| total_filas := 0; creados := 0; actualizados := 0;
       omitidos_duplicados := 0; con_errores := 1 |} /\
  r_message resp = "No se pudo cargar ningún producto. 1 errores encontrados." /\
  db s' = db_rollback d.
Proof.
  intros Hq Hf. unfold procesar_archivo, intento, _precache_data.
  rewrite Hq, (leer_archivo_rechaza _ _ _ Hf). cbn. now repeat split.
Qed.

(** What a failure of the database after the loop does to the report, for
    a pass that queued at least one product.  A failure of the bulk
    insertion leaves creados at 0; a failure of the commit that follows a
    bulk insertion leaves creados at the number of queued products.  Either
    way the error list ends with the entry of the failure and the tables
    are rolled back; without failure the queue is appended to the table. *)
Theorem fallo_de_persistencia env content filename d df st :
  falla_consulta env = None ->
  leer_archivo env content filename = Ok df ->
  bucle_commit
    (indexar_categorias (filter (fun c => Z.eqb (cat_estado c) 1) (categorias d)))
    (indexar_codigos (filter activo (productos d)))
    (columnas (fillna (_normalizar_columnas df))) (indice df) 0
    (filas (fillna (_normalizar_columnas df)))
    (estado_inicial []) = (None, st) ->
  productos_a_crear st <> [] ->
  let resp := fst (procesar_archivo env content filename (nuevo_servicio d)) in
  let s' := snd (procesar_archivo env content filename (nuevo_servicio d)) in
  match falla_insercion env, falla_commit env with
  | Some (n, e), _ =>
      creados (r_summary resp) = 0%nat /\
      r_errors resp = (eb_errores st ++ [error_sintetico e])%list /\
      db s' = db_rollback d
  | None, Some e =>
      creados (r_summary resp) = length (productos_a_crear st) /\
      r_errors resp = (eb_errores st ++ [error_sintetico e])%list /\
      db s' = db_rollback d
  | None, None =>
      creados (r_summary resp) = length (productos_a_crear st) /\
      r_errors resp = eb_errores st /\
      db s' = db_confirmar (db_escribir d (productos_a_crear st))
  end.
Proof.
  intros Hq Hleer Hb Hne. unfold procesar_archivo.
  destruct (intento env content filename (nuevo_servicio d)) as [r s1] eqn:Hi.
  destruct (intento_con_bucle _ _ _ _ _ _ _ Hq Hleer Hi)
    as (rb & st' & Hb' & He & _ & Hcase).
  change (db (nuevo_servicio d)) with d in Hb'.
  change (errores (nuevo_servicio d)) with (@nil ErrorItem) in Hb'.
  rewrite Hb in Hb'. inversion Hb'; subst rb st'. clear Hb'.
  destruct (productos_a_crear st) as [|p0 ps] eqn:Hps; [now destruct Hne|].
  destruct (falla_insercion env) as [[n e]|].
  - destruct Hcase as (-> & Hdb & Hc). cbn. rewrite He, Hdb, Hc.
    now repeat split.
  - destruct Hcase as (Hc & Hcase).
    destruct (falla_commit env) as [e|]; destruct Hcase as (-> & Hdb);
      cbn; rewrite He, Hdb, Hc; now repeat split.
Qed.

End PaseMas.

(** ** The further properties on concrete inputs *)

Section MasEjemplos.
Import Ejemplos.

Lemma precache_indice_testigo :
  let s := nuevo_servicio db_ejemplo in
  let s1 := snd (_precache_data (env_de df_vacio) s) in
  _precache_data (env_de df_vacio) s = (None, s1) /\
  (forall k, k ∈ codigos_existentes s1 <->
             k <> EmptyString /\
             exists p, In p (productos db_ejemplo) /\ estado p = 1%Z /\ codigo p = k).
Proof.
  intros s s1.
  assert (H : _precache_data (env_de df_vacio) s = (None, s1))
    by (vm_compute; reflexivity).
  split; [exact H|].
  exact (proj1 (proj2 (proj2 (precache_indice _ _ _ H)))).
Defined.

Lemma categoria_regla_testigo :
  let s := nuevo_servicio db_ejemplo in
  let s1 := snd (_precache_data (env_de df_vacio) s) in
  let fila := aplanar_fila (dict_txt "n1" "Camisa" " hogar " "100" "10") in
  _precache_data (env_de df_vacio) s = (None, s1) /\
  (preview_categoria (py := python_ejemplo) (categorias_map s1) fila = [] <->
   safe_upper (py := python_ejemplo) (obtener fila "categoria") <> EmptyString /\
   exists c, In c (categorias db_ejemplo) /\ cat_estado c = 1%Z /\
             py_upper (cat_nombre c)
             = safe_upper (py := python_ejemplo) (obtener fila "categoria")).
Proof.
  intros s s1 fila.
  assert (H : _precache_data (env_de df_vacio) s = (None, s1))
    by (vm_compute; reflexivity).
  split; [exact H|].
  exact (categoria_regla (py := python_ejemplo) _ _ _ fila H).
Defined.

Lemma preview_resultados_testigo :
  let s := nuevo_servicio db_ejemplo in
  let r := validar_filas_preview (py := python_ejemplo) (env_de df_vacio) s
             dicts_repetidos in
  let out := match fst r with Ok (o, _) => o | Lanza _ => [] end in
  r = (Ok (out, true), snd r) /\
  length out = 2%nat /\
  true = existsb (fun it => negb (ri_success it)) out /\
  db (snd r) = db_ejemplo.
Proof.
  intros s r out.
  assert (H : r = (Ok (out, true), snd r)) by (vm_compute; reflexivity).
  split; [exact H|].
  destruct (preview_resultados (py := python_ejemplo) _ _ _ _ _ _ H)
    as (H1 & H2 & H3 & _).
  split; [exact H1|]. split; [exact H2|exact H3].
Defined.

Lemma preview_desbordamiento_testigo :
  let filas := [ dict_txt "a1" "Camisa" "ropa" "100" "10";
                 dict_txt "b2" "Mesa" "hogar" "250" "inf" ] in
  falla_consulta (env_de df_vacio) = None /\
  fst (validar_filas_preview (py := python_ejemplo) (env_de df_vacio)
         (nuevo_servicio db_ejemplo) filas)
  = Lanza desbordamiento.
Proof.
  intros filas. split; [reflexivity|].
  apply (proj1 (preview_desbordamiento (py := python_ejemplo) (env_de df_vacio)
                  (nuevo_servicio db_ejemplo) filas eq_refl)).
  exists (dict_txt "b2" "Mesa" "hogar" "250" "inf").
  split; [right; left; reflexivity|].
  split; [vm_compute; reflexivity|].
  exists false. vm_compute. reflexivity.
Defined.

Lemma celdas_ausentes_testigo :
  str_of_float (Python := python_ejemplo) FNaN = "nan" /\
  float_of_str (Python := python_ejemplo) "nan" = Some FNaN /\
  preview_stock (py := python_ejemplo) (<["stock" := CFloat FNaN]> ∅)
  = Ok [PStockInvalido] /\
  preview_nombre (py := python_ejemplo) (<["nombre" := CFloat FNaN]> ∅) = [].
Proof.
  split; [reflexivity|]. split; [reflexivity|].
  destruct (celdas_ausentes (py := python_ejemplo) eq_refl eq_refl) as (H & _).
  split.
  - apply (H (<["stock" := CFloat FNaN]> ∅)). reflexivity.
  - apply (H (<["nombre" := CFloat FNaN]> ∅)). reflexivity.
Defined.

Lemma motivos_en_orden_testigo :
  let row := dict_txt "" "" "zzz" "-1" "x" in
  let r := errores_de_fila (py := python_ejemplo) ∅ ∅ ∅ row in
  let es := match r with Ok (es, _) => es | Lanza _ => [] end in
  let v := match r with Ok (_, v) => v | Lanza _ => ∅ end in
  r = Ok (es, v) /\
  length es = 5%nat /\
  ordenado (map (fun m => rango (campo_preview m)) es) = true /\
  (length es <= 6)%nat.
Proof.
  intros row r es v.
  assert (H : r = Ok (es, v)) by (vm_compute; reflexivity).
  split; [exact H|]. split; [vm_compute; reflexivity|].
  exact (motivos_en_orden (py := python_ejemplo) _ _ _ _ _ _ H).
Defined.

Lemma precio_regla_testigo :
  "-12.5" <> EmptyString /\
  preview_precio (py := python_ejemplo) (<["precio" := CStr "-12.5"]> ∅)
  = Ok [PPrecioNegativo].
Proof.
  split; [discriminate|].
  destruct (precio_regla (py := python_ejemplo) "-12.5") as [H _];
    [discriminate|].
  rewrite (H (<["precio" := CStr "-12.5"]> ∅)); [|reflexivity].
  vm_compute. reflexivity.
Defined.

Lemma recarga_de_claves_testigo :
  let env := env_de df_dos_filas in
  let s' := snd (procesar_archivo (py := python_ejemplo) env [] "datos.csv"
                   (nuevo_servicio db_ejemplo)) in
  let s2 := snd (_precache_data env (nuevo_servicio (db s'))) in
  fst (intento (py := python_ejemplo) env [] "datos.csv"
         (nuevo_servicio db_ejemplo)) = None /\
  pendientes db_ejemplo = [] /\
  exists nuevos,
    productos (db s') = (productos db_ejemplo ++ nuevos)%list /\
    length nuevos = creados (summary s') /\
    categorias_map s2 = categorias_map s' /\
    forall k, k ∈ codigos_existentes s2 <->
              k ∈ codigos_existentes s' \/ In k (map codigo nuevos).
Proof.
  intros env s' s2.
  assert (H : fst (intento (py := python_ejemplo) env [] "datos.csv"
                     (nuevo_servicio db_ejemplo)) = None)
    by (vm_compute; reflexivity).
  split; [exact H|]. split; [reflexivity|].
  exact (recarga_de_claves (py := python_ejemplo) env [] "datos.csv" db_ejemplo
           H eq_refl).
Defined.

Lemma segunda_pasada_testigo :
  let env := env_de df_dos_filas in
  let r1 := procesar_archivo (py := python_ejemplo) env [] "datos.csv"
              (nuevo_servicio db_ejemplo) in
  let r2 := procesar_archivo (py := python_ejemplo) env [] "datos.csv"
              (nuevo_servicio (db (snd r1))) in
  fst (intento (py := python_ejemplo) env [] "datos.csv"
         (nuevo_servicio db_ejemplo)) = None /\
  creados (r_summary (fst r1)) = 2%nat /\
  creados (r_summary (fst r2)) = 0%nat /\
  con_errores (r_summary (fst r2)) = total_filas (r_summary (fst r2)) /\
  productos (db (snd r2)) = productos (db (snd r1)).
Proof.
  intros env r1 r2.
  assert (H : fst (intento (py := python_ejemplo) env [] "datos.csv"
                     (nuevo_servicio db_ejemplo)) = None)
    by (vm_compute; reflexivity).
  split; [exact H|]. split; [vm_compute; reflexivity|].
  destruct (segunda_pasada (py := python_ejemplo) env [] "datos.csv" db_ejemplo
              H eq_refl) as (H1 & _ & H3 & H4 & _).
  split; [exact H1|]. split; [exact H3|exact H4].
Defined.

Lemma formato_no_soportado_testigo :
  let r := procesar_archivo (py := python_ejemplo) (env_de df_dos_filas) []
             "datos.txt" (nuevo_servicio db_ejemplo) in
  falla_consulta (env_de df_dos_filas) = None /\
  formato_valido (Some "datos.txt") = false /\
  r_errors (fst r) = [error_sintetico error_formato] /\
  db (snd r) = db_rollback db_ejemplo.
Proof.
  intros r. split; [reflexivity|]. split; [vm_compute; reflexivity|].
  destruct (formato_no_soportado (py := python_ejemplo) (env_de df_dos_filas) []
              "datos.txt" db_ejemplo eq_refl)
    as (H1 & _ & _ & H4); [vm_compute; reflexivity|].
  split; [exact H1|exact H4].
Defined.

Lemma fallo_de_persistencia_testigo :
  let env := env_commit_falla df_dos_filas in
  let r := procesar_archivo (py := python_ejemplo) env [] "datos.csv"
             (nuevo_servicio db_ejemplo) in
  leer_archivo env [] "datos.csv" = Ok df_dos_filas /\
  creados (r_summary (fst r)) = 2%nat /\
  db (snd r) = db_rollback db_ejemplo.
Proof.
  intros env r.
  split; [vm_compute; reflexivity|].
  pose (st := snd (bucle_commit (py := python_ejemplo)
                     (indexar_categorias
                        (filter (fun c => Z.eqb (cat_estado c) 1)
                           (categorias db_ejemplo)))
                     (indexar_codigos (filter activo (productos db_ejemplo)))
                     (columnas (fillna (_normalizar_columnas df_dos_filas))) (indice df_dos_filas) 0
                     (filas (fillna (_normalizar_columnas df_dos_filas)))
                     (estado_inicial []))).
  pose proof (fallo_de_persistencia (py := python_ejemplo) env [] "datos.csv"
                db_ejemplo df_dos_filas st) as H.
  destruct H as (H1 & _ & H3);
    [reflexivity|vm_compute; reflexivity|vm_compute; reflexivity
    |vm_compute; discriminate|].
  split; [|exact H3].
  etransitivity; [exact H1|vm_compute; reflexivity].
Defined.

Lemma normalizar_texto_idempotente_testigo :
  let v := CStr "  Hola   MUNDO " in
  PyStr.todos PyStr.es_ascii (str_de v) = true /\
  normalizar_texto v = "hola mundo" /\
  normalizar_texto (CStr (normalizar_texto v)) = normalizar_texto v.
Proof.
  intros v. split; [reflexivity|]. split; [vm_compute; reflexivity|].
  apply normalizar_texto_idempotente. reflexivity.
Defined.

Lemma aplanar_tras_router_testigo :
  let col := " Precio. Unitario " in
  PyStr.todos PyStr.es_ascii col = true /\
  normalizar_columna_router col = "precio_unitario" /\
  aplanar_nombre_columna (normalizar_columna_router col)
  = aplanar_nombre_columna col.
Proof.
  intros col. split; [reflexivity|]. split; [vm_compute; reflexivity|].
  apply aplanar_tras_router. reflexivity.
Defined.

Lemma normalizar_columnas_idempotente_testigo :
  let df := {| columnas := [" Código "; "Marca "; "STOCK INICIAL"];
               filas := [[CStr "a1"; CStr "Acme"; CInt 3]];
               indice := indice_rango |} in
  columnas (_normalizar_columnas df) = ["codigo"; "marca"; "stock"] /\
  _normalizar_columnas (_normalizar_columnas df) = _normalizar_columnas df.
Proof.
  intros df. split; [vm_compute; reflexivity|].
  apply (normalizar_columnas_idempotente df).
  apply List.Forall_cons; [left; vm_compute; eauto|].
  apply List.Forall_cons; [right; reflexivity|].
  apply List.Forall_cons; [right; reflexivity|].
  apply List.Forall_nil.
Defined.

Lemma errores_numerados_testigo :
  let env := env_de df_repetida_existente in
  let resp := fst (procesar_archivo env [] "datos.csv"
                     (nuevo_servicio db_ejemplo)) in
  map numero_de (r_errors resp) = [Some 2%nat; Some 3%nat] /\
  exists js,
    map numero_de (r_errors resp)
    = (map Some js
         ++ match fst (intento env [] "datos.csv" (nuevo_servicio db_ejemplo)) with
            | Some _ => [None]
            | None => []
            end)%list /\
    StronglySorted lt js /\
    Forall (fun j => 2 <= j <= total_filas (r_summary resp) + 1)%nat js.
Proof.
  intros env resp. split; [vm_compute; reflexivity|].
  apply (errores_numerados env [] "datos.csv" db_ejemplo).
  intros df i H _. vm_compute in H. inversion H. reflexivity.
Defined.

End MasEjemplos.
